(** * EduMetro notes backend: note retrieval and engagement views

    A shallow embedding of [noteshare_backend/notes/views.py]
    ([NoteViewSet], [StarRatingViewSet], [CommentViewSet]) over an explicit
    relational store, followed by the properties of the listing query, the
    like/bookmark toggles, rating/comment creation, the download counter and
    the update restriction.

    The views are written against the Django ORM and Django REST framework.
    Tables are lists of rows in primary-key order; a queryset is the list of
    rows its SQL statement returns; a view takes the store and returns an
    outcome together with the new store.  Primary keys are positive
    numbers, timestamps and counters integers, and the average the database
    computes is kept as an exact rational. *)

From Stdlib Require Import String.
From Stdlib Require Import List Bool ZArith PArith QArith Lia Sorted Permutation.
Import ListNotations.

Local Open Scope string_scope.
Local Open Scope Z_scope.
Local Open Scope list_scope.

(** ** Data model *)

(** Primary keys are the values of an auto-incrementing id column. *)
Definition pk := positive.

Record User := {
  user_id : pk;
  username : string;
  is_staff : bool
}.

(** [request.user]: Django's [AnonymousUser] or a logged-in [User]. *)
Inductive RequestUser :=
| AnonymousUser
| Authenticated (u : User).

Definition is_authenticated (user : RequestUser) : bool :=
  match user with
  | AnonymousUser => false
  | Authenticated _ => true
  end.

(** [AnonymousUser.is_staff] is [False]. *)
Definition user_is_staff (user : RequestUser) : bool :=
  match user with
  | AnonymousUser => false
  | Authenticated u => is_staff u
  end.

(** Modelled from the spec: [models.py] is not among the sources.  The
    spec's data model gives a note a title, a description, a file, an
    uploader, categorisation fields, a download counter, an approval flag
    and timestamps.  The categorisation fields (category, course,
    department, faculty, semester, tags) are neither read nor written by the
    views below and are gathered in [categorisation]. *)
Record Note := {
  note_id : pk;
  title : string;
  description : string;
  file : option string;
  uploader : pk;
  categorisation : string;
  download_count : Z;
  is_approved : bool;
  created_at : Z
}.

(** Modelled from the spec: [models.py] is not among the sources.  A star
    rating references one note and one user and carries the stars. *)
Record StarRating := {
  rating_id : pk;
  rating_note : pk;
  rating_user : pk;
  stars : Z
}.

(** Modelled from the spec: a comment references one note and one user
    and carries its text. *)
Record Comment := {
  comment_id : pk;
  comment_note : pk;
  comment_user : pk;
  text : string
}.

(** Modelled from the spec: a like is a (note, user) row; its presence is
    the engagement. *)
Record Like := {
  like_id : pk;
  like_user : pk;
  like_note : pk
}.

(** Modelled from the spec: a bookmark is a (note, user) row, like a like. *)
Record Bookmark := {
  bookmark_id : pk;
  bookmark_user : pk;
  bookmark_note : pk
}.

(** The relational store: one list per table and the next value of each id
    sequence the views draw from. *)
Record DB := {
  notes : list Note;
  star_ratings : list StarRating;
  comments : list Comment;
  likes : list Like;
  bookmarks : list Bookmark;
  rating_seq : pk;
  comment_seq : pk;
  like_seq : pk;
  bookmark_seq : pk
}.

(** ** Exceptions, responses, outcomes *)

Inductive Exn :=
| DoesNotExist
| MultipleObjectsReturned
| Http404
| NotAuthenticated
| PermissionDenied (detail : string)
| ValidationError (key : string) (message : string)
| UnboundLocalError (name : string).

Inductive Body :=
| LikeBody (message : string) (liked : bool) (likes_count : nat)
| BookmarkBody (message : string) (bookmarked : bool) (bookmarks_count : nat)
| DownloadBody (detail : string) (file_url : string) (count : Z)
| DetailBody (detail : string).

(** What a handler hands back to the framework: a [Response] it built, or
    an exception that left the handler. *)
Inductive Outcome :=
| Response (body : Body) (status : Z)
| Raised (e : Exn).

Definition HTTP_200_OK : Z := 200.
Definition HTTP_404_NOT_FOUND : Z := 404.
Definition HTTP_500_INTERNAL_SERVER_ERROR : Z := 500.

(** REST framework's [exception_handler]: [Http404] becomes 404,
    [PermissionDenied] 403, [NotAuthenticated] 401, [ValidationError] 400;
    any other exception is re-raised and Django answers 500. *)
Definition exception_status (e : Exn) : Z :=
  match e with
  | Http404 => 404
  | NotAuthenticated => 401
  | PermissionDenied _ => 403
  | ValidationError _ _ => 400
  | DoesNotExist | MultipleObjectsReturned | UnboundLocalError _ => 500
  end.

Definition http_status (o : Outcome) : Z :=
  match o with
  | Response _ status => status
  | Raised e => exception_status e
  end.

(** [except Note.DoesNotExist]: only [DoesNotExist] is an instance. *)
Definition isinstance_DoesNotExist (e : Exn) : bool :=
  match e with
  | DoesNotExist => true
  | _ => false
  end.

(** ** Requests *)

Inductive Action :=
| list_action
| retrieve
| create
| update
| partial_update
| destroy
| download_action
| toggle_like_action
| toggle_bookmark_action
| my_uploaded_notes.

Inductive Method := GET | POST | PUT | PATCH | DELETE | HEAD | OPTIONS.

Definition SAFE_METHODS (m : Method) : bool :=
  match m with
  | GET | HEAD | OPTIONS => true
  | _ => false
  end.

Record Request := {
  req_user : RequestUser;
  req_method : Method;
  req_host : string
}.

Inductive Permission := AllowAny | IsAuthenticated | IsOwnerOrReadOnly.

(** [NoteViewSet.get_permissions]. *)
Definition get_permissions (action : Action) : list Permission :=
  match action with
  | list_action | retrieve => [AllowAny]
  | create | download_action | toggle_like_action | toggle_bookmark_action
  | my_uploaded_notes => [IsAuthenticated]
  | destroy => [IsAuthenticated; IsOwnerOrReadOnly]
  | update | partial_update => [IsAuthenticated; IsOwnerOrReadOnly]
  end.

(** [user == instance.uploader]: model instances are equal when their
    primary keys are; [AnonymousUser] equals no user row. *)
Definition user_eq_uploader (user : RequestUser) (n : Note) : bool :=
  match user with
  | AnonymousUser => false
  | Authenticated u => Pos.eqb (user_id u) (uploader n)
  end.

(** Modelled from the spec: [permissions.py] is not among the sources.  The
    spec describes [IsOwnerOrReadOnly] as the read-only versus
    owner-or-staff check on notes: safe methods pass, an unsafe method
    passes for the uploader and for staff.  The two framework classes are
    REST framework's own. *)
Definition has_object_permission (p : Permission) (request : Request) (obj : Note) : bool :=
  match p with
  | AllowAny => true
  | IsAuthenticated => true
  | IsOwnerOrReadOnly =>
      SAFE_METHODS (req_method request)
      || user_eq_uploader (req_user request) obj
      || user_is_staff (req_user request)
  end.

(** The request of a logged-in [user]. *)
Definition request_of (user : User) (method : Method) (host : string) : Request :=
  {| req_user := Authenticated user; req_method := method; req_host := host |}.

(** [APIView.permission_denied]. *)
Definition permission_denied (request : Request) : Exn :=
  if is_authenticated (req_user request)
  then PermissionDenied "You do not have permission to perform this action."
  else NotAuthenticated.

(** [APIView.check_object_permissions]: [None] when every class agrees. *)
Definition check_object_permissions (action : Action) (request : Request) (obj : Note)
  : option Exn :=
  if forallb (fun p => has_object_permission p request obj) (get_permissions action)
  then None
  else Some (permission_denied request).

(** ** The note listing query ([NoteViewSet.get_queryset])

    [annotate] with the aggregates [Avg('star_ratings__stars')],
    [Count('likes', distinct=True)] and [Count('bookmarks', distinct=True)]
    makes the ORM emit one statement over the note table LEFT OUTER JOINed
    with the rating, like and bookmark tables, grouped by the note columns
    and by every selected expression that is not an aggregate:

      SELECT note.id, ..., COALESCE(AVG(rating.stars), 0.0),
             COUNT(DISTINCT like.id), COUNT(DISTINCT bookmark.id),
             CASE WHEN like.user_id = u THEN true ELSE false END,
             CASE WHEN bookmark.user_id = u THEN true ELSE false END
      FROM note
        LEFT OUTER JOIN rating ON rating.note_id = note.id
        LEFT OUTER JOIN like ON like.note_id = note.id
        LEFT OUTER JOIN bookmark ON bookmark.note_id = note.id
      [WHERE note.is_approved]
      GROUP BY note.id, ...,
               CASE WHEN like.user_id = u THEN true ELSE false END,
               CASE WHEN bookmark.user_id = u THEN true ELSE false END
      ORDER BY note.created_at DESC

    The like join serves both [Count('likes')] and [likes__user], the
    bookmark join both [Count('bookmarks')] and [bookmarks__user].  For a
    logged-in viewer [u] the two [Case(When(...))] annotations are
    expressions over the joined like and bookmark rows, so they are part of
    the GROUP BY key; for an anonymous viewer they are the constant
    [Value(False)], which adds no grouping column.

    Below, [joined_rows] is the FROM clause for one note, [in_group] the
    GROUP BY key, [group_row] the SELECT list of one group. *)

(** LEFT OUTER JOIN: the related rows, or one NULL row when there are none. *)
Definition left_join {A : Type} (related : list A) : list (option A) :=
  match related with
  | [] => [None]
  | _ => map Some related
  end.

Definition JoinRow : Type := option StarRating * (option Like * option Bookmark).

Definition note_star_ratings (db : DB) (n : pk) : list StarRating :=
  filter (fun r => Pos.eqb (rating_note r) n) (star_ratings db).

Definition note_likes (db : DB) (n : pk) : list Like :=
  filter (fun l => Pos.eqb (like_note l) n) (likes db).

Definition note_bookmarks (db : DB) (n : pk) : list Bookmark :=
  filter (fun b => Pos.eqb (bookmark_note b) n) (bookmarks db).

Definition joined_rows (db : DB) (n : Note) : list JoinRow :=
  list_prod (left_join (note_star_ratings db (note_id n)))
    (list_prod (left_join (note_likes db (note_id n)))
               (left_join (note_bookmarks db (note_id n)))).

(** [When(likes__user=user, then=Value(True))] with [default=Value(False)];
    the comparison with a NULL like row is not true. *)
Definition Case_When_likes__user (user : RequestUser) (row : JoinRow) : bool :=
  match user with
  | Authenticated u =>
      match fst (snd row) with
      | Some l => Pos.eqb (like_user l) (user_id u)
      | None => false
      end
  | AnonymousUser => false
  end.

Definition Case_When_bookmarks__user (user : RequestUser) (row : JoinRow) : bool :=
  match user with
  | Authenticated u =>
      match snd (snd row) with
      | Some b => Pos.eqb (bookmark_user b) (user_id u)
      | None => false
      end
  | AnonymousUser => false
  end.

Definition sum_Z (l : list Z) : Z := fold_right Z.add 0 l.

(** The non-NULL [stars] values of a group of joined rows. *)
Definition group_stars (g : list JoinRow) : list Z :=
  flat_map (fun row => match fst row with Some r => [stars r] | None => [] end) g.

Definition group_like_ids (g : list JoinRow) : list pk :=
  flat_map (fun row => match fst (snd row) with Some l => [like_id l] | None => [] end) g.

Definition group_bookmark_ids (g : list JoinRow) : list pk :=
  flat_map (fun row => match snd (snd row) with Some b => [bookmark_id b] | None => [] end) g.

(** SQL [AVG]: NULL over no values, otherwise the exact mean (the database
    computes it; it is kept here as a rational). *)
Definition Avg (values : list Z) : option Q :=
  match values with
  | [] => None
  | _ => Some (inject_Z (sum_Z values) / inject_Z (Z.of_nat (length values)))%Q
  end.

Definition Coalesce (x : option Q) (default : Q) : Q :=
  match x with
  | Some q => q
  | None => default
  end.

(** SQL [COUNT(DISTINCT id)]. *)
Definition Count_distinct (ids : list pk) : nat :=
  length (nodup Pos.eq_dec ids).

(** One row of the annotated queryset. *)
Record AnnotatedNote := {
  row_note : Note;
  calculated_average_rating : Q;
  calculated_likes_count : nat;
  calculated_bookmarks_count : nat;
  is_liked_by_current_user_annotated : bool;
  is_bookmarked_by_current_user_annotated : bool
}.

(** The values the two per-viewer expressions can take: the GROUP BY keys
    of one note. *)
Definition group_keys : list (bool * bool) :=
  [(false, false); (false, true); (true, false); (true, true)].

Definition in_group (user : RequestUser) (key : bool * bool) (row : JoinRow) : bool :=
  Bool.eqb (Case_When_likes__user user row) (fst key)
  && Bool.eqb (Case_When_bookmarks__user user row) (snd key).

(** The result row of one group; a key no joined row has yields no row. *)
Definition group_row (user : RequestUser) (n : Note) (rows : list JoinRow)
    (key : bool * bool) : list AnnotatedNote :=
  match filter (in_group user key) rows with
  | [] => []
  | g =>
      [ {| row_note := n;
           calculated_average_rating := Coalesce (Avg (group_stars g)) 0%Q;
           calculated_likes_count := Count_distinct (group_like_ids g);
           calculated_bookmarks_count := Count_distinct (group_bookmark_ids g);
           is_liked_by_current_user_annotated := fst key;
           is_bookmarked_by_current_user_annotated := snd key |} ]
  end.

Definition annotate_note (user : RequestUser) (db : DB) (n : Note) : list AnnotatedNote :=
  flat_map (group_row user n (joined_rows db n)) group_keys.

(** [queryset.annotate] with the base and the per-viewer annotations. *)
Definition annotate (user : RequestUser) (db : DB) (queryset : list Note)
  : list AnnotatedNote :=
  flat_map (annotate_note user db) queryset.

(** [order_by('-created_at')], as a stable insertion sort. *)
Fixpoint insert_desc (r : AnnotatedNote) (l : list AnnotatedNote) : list AnnotatedNote :=
  match l with
  | [] => [r]
  | x :: xs =>
      if created_at (row_note x) <=? created_at (row_note r)
      then r :: x :: xs
      else x :: insert_desc r xs
  end.

Definition order_by_created_at_desc (l : list AnnotatedNote) : list AnnotatedNote :=
  fold_right insert_desc [] l.

Definition is_list_or_retrieve (action : Action) : bool :=
  match action with
  | list_action | retrieve => true
  | _ => false
  end.

Definition get_queryset (action : Action) (user : RequestUser) (db : DB)
  : list AnnotatedNote :=
  let queryset := notes db in
  let queryset := annotate user db queryset in
  let queryset :=
    if is_list_or_retrieve action
    then
      if negb (is_authenticated user) || negb (user_is_staff user)
      then filter (fun r => is_approved (row_note r)) queryset
      else queryset
    else queryset in
  order_by_created_at_desc queryset.

(** [GenericAPIView.get_object] for a request without query parameters (the
    filter backends then leave the queryset as it is):
    [get_object_or_404(queryset, pk=pk)] turns the ORM's [DoesNotExist] into
    [Http404] and lets [MultipleObjectsReturned] through; the object
    permissions are checked on the row found. *)
Definition get_object (action : Action) (request : Request) (db : DB) (pk_ : pk)
  : AnnotatedNote + Exn :=
  match filter (fun r => Pos.eqb (note_id (row_note r)) pk_)
               (get_queryset action (req_user request) db) with
  | [] => inr Http404
  | [obj] =>
      match check_object_permissions action request (row_note obj) with
      | Some e => inr e
      | None => inl obj
      end
  | _ => inr MultipleObjectsReturned
  end.

(** ** Writes to the store *)

Definition set_notes (db : DB) (ns : list Note) : DB :=
  {| notes := ns; star_ratings := star_ratings db; comments := comments db;
     likes := likes db; bookmarks := bookmarks db;
     rating_seq := rating_seq db; comment_seq := comment_seq db;
     like_seq := like_seq db; bookmark_seq := bookmark_seq db |}.

Definition set_likes (db : DB) (ls : list Like) (next : pk) : DB :=
  {| notes := notes db; star_ratings := star_ratings db; comments := comments db;
     likes := ls; bookmarks := bookmarks db;
     rating_seq := rating_seq db; comment_seq := comment_seq db;
     like_seq := next; bookmark_seq := bookmark_seq db |}.

Definition set_bookmarks (db : DB) (bs : list Bookmark) (next : pk) : DB :=
  {| notes := notes db; star_ratings := star_ratings db; comments := comments db;
     likes := likes db; bookmarks := bs;
     rating_seq := rating_seq db; comment_seq := comment_seq db;
     like_seq := like_seq db; bookmark_seq := next |}.

Definition set_star_ratings (db : DB) (rs : list StarRating) (next : pk) : DB :=
  {| notes := notes db; star_ratings := rs; comments := comments db;
     likes := likes db; bookmarks := bookmarks db;
     rating_seq := next; comment_seq := comment_seq db;
     like_seq := like_seq db; bookmark_seq := bookmark_seq db |}.

Definition set_comments (db : DB) (cs : list Comment) (next : pk) : DB :=
  {| notes := notes db; star_ratings := star_ratings db; comments := cs;
     likes := likes db; bookmarks := bookmarks db;
     rating_seq := rating_seq db; comment_seq := next;
     like_seq := like_seq db; bookmark_seq := bookmark_seq db |}.

(** [queryset.first()]: the first row in primary-key order. *)
Definition first {A : Type} (queryset : list A) : option A := hd_error queryset.

(** [Like.objects.filter(user=user, note=note)]. *)
Definition Like_filter (db : DB) (user : User) (note : Note) : list Like :=
  filter (fun l => Pos.eqb (like_user l) (user_id user)
                   && Pos.eqb (like_note l) (note_id note)) (likes db).

(** [like_instance.delete()]: DELETE by primary key. *)
Definition Like_delete (like_instance : Like) (db : DB) : DB :=
  set_likes db
    (filter (fun l => negb (Pos.eqb (like_id l) (like_id like_instance))) (likes db))
    (like_seq db).

(** [Like.objects.create(user=user, note=note)]: INSERT with the next id. *)
Definition Like_create (user : User) (note : Note) (db : DB) : DB :=
  set_likes db
    (likes db ++ [ {| like_id := like_seq db; like_user := user_id user;
                      like_note := note_id note |} ])
    (Pos.succ (like_seq db)).

Definition Bookmark_filter (db : DB) (user : User) (note : Note) : list Bookmark :=
  filter (fun b => Pos.eqb (bookmark_user b) (user_id user)
                   && Pos.eqb (bookmark_note b) (note_id note)) (bookmarks db).

Definition Bookmark_delete (bookmark_instance : Bookmark) (db : DB) : DB :=
  set_bookmarks db
    (filter (fun b => negb (Pos.eqb (bookmark_id b) (bookmark_id bookmark_instance)))
            (bookmarks db))
    (bookmark_seq db).

Definition Bookmark_create (user : User) (note : Note) (db : DB) : DB :=
  set_bookmarks db
    (bookmarks db ++ [ {| bookmark_id := bookmark_seq db; bookmark_user := user_id user;
                          bookmark_note := note_id note |} ])
    (Pos.succ (bookmark_seq db)).

(** ** Engagement toggles *)

(** [prefetch_related('likes', 'bookmarks')] in [get_queryset]: when
    [get_object] evaluates the queryset, two further queries read the like
    and the bookmark rows of the note found and keep them on the instance.
    [note.likes.count()] and [note.bookmarks.count()] answer from these
    caches, with the number of rows read then: [Like.objects.create] and
    [like_instance.delete()] do not go through the instance and leave its
    cache as it was. *)
Definition prefetch_related_likes (db : DB) (note : Note) : list Like :=
  note_likes db (note_id note).

Definition prefetch_related_bookmarks (db : DB) (note : Note) : list Bookmark :=
  note_bookmarks db (note_id note).

(** [NoteViewSet.toggle_like].  The action requires [IsAuthenticated], so the
    handler runs for a logged-in [user].  [get_object] is the first
    statement of the [try] block and [user = request.user] the second: when
    [get_object] raises, the clause [except Note.DoesNotExist] is tried
    first, and the final [except Exception] clause formats
    [user.username] for the log before [user] was ever assigned. *)
Definition toggle_like (user : User) (host : string) (pk_ : pk) (db : DB)
  : Outcome * DB :=
  let request := request_of user POST host in
  match get_object toggle_like_action request db pk_ with
  | inr e =>
      if isinstance_DoesNotExist e
      then (Response (DetailBody "Note not found.") HTTP_404_NOT_FOUND, db)
      else (Raised (UnboundLocalError "user"), db)
  | inl obj =>
      let note := row_note obj in
      let note_likes_cache := prefetch_related_likes db note in
      match first (Like_filter db user note) with
      | Some like_instance =>
          let db := Like_delete like_instance db in
          let likes_count := length note_likes_cache in
          (Response (LikeBody "Note unliked successfully." false likes_count)
                    HTTP_200_OK, db)
      | None =>
          let db := Like_create user note db in
          let likes_count := length note_likes_cache in
          (Response (LikeBody "Note liked successfully." true likes_count)
                    HTTP_200_OK, db)
      end
  end.

(** [NoteViewSet.toggle_bookmark]. *)
Definition toggle_bookmark (user : User) (host : string) (pk_ : pk) (db : DB)
  : Outcome * DB :=
  let request := request_of user POST host in
  match get_object toggle_bookmark_action request db pk_ with
  | inr e =>
      if isinstance_DoesNotExist e
      then (Response (DetailBody "Note not found.") HTTP_404_NOT_FOUND, db)
      else (Raised (UnboundLocalError "user"), db)
  | inl obj =>
      let note := row_note obj in
      let note_bookmarks_cache := prefetch_related_bookmarks db note in
      match first (Bookmark_filter db user note) with
      | Some bookmark_instance =>
          let db := Bookmark_delete bookmark_instance db in
          let bookmarks_count := length note_bookmarks_cache in
          (Response (BookmarkBody "Note removed from bookmarks." false bookmarks_count)
                    HTTP_200_OK, db)
      | None =>
          let db := Bookmark_create user note db in
          let bookmarks_count := length note_bookmarks_cache in
          (Response (BookmarkBody "Note bookmarked successfully." true bookmarks_count)
                    HTTP_200_OK, db)
      end
  end.

(** ** Download *)

Definition with_download_count (n : Note) (c : Z) : Note :=
  {| note_id := note_id n; title := title n; description := description n;
     file := file n; uploader := uploader n; categorisation := categorisation n;
     download_count := c; is_approved := is_approved n; created_at := created_at n |}.

(** [note.download_count = F('download_count') + 1] followed by
    [note.save(update_fields=['download_count'])]: one UPDATE of that column,
    computed by the database, on the row with the note's primary key. *)
Definition save_download_count_F_plus_1 (note : Note) (db : DB) : DB :=
  set_notes db
    (map (fun n => if Pos.eqb (note_id n) (note_id note)
                   then with_download_count n (download_count n + 1)
                   else n)
         (notes db)).

(** [note.refresh_from_db()]: reload the row by primary key. *)
Definition refresh_from_db (note : Note) (db : DB) : option Note :=
  find (fun n => Pos.eqb (note_id n) (note_id note)) (notes db).

Definition build_absolute_uri (request : Request) (url : string) : string :=
  String.append (req_host request) url.

(** [NoteViewSet.download]; nothing is caught here, an exception of
    [get_object] leaves the handler. *)
Definition download (user : User) (host : string) (pk_ : pk) (db : DB)
  : Outcome * DB :=
  let request := request_of user GET host in
  match get_object download_action request db pk_ with
  | inr e => (Raised e, db)
  | inl obj =>
      let note := row_note obj in
      let db := save_download_count_F_plus_1 note db in
      match refresh_from_db note db with
      | None => (Raised DoesNotExist, db)
      | Some note =>
          let file_url :=
            match file note with
            | Some url => build_absolute_uri request url
            | None => ""
            end in
          (Response
             (DownloadBody
                "Download initiated (count incremented). Please use the file_url to download."
                file_url (download_count note))
             HTTP_200_OK, db)
      end
  end.

(** ** Note update *)

(** Modelled from the spec: [serializers.py] is not among the sources.  The
    validated data of an update carries the editable note fields; a field a
    partial update leaves out is [None]. *)
Record NoteData := {
  data_title : option string;
  data_description : option string;
  data_categorisation : option string
}.

Definition from_option {A : Type} (o : option A) (d : A) : A :=
  match o with
  | Some x => x
  | None => d
  end.

(** Modelled from the spec: [NoteSerializer.save()] on an update writes the
    validated fields to the row of the serializer's instance and leaves the
    uploader, the counters, the approval flag and the creation time alone. *)
Definition serializer_save_note (pk_ : pk) (data : NoteData) (db : DB) : DB :=
  set_notes db
    (map (fun n =>
            if Pos.eqb (note_id n) pk_
            then {| note_id := note_id n;
                    title := from_option (data_title data) (title n);
                    description := from_option (data_description data) (description n);
                    file := file n; uploader := uploader n;
                    categorisation :=
                      from_option (data_categorisation data) (categorisation n);
                    download_count := download_count n;
                    is_approved := is_approved n; created_at := created_at n |}
            else n)
         (notes db)).

(** [NoteViewSet.perform_update], reached for the [update] (PUT) and
    [partial_update] (PATCH) actions of a logged-in [user]; [None] is the
    normal return. *)
Definition perform_update (user : User) (partial : bool) (host : string) (pk_ : pk)
    (data : NoteData) (db : DB) : option Exn * DB :=
  let action := if partial then partial_update else update in
  let request := request_of user (if partial then PATCH else PUT) host in
  match get_object action request db pk_ with
  | inr e => (Some e, db)
  | inl obj =>
      let instance := row_note obj in
      if user_eq_uploader (Authenticated user) instance && negb (is_staff user)
      then (Some (PermissionDenied
                    "You are not allowed to edit this note. Only administrators can edit notes after creation, or if you want to update it, please delete it and upload a new one."),
            db)
      else (None, serializer_save_note pk_ data db)
  end.

(** ** Rating and comment creation *)

(** [request.data.get('note')] for a JSON body: absent, or a number.
    [not note_id_from_request] holds for [None] and for [0]. *)
Definition falsy (note_id_from_request : option Z) : bool :=
  match note_id_from_request with
  | None => true
  | Some z => z =? 0
  end.

(** [get_object_or_404(Note, pk=...)] on the plain note table. *)
Definition get_object_or_404 (db : DB) (pk_value : option Z) : Note + Exn :=
  match filter (fun n => match pk_value with
                         | Some z => Z.pos (note_id n) =? z
                         | None => false
                         end) (notes db) with
  | [] => inr Http404
  | [n] => inl n
  | _ => inr MultipleObjectsReturned
  end.

Definition StarRating_filter (db : DB) (note : Note) (user : User) : list StarRating :=
  filter (fun r => Pos.eqb (rating_note r) (note_id note)
                   && Pos.eqb (rating_user r) (user_id user)) (star_ratings db).

Definition Comment_filter (db : DB) (note : Note) (user : User) : list Comment :=
  filter (fun c => Pos.eqb (comment_note c) (note_id note)
                   && Pos.eqb (comment_user c) (user_id user)) (comments db).

(** Modelled from the spec: [StarRatingSerializer.save(user=..., note=...)]
    on a create inserts one rating row with the validated [stars]. *)
Definition serializer_save_rating (user : User) (note : Note) (stars_ : Z) (db : DB) : DB :=
  set_star_ratings db
    (star_ratings db ++ [ {| rating_id := rating_seq db; rating_note := note_id note;
                             rating_user := user_id user; stars := stars_ |} ])
    (Pos.succ (rating_seq db)).

(** Modelled from the spec: [CommentSerializer.save(user=..., note=...)] on
    a create inserts one comment row with the validated [text]. *)
Definition serializer_save_comment (user : User) (note : Note) (text_ : string) (db : DB)
  : DB :=
  set_comments db
    (comments db ++ [ {| comment_id := comment_seq db; comment_note := note_id note;
                         comment_user := user_id user; text := text_ |} ])
    (Pos.succ (comment_seq db)).

Definition rating_required : Exn :=
  ValidationError "note" "This field is required to create a rating.".

Definition already_rated : Exn :=
  ValidationError "detail"
    "You have already rated this note. You can update your existing rating by sending a PUT/PATCH request to its ID.".

Definition comment_required : Exn :=
  ValidationError "note" "This field is required to create a comment.".

Definition already_commented : Exn :=
  ValidationError "detail"
    "You have already commented on this note. You can update your existing comment by sending a PUT/PATCH request to its ID.".

(** [StarRatingViewSet.perform_create]; [None] is the normal return. *)
Definition StarRating_perform_create (user : User) (note_id_from_request : option Z)
    (stars_ : Z) (db : DB) : option Exn * DB :=
  if falsy note_id_from_request
  then (Some rating_required, db)
  else
    match get_object_or_404 db note_id_from_request with
    | inr e => (Some e, db)
    | inl note_instance =>
        match first (StarRating_filter db note_instance user) with
        | Some existing_rating => (Some already_rated, db)
        | None => (None, serializer_save_rating user note_instance stars_ db)
        end
    end.

(** [CommentViewSet.perform_create]. *)
Definition Comment_perform_create (user : User) (note_id_from_request : option Z)
    (text_ : string) (db : DB) : option Exn * DB :=
  if falsy note_id_from_request
  then (Some comment_required, db)
  else
    match get_object_or_404 db note_id_from_request with
    | inr e => (Some e, db)
    | inl note_instance =>
        match first (Comment_filter db note_instance user) with
        | Some existing_comment => (Some already_commented, db)
        | None => (None, serializer_save_comment user note_instance text_ db)
        end
    end.

(** ** View-level permissions *)

(** [APIView.check_permissions], run by [initial] before any handler: the
    classes of [get_permissions] are asked in order and the first refusal
    raises.  [AllowAny] and [IsAuthenticated] are REST framework's;
    [permissions.py] is not among the sources, so the view-level answer of
    [IsOwnerOrReadOnly] is left open. *)
Section ViewPermissions.

Variable IsOwnerOrReadOnly_has_permission : Request -> bool.

Definition has_permission (p : Permission) (request : Request) : bool :=
  match p with
  | AllowAny => true
  | IsAuthenticated => is_authenticated (req_user request)
  | IsOwnerOrReadOnly => IsOwnerOrReadOnly_has_permission request
  end.

Definition check_permissions (action : Action) (request : Request) : option Exn :=
  if forallb (fun p => has_permission p request) (get_permissions action)
  then None
  else Some (permission_denied request).

End ViewPermissions.

(** ** The uploader's own notes ([NoteViewSet.my_uploaded_notes])

    [Note.objects.filter(uploader=user).order_by('-created_at')] with the
    same joins and the per-viewer annotations of a logged-in user; the
    request carries no query parameters, so [filter_queryset] leaves the
    rows as they are.  The rows computed here are what the handler hands
    to the paginator and the serializer. *)
Definition my_uploaded_notes_queryset (user : User) (db : DB) : list AnnotatedNote :=
  let queryset := filter (fun n => Pos.eqb (uploader n) (user_id user)) (notes db) in
  let queryset := annotate (Authenticated user) db queryset in
  order_by_created_at_desc queryset.

(** ** The admin change list ([notes/admin.py]) *)

(** [CommentAdmin.comment_summary]: texts longer than 50 characters are cut
    to 50 and marked with an ellipsis, an empty text shows as a dash.  A
    character of the string stands for one code point of the Python
    string. *)
Definition comment_summary (obj : Comment) : string :=
  if (String.length (text obj) =? 0)%nat
  then "-"
  else if (50 <? String.length (text obj))%nat
       then String.append (String.substring 0 50 (text obj)) "..."
       else text obj.

(** ** A small store used in the examples *)

Definition alice : User := {| user_id := 1%positive; username := "alice"; is_staff := false |}.
Definition bob : User := {| user_id := 2%positive; username := "bob"; is_staff := false |}.
Definition admin : User := {| user_id := 3%positive; username := "admin"; is_staff := true |}.

Definition note1 : Note :=
  {| note_id := 1%positive; title := "Algebra"; description := "Week 1";
     file := Some "/media/algebra.pdf"; uploader := 1%positive;
     categorisation := "CSE"; download_count := 4; is_approved := true;
     created_at := 100 |}.

Definition note2 : Note :=
  {| note_id := 2%positive; title := "Calculus"; description := "Week 2";
     file := None; uploader := 2%positive;
     categorisation := "CSE"; download_count := 0; is_approved := false;
     created_at := 200 |}.

Definition like_of (i u n : positive) : Like :=
  {| like_id := i; like_user := u; like_note := n |}.

Definition bookmark_of (i u n : positive) : Bookmark :=
  {| bookmark_id := i; bookmark_user := u; bookmark_note := n |}.

Definition rating_of (i n u : positive) (s : Z) : StarRating :=
  {| rating_id := i; rating_note := n; rating_user := u; stars := s |}.

(** Two notes, no engagement rows. *)
Definition db0 : DB :=
  {| notes := [note1; note2]; star_ratings := []; comments := [];
     likes := []; bookmarks := [];
     rating_seq := 1%positive; comment_seq := 1%positive;
     like_seq := 1%positive; bookmark_seq := 1%positive |}.

(** [note1] is liked by bob only. *)
Definition db_liked_by_bob : DB :=
  set_likes db0 [like_of 1 2 1] 2%positive.

(** [note2], which is not approved, is liked by bob and by alice, in the
    order in which they liked it. *)
Definition db_note2_liked_by_both : DB :=
  set_likes db0 [like_of 1 2 2; like_of 2 1 2] 3%positive.

(** [note1] is liked by alice and by bob. *)
Definition db_liked_by_both : DB :=
  set_likes db0 [like_of 1 1 1; like_of 2 2 1] 3%positive.

(** [note1] is bookmarked by alice and by bob. *)
Definition db_bookmarked_by_both : DB :=
  set_bookmarks db0 [bookmark_of 1 1 1; bookmark_of 2 2 1] 3%positive.

Definition new_title_only : NoteData :=
  {| data_title := Some "Linear algebra"; data_description := None;
     data_categorisation := None |}.

Definition testserver : string := "http://testserver".

(** [note1] is liked by alice only. *)
Definition db_liked_by_alice : DB :=
  set_likes db0 [like_of 1 1 1] 2%positive.

(** [note1] is rated 4 by alice and 5 by bob, and liked by both. *)
Definition db_rated : DB :=
  set_star_ratings db_liked_by_both [rating_of 1 1 1 4; rating_of 2 1 2 5] 3%positive.

(** The annotated row of a note nobody rated, liked or bookmarked. *)
Definition plain_row (n : Note) : AnnotatedNote :=
  {| row_note := n; calculated_average_rating := 0%Q;
     calculated_likes_count := 0; calculated_bookmarks_count := 0;
     is_liked_by_current_user_annotated := false;
     is_bookmarked_by_current_user_annotated := false |}.

(** ** Vocabulary of the properties *)

Definition is_ValidationError (e : option Exn) : bool :=
  match e with
  | Some (ValidationError _ _) => true
  | _ => false
  end.

Definition has_like (db : DB) (user : User) (n : pk) : bool :=
  existsb (fun l => Pos.eqb (like_user l) (user_id user) && Pos.eqb (like_note l) n)
          (likes db).

Definition has_bookmark (db : DB) (user : User) (n : pk) : bool :=
  existsb (fun b => Pos.eqb (bookmark_user b) (user_id user) && Pos.eqb (bookmark_note b) n)
          (bookmarks db).

(** The number of like rows and of bookmark rows a note has in the store. *)
Definition likes_count_of (db : DB) (n : pk) : nat := length (note_likes db n).
Definition bookmarks_count_of (db : DB) (n : pk) : nat := length (note_bookmarks db n).

(** The mean of a note's star ratings, 0 when it has none. *)
Definition mean_stars (db : DB) (n : pk) : Q :=
  Coalesce (Avg (map stars (note_star_ratings db n))) 0%Q.

(** The non-NULL [stars] of the rating side of a join. *)
Definition stars_of (side : list (option StarRating)) : list Z :=
  flat_map (fun o => match o with Some r => [stars r] | None => [] end) side.

(** The part of a joined row the two per-viewer expressions read. *)
Definition in_group_engagement (user : RequestUser) (key : bool * bool)
    (lb : option Like * option Bookmark) : bool :=
  in_group user key (None, lb).

(** [likes__user = user] on a like row, [bookmarks__user = user] on a
    bookmark row. *)
Definition like_is_mine (user : RequestUser) (l : Like) : bool :=
  match user with
  | Authenticated u => Pos.eqb (like_user l) (user_id u)
  | AnonymousUser => false
  end.

Definition bookmark_is_mine (user : RequestUser) (b : Bookmark) : bool :=
  match user with
  | Authenticated u => Pos.eqb (bookmark_user b) (user_id u)
  | AnonymousUser => false
  end.

(** The likes of note [n] are all the viewer's or all other users', and so
    are its bookmarks: the joined rows of [n] then fall into one group. *)
Definition one_group (user : RequestUser) (db : DB) (n : pk) : Prop :=
  (forall l1 l2, In l1 (note_likes db n) -> In l2 (note_likes db n) ->
                 like_is_mine user l1 = like_is_mine user l2)
  /\ (forall b1 b2, In b1 (note_bookmarks db n) -> In b2 (note_bookmarks db n) ->
                    bookmark_is_mine user b1 = bookmark_is_mine user b2).

(** The viewer's like on note [n] stands beside another user's like, or
    the viewer's bookmark beside another user's bookmark. *)
Definition liked_or_bookmarked_with_others (user : RequestUser) (db : DB) (n : pk)
  : Prop :=
  (exists l1 l2, In l1 (note_likes db n) /\ In l2 (note_likes db n)
                 /\ like_is_mine user l1 = true /\ like_is_mine user l2 = false)
  \/ (exists b1 b2, In b1 (note_bookmarks db n) /\ In b2 (note_bookmarks db n)
                    /\ bookmark_is_mine user b1 = true
                    /\ bookmark_is_mine user b2 = false).

(** At most one star rating, and at most one comment, per (user, note)
    pair. *)
Definition unique_ratings (db : DB) : Prop :=
  NoDup (map (fun r => (rating_user r, rating_note r)) (star_ratings db)).

Definition unique_comments (db : DB) : Prop :=
  NoDup (map (fun c => (comment_user c, comment_note c)) (comments db)).

Definition has_rating (db : DB) (user : User) (n : pk) : bool :=
  existsb (fun r => Pos.eqb (rating_note r) n && Pos.eqb (rating_user r) (user_id user))
          (star_ratings db).

Definition has_comment (db : DB) (user : User) (n : pk) : bool :=
  existsb (fun c => Pos.eqb (comment_note c) n && Pos.eqb (comment_user c) (user_id user))
          (comments db).

(** A rewrite of note rows, on the store and on annotated rows. *)
Definition map_notes (f : Note -> Note) (db : DB) : DB :=
  set_notes db (map f (notes db)).

Definition map_row (f : Note -> Note) (r : AnnotatedNote) : AnnotatedNote :=
  {| row_note := f (row_note r);
     calculated_average_rating := calculated_average_rating r;
     calculated_likes_count := calculated_likes_count r;
     calculated_bookmarks_count := calculated_bookmarks_count r;
     is_liked_by_current_user_annotated := is_liked_by_current_user_annotated r;
     is_bookmarked_by_current_user_annotated := is_bookmarked_by_current_user_annotated r |}.

(** What the UPDATE of [download] does to one note row. *)
Definition count_download (pk_ : pk) (n : Note) : Note :=
  if Pos.eqb (note_id n) pk_ then with_download_count n (download_count n + 1) else n.

(** [k] downloads of the same note by the same user, one after the other. *)
Definition downloads (k : nat) (user : User) (host : string) (pk_ : pk) (db : DB) : DB :=
  Nat.iter k (fun d => snd (download user host pk_ d)) db.

Definition count_of_note (db : DB) (pk_ : pk) : option Z :=
  option_map download_count (find (fun n => Pos.eqb (note_id n) pk_) (notes db)).

(** At most one like, and at most one bookmark, per (user, note) pair. *)
Definition unique_likes (db : DB) : Prop :=
  NoDup (map (fun l => (like_user l, like_note l)) (likes db)).

Definition unique_bookmarks (db : DB) : Prop :=
  NoDup (map (fun b => (bookmark_user b, bookmark_note b)) (bookmarks db)).

Definition engagement_invariant (db : DB) : Prop :=
  unique_likes db /\ unique_bookmarks db.

(** Primary keys identify rows. *)
Definition primary_keys_unique (db : DB) : Prop :=
  NoDup (map note_id (notes db))
  /\ NoDup (map like_id (likes db))
  /\ NoDup (map bookmark_id (bookmarks db)).

(** The id sequences run ahead of the ids in use (what the database's
    auto-increment guarantees). *)
Definition fresh_sequences (db : DB) : Prop :=
  (forall l, In l (likes db) -> (like_id l < like_seq db)%positive)
  /\ (forall b, In b (bookmarks db) -> (bookmark_id b < bookmark_seq db)%positive).

(** The operations of the subsystem that write to the store. *)
Inductive Operation :=
| Op_toggle_like (user : User) (host : string) (pk_ : pk)
| Op_toggle_bookmark (user : User) (host : string) (pk_ : pk)
| Op_download (user : User) (host : string) (pk_ : pk)
| Op_perform_update (user : User) (partial : bool) (host : string) (pk_ : pk)
    (data : NoteData)
| Op_rating_create (user : User) (note_id_from_request : option Z) (stars_ : Z)
| Op_comment_create (user : User) (note_id_from_request : option Z) (text_ : string).

Definition run (op : Operation) (db : DB) : DB :=
  match op with
  | Op_toggle_like user host pk_ => snd (toggle_like user host pk_ db)
  | Op_toggle_bookmark user host pk_ => snd (toggle_bookmark user host pk_ db)
  | Op_download user host pk_ => snd (download user host pk_ db)
  | Op_perform_update user partial host pk_ data =>
      snd (perform_update user partial host pk_ data db)
  | Op_rating_create user ref stars_ => snd (StarRating_perform_create user ref stars_ db)
  | Op_comment_create user ref text_ => snd (Comment_perform_create user ref text_ db)
  end.

Definition with_is_approved (n : Note) (b : bool) : Note :=
  {| note_id := note_id n; title := title n; description := description n;
     file := file n; uploader := uploader n; categorisation := categorisation n;
     download_count := download_count n; is_approved := b; created_at := created_at n |}.

Definition approve_note (pk_ : pk) (b : bool) (n : Note) : Note :=
  if Pos.eqb (note_id n) pk_ then with_is_approved n b else n.

(** The store with the approval flag of note [pk_] set to [b] (what the
    admin screen's approval does). *)
Definition set_approved (pk_ : pk) (b : bool) (db : DB) : DB :=
  set_notes db (map (approve_note pk_ b) (notes db)).

Definition approve_row (pk_ : pk) (b : bool) (r : AnnotatedNote) : AnnotatedNote :=
  {| row_note := approve_note pk_ b (row_note r);
     calculated_average_rating := calculated_average_rating r;
     calculated_likes_count := calculated_likes_count r;
     calculated_bookmarks_count := calculated_bookmarks_count r;
     is_liked_by_current_user_annotated := is_liked_by_current_user_annotated r;
     is_bookmarked_by_current_user_annotated := is_bookmarked_by_current_user_annotated r |}.

(** Newest first: a row never precedes a strictly newer one. *)
Definition newer_or_equal (a b : AnnotatedNote) : Prop :=
  created_at (row_note b) <= created_at (row_note a).

(** A comment of 60 characters. *)
Definition long_comment : Comment :=
  {| comment_id := 1%positive; comment_note := 1%positive;
     comment_user := 2%positive;
     text := "Very clear notes, the worked examples on page 3 helped a lot" |}.

(** * Properties *)

(** Distinct keys of a concrete table. *)
Ltac distinct_keys := simpl; repeat constructor; simpl; intuition discriminate.

(** ** The handlers on the example stores *)

Example anonymous_listing_of_rated_note :
  map (fun r => (note_id (row_note r), calculated_average_rating r,
                 calculated_likes_count r, is_liked_by_current_user_annotated r))
      (get_queryset list_action AnonymousUser db_rated)
  = [(1%positive, (18 # 4)%Q, 2%nat, false)].
Proof. reflexivity. Qed.

Example staff_listing_shows_unapproved_note :
  map (fun r => note_id (row_note r))
      (get_queryset list_action (Authenticated admin) db_rated)
  = [2%positive; 1%positive].
Proof. reflexivity. Qed.

Example unlike_own_like :
  toggle_like alice testserver 1%positive db_liked_by_alice
  = (Response (LikeBody "Note unliked successfully." false 1) HTTP_200_OK,
     set_likes db0 [] 2%positive).
Proof. reflexivity. Qed.

Example download_by_another_user :
  fst (download bob testserver 1%positive db_liked_by_alice)
  = Response
      (DownloadBody
         "Download initiated (count incremented). Please use the file_url to download."
         "http://testserver/media/algebra.pdf" 5)
      HTTP_200_OK.
Proof. reflexivity. Qed.

Example update_by_uploader_denied :
  exception_status
    (from_option (fst (perform_update alice false testserver 1%positive
                         new_title_only db0)) Http404)
  = 403.
Proof. reflexivity. Qed.

Example update_by_staff_saved :
  map title (notes (snd (perform_update admin false testserver 1%positive
                           new_title_only db0)))
  = ["Linear algebra"; "Calculus"].
Proof. reflexivity. Qed.

Example rating_twice_rejected :
  fst (StarRating_perform_create alice (Some 1) 5
         (snd (StarRating_perform_create alice (Some 1) 4 db0)))
  = Some already_rated.
Proof. reflexivity. Qed.

(** ** Lists of rows *)

Lemma existsb_false_filter {A : Type} (p : A -> bool) (l : list A) :
  existsb p l = false <-> filter p l = [].
Proof.
  induction l as [|a l IH]; simpl; [tauto|].
  destruct (p a); simpl; [split; discriminate | exact IH].
Qed.

Lemma filter_nil_forall {A : Type} (p : A -> bool) (l : list A) :
  filter p l = [] -> forall x, In x l -> p x = false.
Proof.
  intros H x Hx. destruct (p x) eqn:E; [|reflexivity].
  assert (In x (filter p l)) by (apply filter_In; auto).
  rewrite H in *. contradiction.
Qed.

Lemma filter_all {A : Type} (p : A -> bool) (l : list A) :
  (forall x, p x = true) -> filter p l = l.
Proof. intros H. induction l as [|a l IH]; simpl; [|rewrite H, IH]; reflexivity. Qed.

Lemma filter_none {A : Type} (p : A -> bool) (l : list A) :
  (forall x, p x = false) -> filter p l = [].
Proof. intros H. induction l as [|a l IH]; simpl; [|rewrite H, IH]; reflexivity. Qed.

Lemma filter_In_all {A : Type} (p : A -> bool) (l : list A) :
  (forall x, In x l -> p x = true) -> filter p l = l.
Proof.
  induction l as [|a l IH]; simpl; intros H; [reflexivity|].
  rewrite (H a (or_introl eq_refl)). f_equal. apply IH. auto.
Qed.

Lemma filter_In_none {A : Type} (p : A -> bool) (l : list A) :
  (forall x, In x l -> p x = false) -> filter p l = [].
Proof.
  induction l as [|a l IH]; simpl; intros H; [reflexivity|].
  rewrite (H a (or_introl eq_refl)). apply IH. auto.
Qed.

Lemma filter_Permutation {A : Type} (p : A -> bool) (l l' : list A) :
  Permutation l l' -> Permutation (filter p l) (filter p l').
Proof.
  induction 1 as [|x l l' _ IH|x y l|l l' l'' _ IH1 _ IH2]; simpl.
  - constructor.
  - destruct (p x); [constructor|]; exact IH.
  - destruct (p x), (p y); try reflexivity. apply perm_swap.
  - now transitivity (filter p l').
Qed.

Lemma filter_other_keys {A : Type} (key : A -> positive) (k : positive) (l : list A) :
  ~ In k (map key l) ->
  filter (fun y => negb (Pos.eqb (key y) k)) l = l.
Proof.
  induction l as [|b l IH]; simpl; [reflexivity|].
  intros Hnin. destruct (Pos.eqb (key b) k) eqn:E; simpl.
  - apply Pos.eqb_eq in E. tauto.
  - f_equal. apply IH. tauto.
Qed.

Lemma filter_key_unique {A : Type} (key : A -> positive) (l : list A) (x : A) :
  NoDup (map key l) -> In x l ->
  filter (fun y => Pos.eqb (key y) (key x)) l = [x].
Proof.
  induction l as [|a l IH]; simpl; [tauto|].
  intros Hnd Hin. inversion Hnd as [|? ? Hnin Hnd']; subst.
  destruct Hin as [->|Hin].
  - rewrite Pos.eqb_refl. f_equal.
    destruct (filter (fun y => Pos.eqb (key y) (key x)) l) as [|b bs] eqn:F; [reflexivity|].
    exfalso. apply Hnin.
    assert (Hb : In b (filter (fun y => Pos.eqb (key y) (key x)) l))
      by (rewrite F; left; reflexivity).
    apply filter_In in Hb. destruct Hb as [Hb Hk]. apply Pos.eqb_eq in Hk.
    rewrite <- Hk. now apply in_map.
  - assert (Hne : Pos.eqb (key a) (key x) = false).
    { apply Pos.eqb_neq. intros E. apply Hnin. rewrite E. now apply in_map. }
    rewrite Hne. auto.
Qed.

(** Deleting by a unique key removes exactly one of the rows a second
    filter keeps, when that filter keeps the deleted row. *)
Lemma length_filter_delete {A : Type} (key : A -> positive) (q : A -> bool)
    (l : list A) (x : A) :
  NoDup (map key l) -> In x l -> q x = true ->
  S (length (filter q (filter (fun y => negb (Pos.eqb (key y) (key x))) l)))
  = length (filter q l).
Proof.
  induction l as [|a l IH]; simpl; [tauto|].
  intros Hnd Hin Hq. inversion Hnd as [|? ? Hnin Hnd']; subst.
  destruct Hin as [->|Hin].
  - rewrite Pos.eqb_refl, Hq. simpl.
    now rewrite filter_other_keys.
  - assert (Hne : Pos.eqb (key a) (key x) = false).
    { apply Pos.eqb_neq. intros E. apply Hnin. rewrite E. now apply in_map. }
    rewrite Hne. simpl. destruct (q a); simpl; rewrite <- (IH Hnd' Hin Hq); reflexivity.
Qed.

Lemma NoDup_map_filter {Row Key : Type} (key : Row -> Key) (keep : Row -> bool)
    (rows : list Row) (Hnd : NoDup (map key rows)) :
  NoDup (map key (filter keep rows)).
Proof.
  induction rows as [|a rows IH]; simpl; [constructor|].
  simpl in Hnd. inversion Hnd as [|? ? Hnin Hnd']; subst.
  destruct (keep a); simpl; auto.
  constructor; auto.
  intros Hin. apply Hnin. apply in_map_iff in Hin. destruct Hin as (x & Hx & Hin).
  apply filter_In in Hin. apply in_map_iff. exists x. tauto.
Qed.

Lemma NoDup_map_snoc {A B : Type} (f : A -> B) (l : list A) (x : A) :
  NoDup (map f l) -> (forall y, In y l -> f y <> f x) ->
  NoDup (map f (l ++ [x])).
Proof.
  intros Hnd Hx. rewrite map_app. simpl.
  apply NoDup_app; [exact Hnd | repeat constructor; simpl; tauto |].
  intros b Hb [<-|[]]. apply in_map_iff in Hb. destruct Hb as (y & Hy & Hin).
  exact (Hx y Hin Hy).
Qed.

Lemma NoDup_map_In_inj {A B : Type} (f : A -> B) (l : list A) (a b : A) :
  NoDup (map f l) -> In a l -> In b l -> f a = f b -> a = b.
Proof.
  induction l as [|x l IH]; simpl; [tauto|].
  intros H Ha Hb Hf. inversion H as [|? ? Hnin Hnd]; subst.
  destruct Ha as [->|Ha], Hb as [->|Hb]; auto.
  - exfalso. apply Hnin. rewrite Hf. now apply in_map.
  - exfalso. apply Hnin. rewrite <- Hf. now apply in_map.
Qed.

Lemma flat_map_nil {A B : Type} (f : A -> list B) (l : list A) :
  (forall x, In x l -> f x = []) -> flat_map f l = [].
Proof.
  induction l as [|a l IH]; simpl; intros H; [reflexivity|].
  rewrite (H a (or_introl eq_refl)). apply IH. auto.
Qed.

Lemma flat_map_single {A B : Type} (f : A -> list B) (l : list A) (k : A) :
  NoDup l -> In k l -> (forall k', In k' l -> k' <> k -> f k' = []) ->
  flat_map f l = f k.
Proof.
  induction l as [|a l IH]; simpl; [tauto|].
  intros Hnd Hin Hf. inversion Hnd as [|? ? Hnin Hnd']; subst.
  destruct Hin as [->|Hin].
  - rewrite (flat_map_nil f l); [apply app_nil_r|].
    intros x Hx. apply Hf; [auto|]. intros ->. contradiction.
  - rewrite (Hf a (or_introl eq_refl)); [|intros ->; contradiction].
    simpl. apply IH; auto.
Qed.

Lemma list_prod_nil_r {A B : Type} (l : list A) : list_prod l (@nil B) = [].
Proof. induction l; simpl; auto. Qed.

Lemma filter_list_prod_snd {A B : Type} (p : B -> bool) (l : list A) (X : list B) :
  filter (fun row => p (snd row)) (list_prod l X) = list_prod l (filter p X).
Proof.
  induction l as [|a l IH]; simpl; [reflexivity|].
  rewrite filter_app, IH. f_equal. clear IH.
  induction X as [|x X IHX]; simpl; [reflexivity|].
  destruct (p x); simpl; now rewrite IHX.
Qed.

Lemma first_None {A : Type} (l : list A) : first l = None <-> l = [].
Proof. destruct l; simpl; split; congruence. Qed.

Lemma sum_Z_app (l1 l2 : list Z) : sum_Z (l1 ++ l2) = sum_Z l1 + sum_Z l2.
Proof. induction l1; simpl; lia. Qed.

Lemma left_join_not_nil {A : Type} (l : list A) : left_join l <> [].
Proof. destruct l; discriminate. Qed.

Lemma In_left_join_Some {A : Type} (l : list A) (a : A) :
  In (Some a) (left_join l) <-> In a l.
Proof.
  destruct l as [|x l]; simpl.
  - split; [intros [H|[]]; discriminate | tauto].
  - split.
    + intros [H|H]; [injection H; auto|].
      apply in_map_iff in H. destruct H as (y & Hy & Hin). injection Hy as ->. auto.
    + intros [->|H]; [auto|]. right. now apply in_map.
Qed.

Lemma left_join_inhabited {A : Type} (l : list A) : exists o, In o (left_join l).
Proof. destruct l as [|x l]; simpl; eauto. Qed.

Lemma left_join_uniform {A : Type} (f : A -> bool) (l : list A) :
  (forall a1 a2, In a1 l -> In a2 l -> f a1 = f a2) ->
  exists c, forall o, In o (left_join l) ->
    match o with Some a => f a | None => false end = c.
Proof.
  intros Hu. destruct l as [|a l].
  - exists false. intros o [<-|[]]. reflexivity.
  - exists (f a). intros o Ho. destruct o as [x|].
    + apply (proj1 (In_left_join_Some _ _)) in Ho.
      apply Hu; [exact Ho | left; reflexivity].
    + simpl in Ho. destruct Ho as [Ho|Ho]; [discriminate|].
      apply in_map_iff in Ho. destruct Ho as (y & Hy & _). discriminate.
Qed.

Lemma Count_distinct_same_elements (ids l : list pk) :
  NoDup l -> (forall x, In x ids <-> In x l) ->
  Count_distinct ids = length l.
Proof.
  intros Hnd Hsame. unfold Count_distinct. apply Permutation_length.
  apply NoDup_Permutation; [apply NoDup_nodup | exact Hnd |].
  intros x. rewrite nodup_In. apply Hsame.
Qed.

(** ** Ordering *)

Lemma insert_desc_In (r x : AnnotatedNote) (l : list AnnotatedNote) :
  In x (insert_desc r l) <-> x = r \/ In x l.
Proof.
  induction l as [|y ys IH]; simpl.
  - intuition.
  - destruct (created_at (row_note y) <=? created_at (row_note r)); simpl.
    + intuition.
    + rewrite IH. intuition.
Qed.

Lemma order_by_In (x : AnnotatedNote) (l : list AnnotatedNote) :
  In x (order_by_created_at_desc l) <-> In x l.
Proof.
  induction l as [|y ys IH]; simpl.
  - tauto.
  - rewrite insert_desc_In, IH. intuition.
Qed.

Lemma insert_desc_sorted (r : AnnotatedNote) (l : list AnnotatedNote) :
  StronglySorted newer_or_equal l ->
  StronglySorted newer_or_equal (insert_desc r l).
Proof.
  induction 1 as [|y ys Hs IH Hall]; simpl.
  - repeat constructor.
  - destruct (created_at (row_note y) <=? created_at (row_note r)) eqn:E.
    + apply Z.leb_le in E.
      constructor; [constructor; assumption|].
      constructor; [exact E|].
      eapply Forall_impl; [|exact Hall].
      unfold newer_or_equal in *. intros; lia.
    + apply Z.leb_gt in E.
      constructor; [exact IH|].
      apply Forall_forall. intros x Hx.
      apply insert_desc_In in Hx. destruct Hx as [->|Hx].
      * unfold newer_or_equal. lia.
      * rewrite Forall_forall in Hall. auto.
Qed.

Lemma order_by_sorted (l : list AnnotatedNote) :
  StronglySorted newer_or_equal (order_by_created_at_desc l).
Proof.
  induction l; simpl; [constructor | apply insert_desc_sorted; assumption].
Qed.

Lemma insert_desc_perm (r : AnnotatedNote) (l : list AnnotatedNote) :
  Permutation (insert_desc r l) (r :: l).
Proof.
  induction l as [|y ys IH]; simpl; [reflexivity|].
  destruct (created_at (row_note y) <=? created_at (row_note r)); [reflexivity|].
  rewrite IH. apply perm_swap.
Qed.

Lemma order_by_perm (l : list AnnotatedNote) :
  Permutation (order_by_created_at_desc l) l.
Proof.
  induction l as [|y ys IH]; simpl; [reflexivity|].
  rewrite insert_desc_perm. now constructor.
Qed.

(** ** The rows of one note *)

Lemma joined_rows_not_nil (db : DB) (n : Note) : joined_rows db n <> [].
Proof.
  unfold joined_rows.
  pose proof (left_join_not_nil (note_star_ratings db (note_id n))) as H1.
  pose proof (left_join_not_nil (note_likes db (note_id n))) as H2.
  pose proof (left_join_not_nil (note_bookmarks db (note_id n))) as H3.
  destruct (left_join (note_star_ratings db (note_id n))) as [|a ?]; [congruence|].
  destruct (left_join (note_likes db (note_id n))) as [|b ?]; [congruence|].
  destruct (left_join (note_bookmarks db (note_id n))) as [|c ?]; [congruence|].
  discriminate.
Qed.

Lemma group_row_note (user : RequestUser) (n : Note) (rows : list JoinRow)
    (key : bool * bool) (r : AnnotatedNote) :
  In r (group_row user n rows key) -> row_note r = n.
Proof.
  unfold group_row.
  destruct (filter (in_group user key) rows); simpl; [tauto|].
  intros [<-|[]]. reflexivity.
Qed.

Lemma annotate_note_row_note (user : RequestUser) (db : DB) (n : Note) (r : AnnotatedNote) :
  In r (annotate_note user db n) -> row_note r = n.
Proof.
  unfold annotate_note. rewrite in_flat_map.
  intros (key & _ & Hr). eapply group_row_note; eauto.
Qed.

Lemma group_keys_complete (key : bool * bool) : In key group_keys.
Proof. destruct key as [[] []]; simpl; auto. Qed.

Lemma group_keys_NoDup : NoDup group_keys.
Proof.
  unfold group_keys. repeat constructor; simpl; intuition discriminate.
Qed.

(** Every note of the queryset contributes at least one annotated row. *)
Lemma annotate_note_not_nil (user : RequestUser) (db : DB) (n : Note) :
  exists r, In r (annotate_note user db n).
Proof.
  pose proof (joined_rows_not_nil db n) as Hne.
  destruct (joined_rows db n) as [|row rows] eqn:E; [congruence|].
  set (key := (Case_When_likes__user user row, Case_When_bookmarks__user user row)).
  assert (Hin : In row (filter (in_group user key) (joined_rows db n))).
  { apply filter_In. split; [rewrite E; left; reflexivity|].
    unfold in_group, key; simpl. now rewrite !eqb_reflx. }
  unfold annotate_note.
  destruct (group_row user n (joined_rows db n) key) as [|r rs] eqn:G.
  - unfold group_row in G.
    destruct (filter (in_group user key) (joined_rows db n)); [destruct Hin | discriminate].
  - exists r. apply in_flat_map. exists key. split; [apply group_keys_complete|].
    rewrite G. left; reflexivity.
Qed.

Lemma annotate_In (user : RequestUser) (db : DB) (queryset : list Note) (r : AnnotatedNote) :
  In r (annotate user db queryset) ->
  In (row_note r) queryset.
Proof.
  unfold annotate. rewrite in_flat_map. intros (n & Hn & Hr).
  apply annotate_note_row_note in Hr. now subst.
Qed.

Lemma annotate_covers (user : RequestUser) (db : DB) (queryset : list Note) (n : Note) :
  In n queryset ->
  exists r, In r (annotate user db queryset) /\ row_note r = n.
Proof.
  intros Hn. destruct (annotate_note_not_nil user db n) as [r Hr].
  exists r. split.
  - unfold annotate. apply in_flat_map. eauto.
  - eapply annotate_note_row_note; eauto.
Qed.

Lemma get_queryset_In_notes (action : Action) (user : RequestUser) (db : DB)
    (r : AnnotatedNote) :
  In r (get_queryset action user db) -> In (row_note r) (notes db).
Proof.
  unfold get_queryset. rewrite order_by_In.
  destruct (is_list_or_retrieve action);
    [destruct (negb (is_authenticated user) || negb (user_is_staff user))|];
    try rewrite filter_In; intros H; try destruct H as [H _];
    eapply annotate_In; eauto.
Qed.

Lemma get_queryset_In_annotate_note (action : Action) (user : RequestUser) (db : DB)
    (r : AnnotatedNote) :
  In r (get_queryset action user db) ->
  In r (annotate_note user db (row_note r)).
Proof.
  unfold get_queryset. rewrite order_by_In. intros Hr.
  assert (Hr' : In r (annotate user db (notes db))).
  { destruct (is_list_or_retrieve action);
      [destruct (negb (is_authenticated user) || negb (user_is_staff user))|];
      try (apply filter_In in Hr; tauto); exact Hr. }
  unfold annotate in Hr'. apply in_flat_map in Hr'. destruct Hr' as (n & _ & Hn).
  now rewrite (annotate_note_row_note _ _ _ _ Hn).
Qed.

(** The rows of the annotated table with a given primary key are the rows
    of the note with that key. *)
Lemma filter_pk_annotate (user : RequestUser) (db : DB) (queryset : list Note) (n : Note) :
  NoDup (map note_id queryset) -> In n queryset ->
  filter (fun r => Pos.eqb (note_id (row_note r)) (note_id n))
         (annotate user db queryset)
  = annotate_note user db n.
Proof.
  unfold annotate. induction queryset as [|m ms IH]; simpl; [tauto|].
  intros Hnd Hin. inversion Hnd as [|? ? Hnin Hnd']; subst.
  rewrite filter_app. destruct Hin as [->|Hin].
  - rewrite filter_In_all.
    + rewrite filter_In_none; [apply app_nil_r|].
      intros r Hr. apply in_flat_map in Hr. destruct Hr as (m & Hm & Hr).
      apply annotate_note_row_note in Hr. rewrite Hr.
      apply Pos.eqb_neq. intros E. apply Hnin. rewrite <- E. now apply in_map.
    + intros r Hr. apply annotate_note_row_note in Hr. rewrite Hr. apply Pos.eqb_refl.
  - rewrite filter_In_none.
    + simpl. now apply IH.
    + intros r Hr. apply annotate_note_row_note in Hr. rewrite Hr.
      apply Pos.eqb_neq. intros E. apply Hnin. rewrite E. now apply in_map.
Qed.

(** ** Visibility of the listing (C1) *)

Lemma listing_approved_only (action : Action) (user : RequestUser) (db : DB)
    (r : AnnotatedNote) :
  is_list_or_retrieve action = true ->
  is_authenticated user && user_is_staff user = false ->
  In r (get_queryset action user db) -> is_approved (row_note r) = true.
Proof.
  intros Ha Hns. unfold get_queryset. rewrite Ha.
  assert (Hf : negb (is_authenticated user) || negb (user_is_staff user) = true).
  { destruct (is_authenticated user), (user_is_staff user); simpl in *; congruence. }
  rewrite Hf. intros Hr. apply order_by_In, filter_In in Hr. tauto.
Qed.

(** C1: for the [list] and [retrieve] actions the queryset is ordered by
    [created_at] descending; an anonymous or non-staff viewer's queryset
    holds approved notes only (and every approved note); a staff viewer's
    queryset holds every note, approved or not. *)
Theorem get_queryset_visibility (action : Action) (user : RequestUser) (db : DB) :
  is_list_or_retrieve action = true ->
  StronglySorted newer_or_equal (get_queryset action user db)
  /\ (is_authenticated user && user_is_staff user = false ->
      (forall r, In r (get_queryset action user db) -> is_approved (row_note r) = true)
      /\ (forall n, In n (notes db) -> is_approved n = true ->
          exists r, In r (get_queryset action user db) /\ row_note r = n))
  /\ (is_authenticated user && user_is_staff user = true ->
      forall n, In n (notes db) ->
      exists r, In r (get_queryset action user db) /\ row_note r = n).
Proof.
  intros Ha. split; [apply order_by_sorted|].
  unfold get_queryset. rewrite Ha. split.
  - intros Hns.
    assert (Hf : negb (is_authenticated user) || negb (user_is_staff user) = true).
    { destruct (is_authenticated user), (user_is_staff user); simpl in *; congruence. }
    rewrite Hf. split.
    + intros r Hr.
      apply (listing_approved_only action user db r Ha Hns).
      unfold get_queryset. now rewrite Ha, Hf.
    + intros n Hn Happ.
      destruct (annotate_covers user db (notes db) n Hn) as (r & Hr & Hrn).
      exists r. split; [|exact Hrn].
      apply order_by_In, filter_In. split; [exact Hr|]. now rewrite Hrn.
  - intros Hs.
    assert (Hf : negb (is_authenticated user) || negb (user_is_staff user) = false).
    { destruct (is_authenticated user), (user_is_staff user); simpl in *; congruence. }
    rewrite Hf. intros n Hn.
    destruct (annotate_covers user db (notes db) n Hn) as (r & Hr & Hrn).
    exists r. split; [|exact Hrn]. now apply order_by_In.
Qed.

Lemma get_queryset_visibility_witness :
  is_list_or_retrieve list_action = true
  /\ StronglySorted newer_or_equal (get_queryset list_action AnonymousUser db0)
  /\ (is_authenticated AnonymousUser && user_is_staff AnonymousUser = false ->
      (forall r, In r (get_queryset list_action AnonymousUser db0) ->
                 is_approved (row_note r) = true)
      /\ (forall n, In n (notes db0) -> is_approved n = true ->
          exists r, In r (get_queryset list_action AnonymousUser db0) /\ row_note r = n))
  /\ (is_authenticated AnonymousUser && user_is_staff AnonymousUser = true ->
      forall n, In n (notes db0) ->
      exists r, In r (get_queryset list_action AnonymousUser db0) /\ row_note r = n).
Proof.
  split; [reflexivity|].
  apply (get_queryset_visibility list_action AnonymousUser db0). reflexivity.
Defined.

(** ** The average rating survives the joins *)

Lemma group_of_key (user : RequestUser) (key : bool * bool) (db : DB) (n : Note) :
  filter (in_group user key) (joined_rows db n)
  = list_prod (left_join (note_star_ratings db (note_id n)))
      (filter (in_group_engagement user key)
         (list_prod (left_join (note_likes db (note_id n)))
                    (left_join (note_bookmarks db (note_id n))))).
Proof.
  unfold joined_rows. rewrite <- filter_list_prod_snd.
  apply filter_ext. intros [r lb]. unfold in_group_engagement, in_group.
  destruct user; reflexivity.
Qed.

Lemma group_stars_app (g1 g2 : list JoinRow) :
  group_stars (g1 ++ g2) = group_stars g1 ++ group_stars g2.
Proof. unfold group_stars. apply flat_map_app. Qed.

Lemma group_stars_pair (o : option StarRating) (X : list (option Like * option Bookmark)) :
  sum_Z (group_stars (map (pair o) X)) = Z.of_nat (length X) * sum_Z (stars_of [o])
  /\ length (group_stars (map (pair o) X)) = (length X * length (stars_of [o]))%nat.
Proof.
  induction X as [|x X [IHs IHl]]; [split; reflexivity|].
  change (length (x :: X)) with (S (length X)). rewrite Nat2Z.inj_succ.
  destruct o as [r|].
  - change (group_stars (map (pair (Some r)) (x :: X)))
      with (stars r :: group_stars (map (pair (Some r)) X)).
    change (stars_of [Some r]) with [stars r] in *.
    change (sum_Z [stars r]) with (stars r + 0) in *.
    change (sum_Z (stars r :: group_stars (map (pair (Some r)) X)))
      with (stars r + sum_Z (group_stars (map (pair (Some r)) X))).
    change (length (stars r :: group_stars (map (pair (Some r)) X)))
      with (S (length (group_stars (map (pair (Some r)) X)))).
    rewrite IHs, IHl. change (length [stars r]) with 1%nat. split; lia.
  - change (group_stars (map (pair (@None StarRating)) (x :: X)))
      with (group_stars (map (pair (@None StarRating)) X)).
    rewrite IHs, IHl. change (stars_of [None]) with (@nil Z).
    change (sum_Z []) with 0. change (length (@nil Z)) with 0%nat. split; lia.
Qed.

Lemma stars_of_cons (o : option StarRating) (side : list (option StarRating)) :
  stars_of (o :: side) = stars_of [o] ++ stars_of side.
Proof. unfold stars_of. simpl. now rewrite app_nil_r. Qed.

Lemma group_stars_prod (side : list (option StarRating))
    (X : list (option Like * option Bookmark)) :
  sum_Z (group_stars (list_prod side X)) = Z.of_nat (length X) * sum_Z (stars_of side)
  /\ length (group_stars (list_prod side X)) = (length X * length (stars_of side))%nat.
Proof.
  induction side as [|o side [IHs IHl]].
  - change (stars_of []) with (@nil Z). change (sum_Z []) with 0.
    change (length (@nil Z)) with 0%nat. simpl list_prod.
    change (group_stars []) with (@nil Z). change (sum_Z []) with 0.
    change (length (@nil Z)) with 0%nat. split; lia.
  - change (list_prod (o :: side) X) with (map (pair o) X ++ list_prod side X).
    rewrite group_stars_app, sum_Z_app, length_app, IHs, IHl.
    destruct (group_stars_pair o X) as [Hs Hl]. rewrite Hs, Hl.
    rewrite (stars_of_cons o side), sum_Z_app, length_app. split; nia.
Qed.

Lemma stars_of_left_join (rs : list StarRating) :
  stars_of (left_join rs) = map stars rs.
Proof.
  destruct rs as [|r rs]; [reflexivity|].
  unfold left_join. generalize (r :: rs). intros l.
  induction l as [|a l IH]; simpl; [reflexivity | now rewrite <- IH].
Qed.

Lemma scaled_mean (k s c : Z) :
  0 < k -> 0 < c ->
  (inject_Z (k * s) / inject_Z (k * c) == inject_Z s / inject_Z c)%Q.
Proof.
  intros Hk Hc. rewrite !inject_Z_mult. field.
  split; intros H.
  - apply (inject_Z_injective c 0) in H. lia.
  - apply (inject_Z_injective k 0) in H. lia.
Qed.

Lemma Avg_scaled (values scaled : list Z) (k : nat) :
  (0 < k)%nat ->
  sum_Z scaled = Z.of_nat k * sum_Z values ->
  length scaled = (k * length values)%nat ->
  (Coalesce (Avg scaled) 0 == Coalesce (Avg values) 0)%Q.
Proof.
  intros Hk Hs Hl.
  destruct values as [|v vs].
  - simpl in Hl. rewrite Nat.mul_0_r in Hl.
    destruct scaled; [reflexivity | discriminate].
  - destruct scaled as [|x xs]; [simpl in Hl; lia|].
    unfold Avg, Coalesce. rewrite Hs, Hl, Nat2Z.inj_mul.
    apply scaled_mean; simpl length; lia.
Qed.

(** Whatever the viewer, every row of the annotated queryset carries the
    mean of its note's star ratings, and 0 when the note has none: each
    rating is repeated equally often in a group of joined rows. *)
Lemma annotated_average_is_mean (user : RequestUser) (db : DB) (n : Note)
    (r : AnnotatedNote) :
  In r (annotate_note user db n) ->
  (calculated_average_rating r == mean_stars db (note_id n))%Q.
Proof.
  unfold annotate_note. rewrite in_flat_map. intros (key & _ & Hr).
  unfold group_row in Hr. rewrite group_of_key in Hr.
  set (X := filter (in_group_engagement user key) _) in Hr.
  destruct (list_prod (left_join (note_star_ratings db (note_id n))) X) as [|row rows] eqn:G;
    [destruct Hr|].
  destruct Hr as [<-|[]]. cbn [calculated_average_rating].
  change (@cons JoinRow row rows) with (row :: rows). rewrite <- G.
  destruct (group_stars_prod (left_join (note_star_ratings db (note_id n))) X) as [Hs Hl].
  rewrite stars_of_left_join in Hs, Hl.
  unfold mean_stars. apply (Avg_scaled _ _ (length X)); auto.
  destruct X; [|simpl; lia].
  rewrite list_prod_nil_r in G. discriminate.
Qed.

(** For every action and every viewer, each row of the queryset carries
    the mean of its note's star ratings, 0 when the note has none. *)
Theorem queryset_average_is_mean (action : Action) (user : RequestUser) (db : DB) :
  Forall (fun r => (calculated_average_rating r
                    == mean_stars db (note_id (row_note r)))%Q)
         (get_queryset action user db).
Proof.
  apply Forall_forall. intros r Hr.
  apply (annotated_average_is_mean user db (row_note r)).
  eapply get_queryset_In_annotate_note; eauto.
Qed.

(** ** The anonymous listing *)

Lemma joined_like_ids (db : DB) (n : Note) (x : pk) :
  In x (group_like_ids (joined_rows db n))
  <-> In x (map like_id (note_likes db (note_id n))).
Proof.
  unfold group_like_ids, joined_rows. rewrite in_flat_map, in_map_iff. split.
  - intros ([r [ol ob]] & Hrow & Hx). simpl in Hx.
    apply in_prod_iff in Hrow. destruct Hrow as [_ Hlb].
    apply in_prod_iff in Hlb. destruct Hlb as [Hl _].
    destruct ol as [l|]; [|destruct Hx].
    destruct Hx as [<-|[]]. exists l. split; [reflexivity|].
    now apply In_left_join_Some.
  - intros (l & <- & Hl).
    destruct (left_join_inhabited (note_star_ratings db (note_id n))) as [r Hr].
    destruct (left_join_inhabited (note_bookmarks db (note_id n))) as [b Hb].
    exists (r, (Some l, b)). split; [|simpl; auto].
    apply in_prod_iff. split; [exact Hr|].
    apply in_prod_iff. split; [now apply In_left_join_Some | exact Hb].
Qed.

Lemma joined_bookmark_ids (db : DB) (n : Note) (x : pk) :
  In x (group_bookmark_ids (joined_rows db n))
  <-> In x (map bookmark_id (note_bookmarks db (note_id n))).
Proof.
  unfold group_bookmark_ids, joined_rows. rewrite in_flat_map, in_map_iff. split.
  - intros ([r [ol ob]] & Hrow & Hx). simpl in Hx.
    apply in_prod_iff in Hrow. destruct Hrow as [_ Hlb].
    apply in_prod_iff in Hlb. destruct Hlb as [_ Hb].
    destruct ob as [b|]; [|destruct Hx].
    destruct Hx as [<-|[]]. exists b. split; [reflexivity|].
    now apply In_left_join_Some.
  - intros (b & <- & Hb).
    destruct (left_join_inhabited (note_star_ratings db (note_id n))) as [r Hr].
    destruct (left_join_inhabited (note_likes db (note_id n))) as [l Hl].
    exists (r, (l, Some b)). split; [|simpl; auto].
    apply in_prod_iff. split; [exact Hr|].
    apply in_prod_iff. split; [exact Hl | now apply In_left_join_Some].
Qed.

(** For an anonymous viewer no grouping column is added: one row per note,
    computed over all of its joined rows, both flags false. *)
Lemma annotate_note_anonymous (db : DB) (n : Note) :
  annotate_note AnonymousUser db n
  = [ {| row_note := n;
         calculated_average_rating :=
           Coalesce (Avg (group_stars (joined_rows db n))) 0%Q;
         calculated_likes_count := Count_distinct (group_like_ids (joined_rows db n));
         calculated_bookmarks_count :=
           Count_distinct (group_bookmark_ids (joined_rows db n));
         is_liked_by_current_user_annotated := false;
         is_bookmarked_by_current_user_annotated := false |} ].
Proof.
  unfold annotate_note, group_keys, group_row. simpl flat_map.
  rewrite (filter_all (in_group AnonymousUser (false, false))) by reflexivity.
  rewrite (filter_none (in_group AnonymousUser (false, true))) by reflexivity.
  rewrite (filter_none (in_group AnonymousUser (true, false))) by reflexivity.
  rewrite (filter_none (in_group AnonymousUser (true, true))) by reflexivity.
  pose proof (joined_rows_not_nil db n) as Hne.
  destruct (joined_rows db n); [congruence | reflexivity].
Qed.

(** The anonymous listing: every row has the mean of its note's ratings
    (0 without ratings), the number of its note's like rows and bookmark
    rows, and both per-viewer flags false. *)
Lemma anonymous_listing_annotations (action : Action) (db : DB) (r : AnnotatedNote) :
  primary_keys_unique db ->
  In r (get_queryset action AnonymousUser db) ->
  (calculated_average_rating r == mean_stars db (note_id (row_note r)))%Q
  /\ calculated_likes_count r = likes_count_of db (note_id (row_note r))
  /\ calculated_bookmarks_count r = bookmarks_count_of db (note_id (row_note r))
  /\ is_liked_by_current_user_annotated r = false
  /\ is_bookmarked_by_current_user_annotated r = false.
Proof.
  intros (_ & Hlikes & Hbookmarks) Hr.
  assert (Hann : exists n, In r (annotate_note AnonymousUser db n)).
  { unfold get_queryset in Hr. rewrite order_by_In in Hr.
    assert (Hr' : In r (annotate AnonymousUser db (notes db))).
    { destruct (is_list_or_retrieve action); simpl in Hr;
        [apply filter_In in Hr; tauto | exact Hr]. }
    unfold annotate in Hr'. apply in_flat_map in Hr'.
    destruct Hr' as (n & _ & Hn). eauto. }
  destruct Hann as [n Hn].
  pose proof (annotate_note_row_note _ _ _ _ Hn) as Hrn.
  pose proof (annotated_average_is_mean _ _ _ _ Hn) as Havg.
  rewrite annotate_note_anonymous in Hn. destruct Hn as [<-|[]].
  cbn [row_note calculated_average_rating calculated_likes_count
       calculated_bookmarks_count is_liked_by_current_user_annotated
       is_bookmarked_by_current_user_annotated] in *.
  repeat split; auto.
  - unfold likes_count_of. rewrite <- (length_map like_id).
    apply Count_distinct_same_elements; [|apply joined_like_ids].
    unfold note_likes. now apply NoDup_map_filter.
  - unfold bookmarks_count_of. rewrite <- (length_map bookmark_id).
    apply Count_distinct_same_elements; [|apply joined_bookmark_ids].
    unfold note_bookmarks. now apply NoDup_map_filter.
Qed.

Lemma anonymous_listing_annotations_witness :
  primary_keys_unique db_liked_by_both
  /\ calculated_likes_count
       {| row_note := note1; calculated_average_rating := 0%Q;
          calculated_likes_count := 2; calculated_bookmarks_count := 0;
          is_liked_by_current_user_annotated := false;
          is_bookmarked_by_current_user_annotated := false |}
     = likes_count_of db_liked_by_both (note_id note1).
Proof.
  assert (H1 : primary_keys_unique db_liked_by_both).
  { repeat split; distinct_keys. }
  split; [exact H1|].
  apply (anonymous_listing_annotations list_action db_liked_by_both
           {| row_note := note1; calculated_average_rating := 0%Q;
              calculated_likes_count := 2; calculated_bookmarks_count := 0;
              is_liked_by_current_user_annotated := false;
              is_bookmarked_by_current_user_annotated := false |} H1).
  left. reflexivity.
Defined.

(** ** One group of joined rows, or two (C8)

    For a logged-in viewer the two [Case]/[When] annotations are GROUP BY
    keys.  The joined rows of a note fall into one group when its likes are
    all the viewer's or all other users', and its bookmarks likewise; a
    note the viewer liked and another user liked as well has joined rows on
    both sides of [likes__user = viewer] and comes back as two rows. *)

Lemma Case_When_likes_is_mine (user : RequestUser) (row : JoinRow) :
  Case_When_likes__user user row
  = match fst (snd row) with Some l => like_is_mine user l | None => false end.
Proof. destruct user, row as [r [[l|] b]]; reflexivity. Qed.

Lemma Case_When_bookmarks_is_mine (user : RequestUser) (row : JoinRow) :
  Case_When_bookmarks__user user row
  = match snd (snd row) with Some b => bookmark_is_mine user b | None => false end.
Proof. destruct user, row as [r [l [b|]]]; reflexivity. Qed.

(** One group of joined rows, one annotated row. *)
Lemma annotate_note_one_group (user : RequestUser) (db : DB) (n : Note) :
  one_group user db (note_id n) ->
  exists r, annotate_note user db n = [r] /\ row_note r = n.
Proof.
  intros [Hl Hb].
  destruct (left_join_uniform (like_is_mine user) _ Hl) as [cl Hcl].
  destruct (left_join_uniform (bookmark_is_mine user) _ Hb) as [cb Hcb].
  assert (Hrows : forall row, In row (joined_rows db n) ->
                              in_group user (cl, cb) row = true
                              /\ forall key, key <> (cl, cb) ->
                                             in_group user key row = false).
  { intros [r [ol ob]] Hrow. unfold joined_rows in Hrow.
    apply in_prod_iff in Hrow. destruct Hrow as [_ Hlb].
    apply in_prod_iff in Hlb. destruct Hlb as [Hol Hob].
    unfold in_group.
    rewrite Case_When_likes_is_mine, Case_When_bookmarks_is_mine. simpl.
    rewrite (Hcl ol Hol), (Hcb ob Hob). split.
    - now rewrite !eqb_reflx.
    - intros [kl kb] Hne. simpl.
      destruct (Bool.eqb cl kl) eqn:E1, (Bool.eqb cb kb) eqn:E2; try reflexivity.
      apply eqb_prop in E1. apply eqb_prop in E2. subst. congruence. }
  unfold annotate_note.
  rewrite (flat_map_single _ group_keys (cl, cb) group_keys_NoDup
             (group_keys_complete _)).
  - unfold group_row.
    assert (Hall : filter (in_group user (cl, cb)) (joined_rows db n) = joined_rows db n).
    { clear -Hrows. induction (joined_rows db n) as [|row rows IH]; simpl; [reflexivity|].
      destruct (Hrows row (or_introl eq_refl)) as [-> _]. f_equal.
      apply IH. intros row' Hrow'. apply Hrows. simpl. auto. }
    rewrite Hall. pose proof (joined_rows_not_nil db n) as Hne.
    destruct (joined_rows db n); [congruence|]. eexists. split; reflexivity.
  - intros key _ Hne. unfold group_row.
    assert (Hnone : filter (in_group user key) (joined_rows db n) = []).
    { clear -Hrows Hne. induction (joined_rows db n) as [|row rows IH]; simpl;
        [reflexivity|].
      destruct (Hrows row (or_introl eq_refl)) as [_ Hk]. rewrite (Hk key Hne).
      apply IH. intros row' Hrow'. apply Hrows. simpl. auto. }
    now rewrite Hnone.
Qed.

Lemma group_row_of_member (user : RequestUser) (n : Note) (rows : list JoinRow)
    (key : bool * bool) (row : JoinRow) :
  In row rows -> in_group user key row = true ->
  length (group_row user n rows key) = 1%nat.
Proof.
  intros Hin Hk. unfold group_row.
  destruct (filter (in_group user key) rows) eqn:F; [|reflexivity].
  assert (H : In row (filter (in_group user key) rows)) by (apply filter_In; auto).
  rewrite F in H. destruct H.
Qed.

Lemma annotate_note_two_groups (user : RequestUser) (db : DB) (n : Note)
    (row1 row2 : JoinRow) (k1 k2 : bool * bool) :
  In row1 (joined_rows db n) -> In row2 (joined_rows db n) ->
  in_group user k1 row1 = true -> in_group user k2 row2 = true ->
  k1 <> k2 ->
  (2 <= length (annotate_note user db n))%nat.
Proof.
  intros H1 H2 G1 G2 Hne.
  pose proof (group_row_of_member user n _ k1 row1 H1 G1) as L1.
  pose proof (group_row_of_member user n _ k2 row2 H2 G2) as L2.
  unfold annotate_note, group_keys. simpl flat_map. rewrite !length_app.
  destruct k1 as [[] []], k2 as [[] []]; try congruence;
    rewrite L1, L2; simpl; lia.
Qed.

Lemma annotate_note_ambiguous (user : RequestUser) (db : DB) (n : Note) :
  liked_or_bookmarked_with_others user db (note_id n) ->
  (2 <= length (annotate_note user db n))%nat.
Proof.
  destruct (left_join_inhabited (note_star_ratings db (note_id n))) as [r Hr].
  intros [(l1 & l2 & H1 & H2 & M1 & M2) | (b1 & b2 & H1 & H2 & M1 & M2)].
  - destruct (left_join_inhabited (note_bookmarks db (note_id n))) as [b Hb].
    set (c := Case_When_bookmarks__user user (r, (Some l1, b))).
    apply (annotate_note_two_groups user db n (r, (Some l1, b)) (r, (Some l2, b))
             (true, c) (false, c)).
    + unfold joined_rows. apply in_prod_iff. split; [exact Hr|].
      apply in_prod_iff. split; [now apply In_left_join_Some | exact Hb].
    + unfold joined_rows. apply in_prod_iff. split; [exact Hr|].
      apply in_prod_iff. split; [now apply In_left_join_Some | exact Hb].
    + unfold in_group, c. rewrite Case_When_likes_is_mine. simpl.
      rewrite M1. simpl. apply eqb_reflx.
    + unfold in_group, c. rewrite Case_When_likes_is_mine. simpl.
      rewrite M2. simpl. rewrite !Case_When_bookmarks_is_mine. simpl. apply eqb_reflx.
    + congruence.
  - destruct (left_join_inhabited (note_likes db (note_id n))) as [l Hl].
    set (c := Case_When_likes__user user (r, (l, Some b1))).
    apply (annotate_note_two_groups user db n (r, (l, Some b1)) (r, (l, Some b2))
             (c, true) (c, false)).
    + unfold joined_rows. apply in_prod_iff. split; [exact Hr|].
      apply in_prod_iff. split; [exact Hl | now apply In_left_join_Some].
    + unfold joined_rows. apply in_prod_iff. split; [exact Hr|].
      apply in_prod_iff. split; [exact Hl | now apply In_left_join_Some].
    + unfold in_group, c. rewrite Case_When_bookmarks_is_mine. simpl.
      rewrite M1. rewrite eqb_reflx. reflexivity.
    + unfold in_group, c. rewrite Case_When_bookmarks_is_mine. simpl.
      rewrite M2. rewrite !Case_When_likes_is_mine. simpl. rewrite eqb_reflx. reflexivity.
    + congruence.
Qed.

(** C8 (code bug): alice and bob both like [note1].  In alice's listing the
    note comes twice, once per value of "liked by me", and each row counts
    the likes of its own group, 1, where the note has 2 likes; the anonymous
    listing has the note once with the count 2. *)
Theorem listing_splits_like_count_for_viewer :
  map (fun r => (note_id (row_note r), calculated_likes_count r,
                 is_liked_by_current_user_annotated r))
      (get_queryset list_action (Authenticated alice) db_liked_by_both)
  = [(1%positive, 1%nat, false); (1%positive, 1%nat, true)]
  /\ likes_count_of db_liked_by_both 1%positive = 2%nat
  /\ map (fun r => (note_id (row_note r), calculated_likes_count r,
                    is_liked_by_current_user_annotated r))
         (get_queryset list_action AnonymousUser db_liked_by_both)
     = [(1%positive, 2%nat, false)].
Proof. repeat split; reflexivity. Qed.

(** ** Resolving the note of a detail route *)

Lemma get_object_inl (action : Action) (request : Request) (db : DB) (pk_ : pk)
    (obj : AnnotatedNote) :
  get_object action request db pk_ = inl obj ->
  In obj (get_queryset action (req_user request) db)
  /\ note_id (row_note obj) = pk_
  /\ In (row_note obj) (notes db)
  /\ check_object_permissions action request (row_note obj) = None.
Proof.
  unfold get_object.
  destruct (filter _ (get_queryset action (req_user request) db)) as [|r [|r' rs]] eqn:E;
    try discriminate.
  destruct (check_object_permissions action request (row_note r)) eqn:P; try discriminate.
  intros H; injection H as <-.
  assert (Hin : In r (filter (fun r0 => Pos.eqb (note_id (row_note r0)) pk_)
                             (get_queryset action (req_user request) db)))
    by (rewrite E; left; reflexivity).
  apply filter_In in Hin. destruct Hin as [Hin Hid]. apply Pos.eqb_eq in Hid.
  repeat split; auto. eapply get_queryset_In_notes; eauto.
Qed.

(** No row of the queryset carries a primary key the note table lacks. *)
Lemma get_object_missing (action : Action) (request : Request) (db : DB) (pk_ : pk) :
  (forall n, In n (notes db) -> note_id n <> pk_) ->
  get_object action request db pk_ = inr Http404.
Proof.
  intros Hmiss. unfold get_object.
  destruct (filter _ (get_queryset action (req_user request) db)) as [|r rs] eqn:E;
    [reflexivity|].
  exfalso.
  assert (Hin : In r (filter (fun r0 => Pos.eqb (note_id (row_note r0)) pk_)
                             (get_queryset action (req_user request) db)))
    by (rewrite E; left; reflexivity).
  apply filter_In in Hin. destruct Hin as [Hin Hid]. apply Pos.eqb_eq in Hid.
  apply get_queryset_In_notes in Hin. exact (Hmiss _ Hin Hid).
Qed.

(** [get_object] never raises the exception the toggles' first [except]
    clause names. *)
Lemma get_object_never_DoesNotExist (action : Action) (request : Request) (db : DB)
    (pk_ : pk) (e : Exn) :
  get_object action request db pk_ = inr e -> isinstance_DoesNotExist e = false.
Proof.
  unfold get_object, check_object_permissions, permission_denied.
  destruct (filter _ _) as [|r [|r' rs]]; try (intros H; injection H as <-; reflexivity).
  destruct (forallb _ _); [discriminate|].
  destruct (is_authenticated (req_user request)); intros H; injection H as <-; reflexivity.
Qed.

(** Outside [list] and [retrieve], a note whose joined rows form one group
    for the viewer resolves. *)
Lemma get_object_resolves (action : Action) (request : Request) (db : DB) (n : Note) :
  is_list_or_retrieve action = false ->
  NoDup (map note_id (notes db)) ->
  In n (notes db) ->
  one_group (req_user request) db (note_id n) ->
  check_object_permissions action request n = None ->
  exists obj, get_object action request db (note_id n) = inl obj /\ row_note obj = n.
Proof.
  intros Ha Hnd Hin Hone Hperm.
  destruct (annotate_note_one_group (req_user request) db n Hone) as (r & Hr & Hrn).
  exists r. split; [|exact Hrn].
  unfold get_object, get_queryset. rewrite Ha.
  assert (Hp : Permutation [r]
                 (filter (fun r0 => Pos.eqb (note_id (row_note r0)) (note_id n))
                    (order_by_created_at_desc
                       (annotate (req_user request) db (notes db))))).
  { rewrite <- Hr, <- (filter_pk_annotate (req_user request) db (notes db) n Hnd Hin).
    apply filter_Permutation. symmetry. apply order_by_perm. }
  apply Permutation_length_1_inv in Hp. rewrite Hp, Hrn, Hperm. reflexivity.
Qed.

(** Outside [list] and [retrieve], a note the viewer liked (bookmarked)
    together with somebody else does not resolve. *)
Lemma get_object_ambiguous (action : Action) (request : Request) (db : DB) (n : Note) :
  is_list_or_retrieve action = false ->
  NoDup (map note_id (notes db)) ->
  In n (notes db) ->
  liked_or_bookmarked_with_others (req_user request) db (note_id n) ->
  get_object action request db (note_id n) = inr MultipleObjectsReturned.
Proof.
  intros Ha Hnd Hin Hamb.
  pose proof (annotate_note_ambiguous (req_user request) db n Hamb) as Hlen.
  unfold get_object, get_queryset. rewrite Ha.
  assert (Hp : Permutation
                 (filter (fun r0 => Pos.eqb (note_id (row_note r0)) (note_id n))
                    (order_by_created_at_desc
                       (annotate (req_user request) db (notes db))))
                 (annotate_note (req_user request) db n)).
  { rewrite <- (filter_pk_annotate (req_user request) db (notes db) n Hnd Hin).
    apply filter_Permutation. apply order_by_perm. }
  apply Permutation_length in Hp. rewrite <- Hp in Hlen.
  destruct (filter _ _) as [|r1 [|r2 rs]]; simpl in Hlen; try lia. reflexivity.
Qed.

Lemma two_rows_for_a_note_liked_by_both :
  map (fun r => (note_id (row_note r), is_liked_by_current_user_annotated r))
      (get_queryset toggle_like_action (Authenticated alice) db_liked_by_both)
  = [(2%positive, false); (1%positive, false); (1%positive, true)]
  /\ get_object toggle_like_action (request_of alice POST testserver)
       db_liked_by_both 1%positive
     = inr MultipleObjectsReturned.
Proof. split; reflexivity. Qed.

(** ** The engagement toggles (C2, C3) *)

Lemma Like_filter_has_like (db : DB) (user : User) (note : Note) :
  Like_filter db user note = [] <-> has_like db user (note_id note) = false.
Proof. unfold Like_filter, has_like. symmetry. apply existsb_false_filter. Qed.

Lemma Bookmark_filter_has_bookmark (db : DB) (user : User) (note : Note) :
  Bookmark_filter db user note = [] <-> has_bookmark db user (note_id note) = false.
Proof. unfold Bookmark_filter, has_bookmark. symmetry. apply existsb_false_filter. Qed.

(** Toggling on: with no like row of (user, note) the resolved toggle
    inserts one and answers [liked = true] with the count read before the
    insert; the note then has one like more than the response says. *)
Lemma toggle_like_on (user : User) (host : string) (pk_ : pk) (db : DB)
    (obj : AnnotatedNote) :
  get_object toggle_like_action (request_of user POST host) db pk_ = inl obj ->
  has_like db user pk_ = false ->
  toggle_like user host pk_ db
  = (Response (LikeBody "Note liked successfully." true (likes_count_of db pk_))
              HTTP_200_OK,
     Like_create user (row_note obj) db)
  /\ likes (Like_create user (row_note obj) db)
     = likes db ++ [ {| like_id := like_seq db; like_user := user_id user;
                        like_note := pk_ |} ]
  /\ has_like (Like_create user (row_note obj) db) user pk_ = true
  /\ likes_count_of (Like_create user (row_note obj) db) pk_ = S (likes_count_of db pk_).
Proof.
  intros Hobj Hno. destruct (get_object_inl _ _ _ _ _ Hobj) as (_ & Hid & _ & _).
  assert (Hcount : likes_count_of (Like_create user (row_note obj) db) pk_
                   = S (likes_count_of db pk_)).
  { unfold likes_count_of, note_likes, Like_create. simpl.
    rewrite filter_app, length_app. simpl. rewrite Hid, Pos.eqb_refl. simpl. lia. }
  repeat split.
  - unfold toggle_like. rewrite Hobj.
    rewrite <- Hid in Hno. apply Like_filter_has_like in Hno. rewrite Hno. simpl.
    unfold prefetch_related_likes. now rewrite Hid.
  - unfold Like_create. simpl. now rewrite Hid.
  - unfold has_like, Like_create. simpl. rewrite existsb_app. simpl.
    rewrite Hid, !Pos.eqb_refl. simpl. apply orb_true_r.
  - exact Hcount.
Qed.

(** Toggling off: with a like row of (user, note) the resolved toggle
    deletes it and answers [liked = false] with the count read before the
    delete; in a store with unique primary keys and at most one like per
    pair no like of the pair is left and the note has one like less than
    the response says. *)
Lemma toggle_like_off (user : User) (host : string) (pk_ : pk) (db : DB)
    (obj : AnnotatedNote) :
  get_object toggle_like_action (request_of user POST host) db pk_ = inl obj ->
  has_like db user pk_ = true ->
  exists like_instance,
    In like_instance (likes db)
    /\ like_user like_instance = user_id user
    /\ like_note like_instance = pk_
    /\ toggle_like user host pk_ db
       = (Response (LikeBody "Note unliked successfully." false
                             (likes_count_of db pk_))
                   HTTP_200_OK,
          Like_delete like_instance db)
    /\ ~ In like_instance (likes (Like_delete like_instance db))
    /\ (unique_likes db -> has_like (Like_delete like_instance db) user pk_ = false)
    /\ (primary_keys_unique db ->
        S (likes_count_of (Like_delete like_instance db) pk_) = likes_count_of db pk_).
Proof.
  intros Hobj Hhas. destruct (get_object_inl _ _ _ _ _ Hobj) as (_ & Hid & _ & _).
  destruct (Like_filter db user (row_note obj)) as [|li rest] eqn:F.
  { apply Like_filter_has_like in F. rewrite Hid in F. congruence. }
  assert (Hli : In li (Like_filter db user (row_note obj))) by (rewrite F; left; reflexivity).
  unfold Like_filter in Hli. apply filter_In in Hli. destruct Hli as [Hin Hp].
  apply andb_true_iff in Hp. destruct Hp as [Hu Hn].
  apply Pos.eqb_eq in Hu. apply Pos.eqb_eq in Hn. rewrite Hid in Hn.
  exists li. repeat split; auto.
  - unfold toggle_like. rewrite Hobj, F. simpl.
    unfold prefetch_related_likes. now rewrite Hid.
  - unfold Like_delete. simpl. rewrite filter_In.
    rewrite Pos.eqb_refl. simpl. intros [_ H]; discriminate.
  - intros Huniq. unfold has_like, Like_delete. simpl.
    apply existsb_false_filter.
    destruct (filter _ (filter _ (likes db))) as [|x xs] eqn:G; [reflexivity|].
    exfalso.
    assert (Hx : In x (filter (fun l => Pos.eqb (like_user l) (user_id user)
                                          && Pos.eqb (like_note l) pk_)
                        (filter (fun l => negb (Pos.eqb (like_id l) (like_id li)))
                                (likes db))))
      by (rewrite G; left; reflexivity).
    apply filter_In in Hx. destruct Hx as [Hx Hp].
    apply filter_In in Hx. destruct Hx as [Hx Hne].
    apply andb_true_iff in Hp. destruct Hp as [Hu' Hn'].
    apply Pos.eqb_eq in Hu'. apply Pos.eqb_eq in Hn'.
    assert (x = li).
    { apply (NoDup_map_In_inj (fun l => (like_user l, like_note l)) (likes db)); auto.
      simpl. congruence. }
    subst x. rewrite Pos.eqb_refl in Hne. discriminate.
  - intros (_ & Hids & _). unfold likes_count_of, note_likes, Like_delete. simpl.
    apply (length_filter_delete like_id); auto.
    rewrite Hn. apply Pos.eqb_refl.
Qed.

(** Bookmarking on: with no bookmark row of (user, note) the resolved
    toggle inserts one and answers [bookmarked = true] with the count read
    before the insert. *)
Lemma toggle_bookmark_on (user : User) (host : string) (pk_ : pk) (db : DB)
    (obj : AnnotatedNote) :
  get_object toggle_bookmark_action (request_of user POST host) db pk_ = inl obj ->
  has_bookmark db user pk_ = false ->
  toggle_bookmark user host pk_ db
  = (Response (BookmarkBody "Note bookmarked successfully." true
                            (bookmarks_count_of db pk_))
              HTTP_200_OK,
     Bookmark_create user (row_note obj) db)
  /\ bookmarks (Bookmark_create user (row_note obj) db)
     = bookmarks db ++ [ {| bookmark_id := bookmark_seq db;
                            bookmark_user := user_id user; bookmark_note := pk_ |} ]
  /\ has_bookmark (Bookmark_create user (row_note obj) db) user pk_ = true
  /\ bookmarks_count_of (Bookmark_create user (row_note obj) db) pk_
     = S (bookmarks_count_of db pk_).
Proof.
  intros Hobj Hno. destruct (get_object_inl _ _ _ _ _ Hobj) as (_ & Hid & _ & _).
  assert (Hcount : bookmarks_count_of (Bookmark_create user (row_note obj) db) pk_
                   = S (bookmarks_count_of db pk_)).
  { unfold bookmarks_count_of, note_bookmarks, Bookmark_create. simpl.
    rewrite filter_app, length_app. simpl. rewrite Hid, Pos.eqb_refl. simpl. lia. }
  repeat split.
  - unfold toggle_bookmark. rewrite Hobj.
    rewrite <- Hid in Hno. apply Bookmark_filter_has_bookmark in Hno. rewrite Hno. simpl.
    unfold prefetch_related_bookmarks. now rewrite Hid.
  - unfold Bookmark_create. simpl. now rewrite Hid.
  - unfold has_bookmark, Bookmark_create. simpl. rewrite existsb_app. simpl.
    rewrite Hid, !Pos.eqb_refl. simpl. apply orb_true_r.
  - exact Hcount.
Qed.

(** Bookmarking off: with a bookmark row of (user, note) the resolved
    toggle deletes it and answers [bookmarked = false] with the count read
    before the delete; in a store with unique primary keys and at most one
    bookmark per pair no bookmark of the pair is left and the note has one
    bookmark less than the response says. *)
Lemma toggle_bookmark_off (user : User) (host : string) (pk_ : pk) (db : DB)
    (obj : AnnotatedNote) :
  get_object toggle_bookmark_action (request_of user POST host) db pk_ = inl obj ->
  has_bookmark db user pk_ = true ->
  exists bookmark_instance,
    In bookmark_instance (bookmarks db)
    /\ bookmark_user bookmark_instance = user_id user
    /\ bookmark_note bookmark_instance = pk_
    /\ toggle_bookmark user host pk_ db
       = (Response
            (BookmarkBody "Note removed from bookmarks." false
               (bookmarks_count_of db pk_))
            HTTP_200_OK,
          Bookmark_delete bookmark_instance db)
    /\ ~ In bookmark_instance (bookmarks (Bookmark_delete bookmark_instance db))
    /\ (unique_bookmarks db ->
        has_bookmark (Bookmark_delete bookmark_instance db) user pk_ = false)
    /\ (primary_keys_unique db ->
        S (bookmarks_count_of (Bookmark_delete bookmark_instance db) pk_)
        = bookmarks_count_of db pk_).
Proof.
  intros Hobj Hhas. destruct (get_object_inl _ _ _ _ _ Hobj) as (_ & Hid & _ & _).
  destruct (Bookmark_filter db user (row_note obj)) as [|bi rest] eqn:F.
  { apply Bookmark_filter_has_bookmark in F. rewrite Hid in F. congruence. }
  assert (Hbi : In bi (Bookmark_filter db user (row_note obj)))
    by (rewrite F; left; reflexivity).
  unfold Bookmark_filter in Hbi. apply filter_In in Hbi. destruct Hbi as [Hin Hp].
  apply andb_true_iff in Hp. destruct Hp as [Hu Hn].
  apply Pos.eqb_eq in Hu. apply Pos.eqb_eq in Hn. rewrite Hid in Hn.
  exists bi. repeat split; auto.
  - unfold toggle_bookmark. rewrite Hobj, F. simpl.
    unfold prefetch_related_bookmarks. now rewrite Hid.
  - unfold Bookmark_delete. simpl. rewrite filter_In.
    rewrite Pos.eqb_refl. simpl. intros [_ H]; discriminate.
  - intros Huniq. unfold has_bookmark, Bookmark_delete. simpl.
    apply existsb_false_filter.
    destruct (filter _ (filter _ (bookmarks db))) as [|x xs] eqn:G; [reflexivity|].
    exfalso.
    assert (Hx : In x (filter (fun b => Pos.eqb (bookmark_user b) (user_id user)
                                          && Pos.eqb (bookmark_note b) pk_)
                        (filter (fun b => negb (Pos.eqb (bookmark_id b) (bookmark_id bi)))
                                (bookmarks db))))
      by (rewrite G; left; reflexivity).
    apply filter_In in Hx. destruct Hx as [Hx Hp].
    apply filter_In in Hx. destruct Hx as [Hx Hne].
    apply andb_true_iff in Hp. destruct Hp as [Hu' Hn'].
    apply Pos.eqb_eq in Hu'. apply Pos.eqb_eq in Hn'.
    assert (x = bi).
    { apply (NoDup_map_In_inj (fun b => (bookmark_user b, bookmark_note b))
               (bookmarks db)); auto.
      simpl. congruence. }
    subst x. rewrite Pos.eqb_refl in Hne. discriminate.
  - intros (_ & _ & Hids).
    unfold bookmarks_count_of, note_bookmarks, Bookmark_delete. simpl.
    apply (length_filter_delete bookmark_id); auto.
    rewrite Hn. apply Pos.eqb_refl.
Qed.

(** Once [get_object] has resolved the note, [toggle_like] flips the like
    of (user, note) in the store and reports the new state, but the
    [likes_count] of the response is the number of likes read before the
    write.  Without a like of the pair it inserts one and answers
    [liked = true] with the old count, one less than the note then has;
    with one, in a store with unique keys and at most one like per pair, it
    deletes it and answers [liked = false] with the old count, one more
    than the note then has. *)
Theorem toggle_like_flips (user : User) (host : string) (pk_ : pk) (db : DB)
    (obj : AnnotatedNote) :
  get_object toggle_like_action (request_of user POST host) db pk_ = inl obj ->
  (has_like db user pk_ = false ->
   toggle_like user host pk_ db
   = (Response (LikeBody "Note liked successfully." true (likes_count_of db pk_))
               HTTP_200_OK,
      Like_create user (row_note obj) db)
   /\ has_like (Like_create user (row_note obj) db) user pk_ = true
   /\ likes_count_of (Like_create user (row_note obj) db) pk_
      = S (likes_count_of db pk_))
  /\ (has_like db user pk_ = true -> unique_likes db -> primary_keys_unique db ->
      exists db',
        toggle_like user host pk_ db
        = (Response (LikeBody "Note unliked successfully." false (likes_count_of db pk_))
                    HTTP_200_OK, db')
        /\ has_like db' user pk_ = false
        /\ S (likes_count_of db' pk_) = likes_count_of db pk_).
Proof.
  intros Hobj. split.
  - intros Hno.
    destruct (toggle_like_on user host pk_ db obj Hobj Hno) as (H1 & _ & H3 & H4).
    repeat split; assumption.
  - intros Hhas Hu Hpk.
    destruct (toggle_like_off user host pk_ db obj Hobj Hhas)
      as (li & _ & _ & _ & Heq & _ & Hgone & Hcount).
    exists (Like_delete li db). repeat split; auto.
Qed.

Lemma toggle_like_flips_witness :
  get_object toggle_like_action (request_of alice POST testserver) db0 1%positive
  = inl (plain_row note1)
  /\ toggle_like alice testserver 1%positive db0
     = (Response (LikeBody "Note liked successfully." true 0) HTTP_200_OK,
        Like_create alice note1 db0)
  /\ likes_count_of (Like_create alice note1 db0) 1%positive = 1%nat.
Proof.
  assert (H : get_object toggle_like_action (request_of alice POST testserver)
                db0 1%positive = inl (plain_row note1)) by reflexivity.
  split; [exact H|].
  destruct (proj1 (toggle_like_flips alice testserver 1%positive db0 (plain_row note1) H)
              eq_refl) as (H1 & _ & H3).
  split; [exact H1 | exact H3].
Defined.

(** The same for [toggle_bookmark]: the store and the reported state flip,
    the [bookmarks_count] of the response is the count read before the
    write. *)
Theorem toggle_bookmark_flips (user : User) (host : string) (pk_ : pk) (db : DB)
    (obj : AnnotatedNote) :
  get_object toggle_bookmark_action (request_of user POST host) db pk_ = inl obj ->
  (has_bookmark db user pk_ = false ->
   toggle_bookmark user host pk_ db
   = (Response (BookmarkBody "Note bookmarked successfully." true
                             (bookmarks_count_of db pk_))
               HTTP_200_OK,
      Bookmark_create user (row_note obj) db)
   /\ has_bookmark (Bookmark_create user (row_note obj) db) user pk_ = true
   /\ bookmarks_count_of (Bookmark_create user (row_note obj) db) pk_
      = S (bookmarks_count_of db pk_))
  /\ (has_bookmark db user pk_ = true -> unique_bookmarks db -> primary_keys_unique db ->
      exists db',
        toggle_bookmark user host pk_ db
        = (Response (BookmarkBody "Note removed from bookmarks." false
                                  (bookmarks_count_of db pk_))
                    HTTP_200_OK, db')
        /\ has_bookmark db' user pk_ = false
        /\ S (bookmarks_count_of db' pk_) = bookmarks_count_of db pk_).
Proof.
  intros Hobj. split.
  - intros Hno.
    destruct (toggle_bookmark_on user host pk_ db obj Hobj Hno) as (H1 & _ & H3 & H4).
    repeat split; assumption.
  - intros Hhas Hu Hpk.
    destruct (toggle_bookmark_off user host pk_ db obj Hobj Hhas)
      as (bi & _ & _ & _ & Heq & _ & Hgone & Hcount).
    exists (Bookmark_delete bi db). repeat split; auto.
Qed.

Lemma toggle_bookmark_flips_witness :
  get_object toggle_bookmark_action (request_of alice POST testserver) db0 1%positive
  = inl (plain_row note1)
  /\ toggle_bookmark alice testserver 1%positive db0
     = (Response (BookmarkBody "Note bookmarked successfully." true 0) HTTP_200_OK,
        Bookmark_create alice note1 db0)
  /\ bookmarks_count_of (Bookmark_create alice note1 db0) 1%positive = 1%nat.
Proof.
  assert (H : get_object toggle_bookmark_action (request_of alice POST testserver)
                db0 1%positive = inl (plain_row note1)) by reflexivity.
  split; [exact H|].
  destruct (proj1 (toggle_bookmark_flips alice testserver 1%positive db0
                     (plain_row note1) H) eq_refl) as (H1 & _ & H3).
  split; [exact H1 | exact H3].
Defined.

Lemma fresh_like_seq_not_used (db : DB) :
  fresh_sequences db -> ~ In (like_seq db) (map like_id (likes db)).
Proof.
  intros [Hl _] Hin. apply in_map_iff in Hin. destruct Hin as (l & Hid & Hin).
  specialize (Hl l Hin). rewrite Hid in Hl. exact (Pos.lt_irrefl _ Hl).
Qed.

(** When [get_object] resolves the note before each of two consecutive
    toggles of a user who had no like on it, the first answers
    [liked = true] with the original count, the second [liked = false] with
    the count raised by one (each response carries the count read before
    its own write), and the like table is back to what it was. *)
Lemma toggle_like_twice_resolved (user : User) (host : string) (pk_ : pk) (db : DB)
    (obj obj' : AnnotatedNote) :
  fresh_sequences db ->
  has_like db user pk_ = false ->
  get_object toggle_like_action (request_of user POST host) db pk_ = inl obj ->
  get_object toggle_like_action (request_of user POST host)
    (Like_create user (row_note obj) db) pk_ = inl obj' ->
  fst (toggle_like user host pk_ db)
  = Response (LikeBody "Note liked successfully." true (likes_count_of db pk_))
             HTTP_200_OK
  /\ toggle_like user host pk_ (snd (toggle_like user host pk_ db))
     = (Response (LikeBody "Note unliked successfully." false
                           (S (likes_count_of db pk_)))
                 HTTP_200_OK,
        set_likes db (likes db) (Pos.succ (like_seq db))).
Proof.
  intros Hfresh Hno Hobj Hobj'.
  destruct (toggle_like_on user host pk_ db obj Hobj Hno) as (Heq & _ & _ & Hcount).
  rewrite Heq. split; [reflexivity|]. simpl snd.
  destruct (get_object_inl _ _ _ _ _ Hobj) as (_ & Hid & _ & _).
  destruct (get_object_inl _ _ _ _ _ Hobj') as (_ & Hid' & _ & _).
  pose proof (fresh_like_seq_not_used db Hfresh) as Hunused.
  assert (Hnone : filter (fun l => Pos.eqb (like_user l) (user_id user)
                                   && Pos.eqb (like_note l) pk_) (likes db) = []).
  { apply existsb_false_filter. exact Hno. }
  assert (Hfirst : first (Like_filter (Like_create user (row_note obj) db) user
                            (row_note obj'))
                   = Some {| like_id := like_seq db; like_user := user_id user;
                             like_note := pk_ |}).
  { unfold Like_filter, Like_create. cbn [likes set_likes].
    rewrite filter_app, Hid', Hid, Hnone. cbn [filter like_user like_note app].
    rewrite !Pos.eqb_refl. reflexivity. }
  unfold toggle_like. rewrite Hobj'. cbv zeta. rewrite Hfirst.
  unfold prefetch_related_likes. rewrite Hid'.
  change (length (note_likes (Like_create user (row_note obj) db) pk_))
    with (likes_count_of (Like_create user (row_note obj) db) pk_).
  rewrite Hcount. f_equal.
  unfold Like_delete, Like_create. cbn [likes set_likes like_id like_seq].
  rewrite filter_app. cbn [filter like_id]. rewrite Pos.eqb_refl. cbn [negb].
  rewrite (filter_other_keys like_id (like_seq db) (likes db) Hunused), app_nil_r.
  reflexivity.
Qed.

Lemma toggle_like_twice_resolved_witness :
  fresh_sequences db0
  /\ fst (toggle_like alice testserver 1%positive db0)
     = Response (LikeBody "Note liked successfully." true 0) HTTP_200_OK
  /\ toggle_like alice testserver 1%positive
       (snd (toggle_like alice testserver 1%positive db0))
     = (Response (LikeBody "Note unliked successfully." false 1) HTTP_200_OK,
        set_likes db0 (likes db0) (Pos.succ (like_seq db0))).
Proof.
  assert (Hf : fresh_sequences db0) by (split; intros x []).
  split; [exact Hf|].
  apply (toggle_like_twice_resolved alice testserver 1%positive db0
           (plain_row note1)
           {| row_note := note1; calculated_average_rating := 0%Q;
              calculated_likes_count := 1; calculated_bookmarks_count := 0;
              is_liked_by_current_user_annotated := true;
              is_bookmarked_by_current_user_annotated := false |} Hf);
    reflexivity.
Defined.

(** Whatever [get_object] raises, the toggles end in the failure of their
    last [except] clause and write nothing. *)
Lemma toggle_like_unresolved (user : User) (host : string) (pk_ : pk) (db : DB) (e : Exn) :
  get_object toggle_like_action (request_of user POST host) db pk_ = inr e ->
  toggle_like user host pk_ db = (Raised (UnboundLocalError "user"), db).
Proof.
  intros H. unfold toggle_like. rewrite H.
  now rewrite (get_object_never_DoesNotExist _ _ _ _ _ H).
Qed.

Lemma toggle_bookmark_unresolved (user : User) (host : string) (pk_ : pk) (db : DB)
    (e : Exn) :
  get_object toggle_bookmark_action (request_of user POST host) db pk_ = inr e ->
  toggle_bookmark user host pk_ db = (Raised (UnboundLocalError "user"), db).
Proof.
  intros H. unfold toggle_bookmark. rewrite H.
  now rewrite (get_object_never_DoesNotExist _ _ _ _ _ H).
Qed.

Lemma toggle_like_status_resolved (user : User) (host : string) (pk_ : pk) (db : DB)
    (obj : AnnotatedNote) :
  get_object toggle_like_action (request_of user POST host) db pk_ = inl obj ->
  http_status (fst (toggle_like user host pk_ db)) = HTTP_200_OK.
Proof.
  intros H. unfold toggle_like. rewrite H.
  destruct (first (Like_filter db user (row_note obj))); reflexivity.
Qed.

Lemma toggle_bookmark_status_resolved (user : User) (host : string) (pk_ : pk) (db : DB)
    (obj : AnnotatedNote) :
  get_object toggle_bookmark_action (request_of user POST host) db pk_ = inl obj ->
  http_status (fst (toggle_bookmark user host pk_ db)) = HTTP_200_OK.
Proof.
  intros H. unfold toggle_bookmark. rewrite H.
  destruct (first (Bookmark_filter db user (row_note obj))); reflexivity.
Qed.

(** C2 (code bug): alice and bob both like [note1] (both bookmarked it, in
    the second store); alice's [toggle_like] ([toggle_bookmark]) deletes
    nothing and reports no new state: [get_object] raises, the handler's
    last [except] clause fails on the unassigned [user], and the request
    ends as a server error. *)
Theorem toggle_with_second_liker_fails :
  has_like db_liked_by_both alice 1%positive = true
  /\ toggle_like alice testserver 1%positive db_liked_by_both
     = (Raised (UnboundLocalError "user"), db_liked_by_both)
  /\ http_status (fst (toggle_like alice testserver 1%positive db_liked_by_both)) = 500
  /\ has_bookmark db_bookmarked_by_both alice 1%positive = true
  /\ toggle_bookmark alice testserver 1%positive db_bookmarked_by_both
     = (Raised (UnboundLocalError "user"), db_bookmarked_by_both).
Proof. repeat split; reflexivity. Qed.

(** C3 (code bug): bob likes [note1], alice does not.  Alice's first
    [toggle_like] answers [liked = true], with the count 1 read before her
    like was inserted; her second one fails, and her like stays in the
    store, which then counts 2 likes on the note. *)
Theorem toggle_like_twice_fails_after_first :
  has_like db_liked_by_bob alice 1%positive = false
  /\ fst (toggle_like alice testserver 1%positive db_liked_by_bob)
     = Response (LikeBody "Note liked successfully." true 1) HTTP_200_OK
  /\ (let db1 := snd (toggle_like alice testserver 1%positive db_liked_by_bob) in
      toggle_like alice testserver 1%positive db1
      = (Raised (UnboundLocalError "user"), db1)
      /\ has_like db1 alice 1%positive = true
      /\ likes_count_of db1 1%positive = 2%nat)
  /\ likes_count_of db_liked_by_bob 1%positive = 1%nat.
Proof. repeat split; reflexivity. Qed.

(** ** The download counter (C5) *)

Lemma find_after_increment (note : Note) (l : list Note) :
  NoDup (map note_id l) -> In note l ->
  find (fun m => Pos.eqb (note_id m) (note_id note))
       (map (fun m => if Pos.eqb (note_id m) (note_id note)
                      then with_download_count m (download_count m + 1)
                      else m) l)
  = Some (with_download_count note (download_count note + 1)).
Proof.
  induction l as [|a l IH]; simpl; [tauto|].
  intros Hnd Hin. inversion Hnd as [|? ? Hnin Hnd']; subst.
  destruct Hin as [->|Hin].
  - rewrite Pos.eqb_refl. simpl. now rewrite Pos.eqb_refl.
  - assert (Hne : Pos.eqb (note_id a) (note_id note) = false).
    { apply Pos.eqb_neq. intros E. apply Hnin. rewrite E. now apply in_map. }
    rewrite Hne. simpl. rewrite Hne. auto.
Qed.

(** A resolved download adds exactly one to the counter of that note,
    writes no other column and no other row, and reports the new count. *)
Lemma download_resolved (user : User) (host : string) (pk_ : pk) (db : DB)
    (obj : AnnotatedNote) :
  NoDup (map note_id (notes db)) ->
  get_object download_action (request_of user GET host) db pk_ = inl obj ->
  exists file_url,
    download user host pk_ db
    = (Response
         (DownloadBody
            "Download initiated (count incremented). Please use the file_url to download."
            file_url (download_count (row_note obj) + 1))
         HTTP_200_OK,
       set_notes db
         (map (fun m => if Pos.eqb (note_id m) pk_
                        then with_download_count m (download_count m + 1)
                        else m)
              (notes db))).
Proof.
  intros Hnd Hobj. destruct (get_object_inl _ _ _ _ _ Hobj) as (_ & Hid & Hin & _).
  unfold download. rewrite Hobj. cbv zeta.
  unfold refresh_from_db, save_download_count_F_plus_1. simpl notes.
  rewrite (find_after_increment (row_note obj) (notes db) Hnd Hin).
  rewrite Hid. simpl. eexists. reflexivity.
Qed.

Lemma download_resolved_witness :
  NoDup (map note_id (notes db0))
  /\ exists file_url,
       download alice testserver 1%positive db0
       = (Response
            (DownloadBody
               "Download initiated (count incremented). Please use the file_url to download."
               file_url (download_count (row_note (plain_row note1)) + 1))
            HTTP_200_OK,
          set_notes db0
            (map (fun m => if Pos.eqb (note_id m) 1%positive
                           then with_download_count m (download_count m + 1)
                           else m)
                 (notes db0))).
Proof.
  assert (H1 : NoDup (map note_id (notes db0))).
  { distinct_keys. }
  split; [exact H1|].
  apply (download_resolved alice testserver 1%positive db0 (plain_row note1) H1).
  reflexivity.
Defined.

Lemma download_status_resolved (user : User) (host : string) (pk_ : pk) (db : DB)
    (obj : AnnotatedNote) :
  NoDup (map note_id (notes db)) ->
  get_object download_action (request_of user GET host) db pk_ = inl obj ->
  http_status (fst (download user host pk_ db)) = HTTP_200_OK.
Proof.
  intros Hnd Hobj. destruct (get_object_inl _ _ _ _ _ Hobj) as (_ & _ & Hin & _).
  unfold download. rewrite Hobj. cbv zeta.
  unfold refresh_from_db, save_download_count_F_plus_1. simpl notes.
  now rewrite (find_after_increment (row_note obj) (notes db) Hnd Hin).
Qed.

(** C5 (code bug): alice and bob both like [note1]; alice's [download] of
    it raises [MultipleObjectsReturned] before the counter is touched. *)
Theorem download_with_second_liker_fails :
  download alice testserver 1%positive db_liked_by_both
  = (Raised MultipleObjectsReturned, db_liked_by_both)
  /\ http_status (fst (download alice testserver 1%positive db_liked_by_both)) = 500
  /\ map download_count (notes (snd (download alice testserver 1%positive
                                       db_liked_by_both)))
     = map download_count (notes db_liked_by_both).
Proof. repeat split; reflexivity. Qed.

(** ** Updates by staff and by others (C6) *)

Lemma update_object_permission (user : User) (partial : bool) (host : string)
    (n : Note) :
  is_staff user = false ->
  check_object_permissions (if partial then partial_update else update)
    (request_of user (if partial then PATCH else PUT) host) n
  = if Pos.eqb (user_id user) (uploader n)
    then None
    else Some (PermissionDenied "You do not have permission to perform this action.").
Proof.
  intros Hs. unfold check_object_permissions, permission_denied.
  destruct partial; simpl; rewrite Hs, orb_false_r;
    destruct (Pos.eqb (user_id user) (uploader n)); reflexivity.
Qed.

(** A user who is not staff never gets an update through: the store is
    left as it was, and whenever the note resolves to one row the error is
    a permission error. *)
Lemma perform_update_non_staff (user : User) (partial : bool) (host : string)
    (pk_ : pk) (data : NoteData) (db : DB) :
  is_staff user = false ->
  snd (perform_update user partial host pk_ data db) = db
  /\ exists e, fst (perform_update user partial host pk_ data db) = Some e
     /\ (e = Http404 \/ e = MultipleObjectsReturned
         \/ exists detail, e = PermissionDenied detail).
Proof.
  intros Hs. unfold perform_update, get_object.
  destruct (filter _ _) as [|r [|r' rs]]; simpl.
  - split; [reflexivity|]. exists Http404. auto.
  - rewrite (update_object_permission user partial host (row_note r) Hs).
    destruct (Pos.eqb (user_id user) (uploader (row_note r))) eqn:E; simpl.
    + rewrite E, Hs. simpl. split; [reflexivity|]. eexists. split; [reflexivity|].
      right; right. eexists. reflexivity.
    + split; [reflexivity|]. eexists. split; [reflexivity|].
      right; right. eexists. reflexivity.
  - split; [reflexivity|]. exists MultipleObjectsReturned. auto.
Qed.

Lemma perform_update_non_staff_witness :
  is_staff bob = false
  /\ snd (perform_update bob false testserver 1%positive new_title_only db0) = db0
  /\ exists e,
       fst (perform_update bob false testserver 1%positive new_title_only db0) = Some e
       /\ (e = Http404 \/ e = MultipleObjectsReturned
           \/ exists detail, e = PermissionDenied detail).
Proof.
  split; [reflexivity|].
  apply (perform_update_non_staff bob false testserver 1%positive new_title_only db0).
  reflexivity.
Defined.

(** Staff get an update of a resolved note through. *)
Lemma perform_update_staff (user : User) (partial : bool) (host : string)
    (pk_ : pk) (data : NoteData) (db : DB) (obj : AnnotatedNote) :
  is_staff user = true ->
  get_object (if partial then partial_update else update)
    (request_of user (if partial then PATCH else PUT) host) db pk_ = inl obj ->
  perform_update user partial host pk_ data db
  = (None, serializer_save_note pk_ data db).
Proof.
  intros Hs Hobj. unfold perform_update. rewrite Hobj, Hs.
  now rewrite andb_false_r.
Qed.

Lemma perform_update_staff_witness :
  is_staff admin = true
  /\ perform_update admin true testserver 1%positive new_title_only db0
     = (None, serializer_save_note 1%positive new_title_only db0).
Proof.
  split; [reflexivity|].
  apply (perform_update_staff admin true testserver 1%positive new_title_only db0
           (plain_row note1)); reflexivity.
Defined.

(** C6 (code bug): alice, not staff, uploaded [note1], which she and bob
    both like.  Her update is turned away by [MultipleObjectsReturned], a
    server error, not by a permission error; the note is left as it was. *)
Theorem perform_update_with_second_liker_fails :
  is_staff alice = false
  /\ uploader note1 = user_id alice
  /\ perform_update alice false testserver 1%positive new_title_only db_liked_by_both
     = (Some MultipleObjectsReturned, db_liked_by_both)
  /\ exception_status MultipleObjectsReturned = 500
  /\ perform_update alice true testserver 1%positive new_title_only db_liked_by_both
     = (Some MultipleObjectsReturned, db_liked_by_both).
Proof. repeat split; reflexivity. Qed.

(** ** The detail actions on a note that does not resolve (C7) *)

(** A note the viewer liked (bookmarked) together with somebody else: each
    detail action of that viewer on it fails and leaves the store as it
    was. *)
Lemma detail_actions_on_ambiguous_note (user : User) (host : string) (n : Note)
    (partial : bool) (data : NoteData) (db : DB) :
  NoDup (map note_id (notes db)) ->
  In n (notes db) ->
  liked_or_bookmarked_with_others (Authenticated user) db (note_id n) ->
  toggle_like user host (note_id n) db = (Raised (UnboundLocalError "user"), db)
  /\ toggle_bookmark user host (note_id n) db = (Raised (UnboundLocalError "user"), db)
  /\ download user host (note_id n) db = (Raised MultipleObjectsReturned, db)
  /\ perform_update user partial host (note_id n) data db
     = (Some MultipleObjectsReturned, db).
Proof.
  intros Hnd Hin Hamb. repeat split.
  - eapply toggle_like_unresolved.
    apply (get_object_ambiguous toggle_like_action (request_of user POST host)); auto.
  - eapply toggle_bookmark_unresolved.
    apply (get_object_ambiguous toggle_bookmark_action (request_of user POST host)); auto.
  - unfold download.
    now rewrite (get_object_ambiguous download_action (request_of user GET host) db n).
  - unfold perform_update.
    rewrite (get_object_ambiguous (if partial then partial_update else update)
               (request_of user (if partial then PATCH else PUT) host) db n);
      auto.
    now destruct partial.
Qed.

Lemma detail_actions_on_ambiguous_note_witness :
  liked_or_bookmarked_with_others (Authenticated alice) db_liked_by_both (note_id note1)
  /\ download alice testserver (note_id note1) db_liked_by_both
     = (Raised MultipleObjectsReturned, db_liked_by_both).
Proof.
  assert (H : liked_or_bookmarked_with_others (Authenticated alice) db_liked_by_both
                (note_id note1)).
  { left. exists (like_of 1 1 1), (like_of 2 2 1). simpl. auto. }
  split; [exact H|].
  apply (detail_actions_on_ambiguous_note alice testserver note1 false new_title_only
           db_liked_by_both); auto.
  - distinct_keys.
  - simpl. auto.
Defined.

(** A primary key no note has: the toggles answer with a server error, not
    with the 404 of their [except Note.DoesNotExist] clause; [download] and
    [perform_update] let the [Http404] through. *)
Lemma detail_actions_on_missing_note (user : User) (host : string) (pk_ : pk)
    (partial : bool) (data : NoteData) (db : DB) :
  (forall n, In n (notes db) -> note_id n <> pk_) ->
  toggle_like user host pk_ db = (Raised (UnboundLocalError "user"), db)
  /\ toggle_bookmark user host pk_ db = (Raised (UnboundLocalError "user"), db)
  /\ download user host pk_ db = (Raised Http404, db)
  /\ perform_update user partial host pk_ data db = (Some Http404, db).
Proof.
  intros Hmiss. repeat split.
  - eapply toggle_like_unresolved. now apply get_object_missing.
  - eapply toggle_bookmark_unresolved. now apply get_object_missing.
  - unfold download. now rewrite get_object_missing.
  - unfold perform_update. now rewrite get_object_missing.
Qed.

Lemma detail_actions_on_missing_note_witness :
  (forall n, In n (notes db0) -> note_id n <> 9%positive)
  /\ toggle_like alice testserver 9%positive db0
     = (Raised (UnboundLocalError "user"), db0).
Proof.
  assert (H : forall n, In n (notes db0) -> note_id n <> 9%positive).
  { intros n [<-|[<-|[]]]; discriminate. }
  split; [exact H|].
  apply (detail_actions_on_missing_note alice testserver 9%positive false
           new_title_only db0 H).
Defined.

(** C7 (code bug): no note has primary key 9.  Rating and comment creation
    answer 404; [toggle_like] and [toggle_bookmark] do not: [get_object]
    raises [Http404], which [except Note.DoesNotExist] does not catch, and
    the last [except] clause fails on the unassigned [user], a server
    error.  No row is written in any of the four. *)
Theorem toggle_on_missing_note_is_a_server_error :
  toggle_like alice testserver 9%positive db0
  = (Raised (UnboundLocalError "user"), db0)
  /\ http_status (fst (toggle_like alice testserver 9%positive db0)) = 500
  /\ toggle_bookmark alice testserver 9%positive db0
     = (Raised (UnboundLocalError "user"), db0)
  /\ http_status (fst (toggle_bookmark alice testserver 9%positive db0)) = 500
  /\ StarRating_perform_create alice (Some 9) 5 db0 = (Some Http404, db0)
  /\ Comment_perform_create alice (Some 9) "thanks" db0 = (Some Http404, db0)
  /\ exception_status Http404 = HTTP_404_NOT_FOUND.
Proof. repeat split; reflexivity. Qed.

(** ** Rating and comment creation (C4) *)

Lemma get_object_or_404_found (db : DB) (n : Note) :
  NoDup (map note_id (notes db)) -> In n (notes db) ->
  get_object_or_404 db (Some (Z.pos (note_id n))) = inl n.
Proof.
  intros Hnd Hin. unfold get_object_or_404.
  change (fun n0 : Note => Z.pos (note_id n0) =? Z.pos (note_id n))
    with (fun n0 : Note => Pos.eqb (note_id n0) (note_id n)).
  now rewrite (filter_key_unique note_id (notes db) n Hnd Hin).
Qed.

(** C4, as the code has it: creating a rating or a comment on a note [n]
    fails with a validation error exactly when the request omits the note
    reference or the user already has a rating (comment) on [n].  The error
    for the omitted reference says the field is required; only the error
    for the duplicate directs the client to update the existing row.
    Otherwise one row with [user] and [n] is appended and nothing else is
    written. *)
Theorem perform_create_validation (user : User) (n : Note) (db : DB) (stars_ : Z)
    (text_ : string) (note_id_from_request : option Z) :
  NoDup (map note_id (notes db)) ->
  In n (notes db) ->
  note_id_from_request = None \/ note_id_from_request = Some (Z.pos (note_id n)) ->
  (is_ValidationError (fst (StarRating_perform_create user note_id_from_request stars_ db))
   = true
   <-> note_id_from_request = None \/ StarRating_filter db n user <> [])
  /\ (is_ValidationError (fst (Comment_perform_create user note_id_from_request text_ db))
      = true
      <-> note_id_from_request = None \/ Comment_filter db n user <> [])
  /\ (note_id_from_request = None ->
      StarRating_perform_create user note_id_from_request stars_ db
      = (Some rating_required, db)
      /\ Comment_perform_create user note_id_from_request text_ db
         = (Some comment_required, db))
  /\ (note_id_from_request <> None -> StarRating_filter db n user <> [] ->
      StarRating_perform_create user note_id_from_request stars_ db
      = (Some already_rated, db))
  /\ (note_id_from_request <> None -> Comment_filter db n user <> [] ->
      Comment_perform_create user note_id_from_request text_ db
      = (Some already_commented, db))
  /\ (note_id_from_request <> None -> StarRating_filter db n user = [] ->
      StarRating_perform_create user note_id_from_request stars_ db
      = (None,
         set_star_ratings db
           (star_ratings db ++ [ {| rating_id := rating_seq db; rating_note := note_id n;
                                    rating_user := user_id user; stars := stars_ |} ])
           (Pos.succ (rating_seq db))))
  /\ (note_id_from_request <> None -> Comment_filter db n user = [] ->
      Comment_perform_create user note_id_from_request text_ db
      = (None,
         set_comments db
           (comments db ++ [ {| comment_id := comment_seq db; comment_note := note_id n;
                                comment_user := user_id user; text := text_ |} ])
           (Pos.succ (comment_seq db)))).
Proof.
  intros Hnd Hin Href.
  pose proof (get_object_or_404_found db n Hnd Hin) as Hget.
  unfold StarRating_perform_create, Comment_perform_create.
  destruct Href as [-> | ->]; simpl falsy; cbv iota.
  - repeat split; simpl; auto; try congruence.
  - rewrite Hget.
    destruct (StarRating_filter db n user) as [|r rs] eqn:FR;
      destruct (Comment_filter db n user) as [|c cs] eqn:FC; simpl;
      repeat split; intros; try reflexivity; try congruence; auto;
      try (right; congruence);
      try (match goal with H : _ \/ _ |- _ => destruct H; congruence end).
Qed.

Lemma perform_create_validation_witness :
  NoDup (map note_id (notes db0))
  /\ In note1 (notes db0)
  /\ StarRating_perform_create alice (Some (Z.pos (note_id note1))) 5 db0
     = (None,
        set_star_ratings db0
          (star_ratings db0 ++ [ {| rating_id := rating_seq db0;
                                    rating_note := note_id note1;
                                    rating_user := user_id alice; stars := 5 |} ])
          (Pos.succ (rating_seq db0))).
Proof.
  assert (H1 : NoDup (map note_id (notes db0))).
  { distinct_keys. }
  assert (H2 : In note1 (notes db0)) by (simpl; tauto).
  split; [exact H1|]. split; [exact H2|].
  apply (perform_create_validation alice note1 db0 5 "thanks"
           (Some (Z.pos (note_id note1))) H1 H2 (or_intror eq_refl));
    [discriminate | reflexivity].
Defined.

(** C4 as stated fails where the note reference is omitted: the validation
    error raised there is the required-field error, which says nothing
    about updating an existing rating or comment. *)
Lemma omitted_note_error_is_not_the_update_hint :
  fst (StarRating_perform_create alice None 5 db0)
  = Some (ValidationError "note" "This field is required to create a rating.")
  /\ fst (StarRating_perform_create alice None 5 db0) <> Some already_rated
  /\ fst (Comment_perform_create alice None "thanks" db0)
     = Some (ValidationError "note" "This field is required to create a comment.")
  /\ fst (Comment_perform_create alice None "thanks" db0) <> Some already_commented.
Proof. repeat split; try reflexivity; simpl; discriminate. Qed.

(** ** One like and one bookmark per (user, note) (C9) *)

Lemma Like_delete_unique (li : Like) (db : DB) :
  unique_likes db -> unique_likes (Like_delete li db).
Proof. unfold unique_likes, Like_delete. simpl. apply NoDup_map_filter. Qed.

Lemma Like_create_unique (user : User) (note : Note) (db : DB) :
  Like_filter db user note = [] ->
  unique_likes db -> unique_likes (Like_create user note db).
Proof.
  intros Hnone Hu. unfold unique_likes, Like_create. simpl.
  apply NoDup_map_snoc; [exact Hu|].
  intros y Hy Heq. simpl in Heq. injection Heq as Hyu Hyn.
  pose proof (filter_nil_forall _ _ Hnone y Hy) as Hp. simpl in Hp.
  rewrite Hyu, Hyn, !Pos.eqb_refl in Hp. discriminate.
Qed.

Lemma Bookmark_delete_unique (bi : Bookmark) (db : DB) :
  unique_bookmarks db -> unique_bookmarks (Bookmark_delete bi db).
Proof. unfold unique_bookmarks, Bookmark_delete. simpl. apply NoDup_map_filter. Qed.

Lemma Bookmark_create_unique (user : User) (note : Note) (db : DB) :
  Bookmark_filter db user note = [] ->
  unique_bookmarks db -> unique_bookmarks (Bookmark_create user note db).
Proof.
  intros Hnone Hu. unfold unique_bookmarks, Bookmark_create. simpl.
  apply NoDup_map_snoc; [exact Hu|].
  intros y Hy Heq. simpl in Heq. injection Heq as Hyu Hyn.
  pose proof (filter_nil_forall _ _ Hnone y Hy) as Hp. simpl in Hp.
  rewrite Hyu, Hyn, !Pos.eqb_refl in Hp. discriminate.
Qed.

Lemma toggle_like_engagement (user : User) (host : string) (pk_ : pk) (db : DB) :
  engagement_invariant db ->
  engagement_invariant (snd (toggle_like user host pk_ db)).
Proof.
  intros [Hl Hb]. unfold toggle_like.
  destruct (get_object _ _ db pk_) as [obj|e].
  - destruct (first (Like_filter db user (row_note obj))) as [li|] eqn:F; simpl.
    + split; [now apply Like_delete_unique | exact Hb].
    + split; [|exact Hb]. apply Like_create_unique; [|exact Hl].
      unfold first in F. destruct (Like_filter db user (row_note obj));
        [reflexivity | discriminate].
  - destruct (isinstance_DoesNotExist e); simpl; split; assumption.
Qed.

Lemma toggle_bookmark_engagement (user : User) (host : string) (pk_ : pk) (db : DB) :
  engagement_invariant db ->
  engagement_invariant (snd (toggle_bookmark user host pk_ db)).
Proof.
  intros [Hl Hb]. unfold toggle_bookmark.
  destruct (get_object _ _ db pk_) as [obj|e].
  - destruct (first (Bookmark_filter db user (row_note obj))) as [bi|] eqn:F; simpl.
    + split; [exact Hl | now apply Bookmark_delete_unique].
    + split; [exact Hl|]. apply Bookmark_create_unique; [|exact Hb].
      unfold first in F. destruct (Bookmark_filter db user (row_note obj));
        [reflexivity | discriminate].
  - destruct (isinstance_DoesNotExist e); simpl; split; assumption.
Qed.

(** The other operations leave the like and bookmark tables as they are. *)
Lemma download_engagement_tables (user : User) (host : string) (pk_ : pk) (db : DB) :
  likes (snd (download user host pk_ db)) = likes db
  /\ bookmarks (snd (download user host pk_ db)) = bookmarks db.
Proof.
  unfold download. destruct (get_object _ _ db pk_) as [obj|e]; simpl; [|tauto].
  destruct (refresh_from_db _ _); simpl; tauto.
Qed.

Lemma perform_update_engagement_tables (user : User) (partial : bool) (host : string)
    (pk_ : pk) (data : NoteData) (db : DB) :
  likes (snd (perform_update user partial host pk_ data db)) = likes db
  /\ bookmarks (snd (perform_update user partial host pk_ data db)) = bookmarks db.
Proof.
  unfold perform_update. destruct (get_object _ _ db pk_) as [obj|e]; simpl; [|tauto].
  destruct (_ && _); simpl; tauto.
Qed.

Lemma StarRating_perform_create_engagement_tables (user : User) (ref : option Z)
    (stars_ : Z) (db : DB) :
  likes (snd (StarRating_perform_create user ref stars_ db)) = likes db
  /\ bookmarks (snd (StarRating_perform_create user ref stars_ db)) = bookmarks db.
Proof.
  unfold StarRating_perform_create. destruct (falsy ref); simpl; [tauto|].
  destruct (get_object_or_404 db ref); simpl; [|tauto].
  destruct (first _); simpl; tauto.
Qed.

Lemma Comment_perform_create_engagement_tables (user : User) (ref : option Z)
    (text_ : string) (db : DB) :
  likes (snd (Comment_perform_create user ref text_ db)) = likes db
  /\ bookmarks (snd (Comment_perform_create user ref text_ db)) = bookmarks db.
Proof.
  unfold Comment_perform_create. destruct (falsy ref); simpl; [tauto|].
  destruct (get_object_or_404 db ref); simpl; [|tauto].
  destruct (first _); simpl; tauto.
Qed.

(** C9: every operation of the subsystem ([toggle_like],
    [toggle_bookmark], [download], [perform_update], rating creation,
    comment creation), run on a store with at most one like and at most one
    bookmark per (user, note) pair, leaves a store with that property; in
    particular a [toggle_like] or a [toggle_bookmark] does. *)
Theorem engagement_invariant_preserved (op : Operation) (db : DB) :
  engagement_invariant db -> engagement_invariant (run op db).
Proof.
  intros Hinv. destruct op; simpl.
  - now apply toggle_like_engagement.
  - now apply toggle_bookmark_engagement.
  - destruct (download_engagement_tables user host pk_ db) as [Hl Hb].
    unfold engagement_invariant, unique_likes, unique_bookmarks in *.
    now rewrite Hl, Hb.
  - destruct (perform_update_engagement_tables user partial host pk_ data db) as [Hl Hb].
    unfold engagement_invariant, unique_likes, unique_bookmarks in *.
    now rewrite Hl, Hb.
  - destruct (StarRating_perform_create_engagement_tables user note_id_from_request
                stars_ db) as [Hl Hb].
    unfold engagement_invariant, unique_likes, unique_bookmarks in *.
    now rewrite Hl, Hb.
  - destruct (Comment_perform_create_engagement_tables user note_id_from_request
                text_ db) as [Hl Hb].
    unfold engagement_invariant, unique_likes, unique_bookmarks in *.
    now rewrite Hl, Hb.
Qed.

Lemma engagement_invariant_preserved_witness :
  engagement_invariant db_liked_by_bob
  /\ engagement_invariant (run (Op_toggle_like alice "http://testserver" 1%positive)
                               db_liked_by_bob).
Proof.
  assert (H : engagement_invariant db_liked_by_bob).
  { split; unfold unique_likes, unique_bookmarks; simpl;
      repeat constructor; simpl; tauto. }
  split; [exact H|].
  apply (engagement_invariant_preserved
           (Op_toggle_like alice "http://testserver" 1%positive) db_liked_by_bob H).
Defined.

(** ** The approval flag and the detail actions (C10) *)

Lemma approve_note_id (pk_ : pk) (b : bool) (n : Note) :
  note_id (approve_note pk_ b n) = note_id n.
Proof. unfold approve_note. destruct (Pos.eqb _ _); reflexivity. Qed.

Lemma approve_note_created_at (pk_ : pk) (b : bool) (n : Note) :
  created_at (approve_note pk_ b n) = created_at n.
Proof. unfold approve_note. destruct (Pos.eqb _ _); reflexivity. Qed.

Lemma approve_note_uploader (pk_ : pk) (b : bool) (n : Note) :
  uploader (approve_note pk_ b n) = uploader n.
Proof. unfold approve_note. destruct (Pos.eqb _ _); reflexivity. Qed.

Lemma approve_note_file (pk_ : pk) (b : bool) (n : Note) :
  file (approve_note pk_ b n) = file n.
Proof. unfold approve_note. destruct (Pos.eqb _ _); reflexivity. Qed.

Lemma approve_note_download_count (pk_ : pk) (b : bool) (n : Note) :
  download_count (approve_note pk_ b n) = download_count n.
Proof. unfold approve_note. destruct (Pos.eqb _ _); reflexivity. Qed.

Lemma joined_rows_set_approved (pk_ : pk) (b : bool) (db : DB) (n : Note) :
  joined_rows (set_approved pk_ b db) (approve_note pk_ b n) = joined_rows db n.
Proof. unfold joined_rows. now rewrite approve_note_id. Qed.

Lemma group_row_approve (user : RequestUser) (pk_ : pk) (b : bool) (n : Note)
    (rows : list JoinRow) (key : bool * bool) :
  group_row user (approve_note pk_ b n) rows key
  = map (approve_row pk_ b) (group_row user n rows key).
Proof. unfold group_row. destruct (filter _ rows); reflexivity. Qed.

Lemma annotate_set_approved (user : RequestUser) (pk_ : pk) (b : bool) (db : DB)
    (queryset : list Note) :
  annotate user (set_approved pk_ b db) (map (approve_note pk_ b) queryset)
  = map (approve_row pk_ b) (annotate user db queryset).
Proof.
  unfold annotate. induction queryset as [|n ns IH]; simpl; [reflexivity|].
  rewrite map_app, IH. f_equal.
  unfold annotate_note. rewrite joined_rows_set_approved.
  induction group_keys as [|k ks IHk]; simpl; [reflexivity|].
  now rewrite map_app, IHk, group_row_approve.
Qed.

Lemma insert_desc_approve (pk_ : pk) (b : bool) (r : AnnotatedNote)
    (l : list AnnotatedNote) :
  insert_desc (approve_row pk_ b r) (map (approve_row pk_ b) l)
  = map (approve_row pk_ b) (insert_desc r l).
Proof.
  induction l as [|x xs IH]; simpl; [reflexivity|].
  rewrite !approve_note_created_at.
  destruct (created_at (row_note x) <=? created_at (row_note r)); simpl;
    [reflexivity | now rewrite IH].
Qed.

Lemma order_by_approve (pk_ : pk) (b : bool) (l : list AnnotatedNote) :
  order_by_created_at_desc (map (approve_row pk_ b) l)
  = map (approve_row pk_ b) (order_by_created_at_desc l).
Proof.
  induction l as [|x xs IH]; simpl; [reflexivity|].
  now rewrite IH, insert_desc_approve.
Qed.

(** Outside [list] and [retrieve] the queryset does not read the flag. *)
Lemma get_queryset_set_approved (action : Action) (user : RequestUser) (pk_ : pk)
    (b : bool) (db : DB) :
  is_list_or_retrieve action = false ->
  get_queryset action user (set_approved pk_ b db)
  = map (approve_row pk_ b) (get_queryset action user db).
Proof.
  intros Ha. unfold get_queryset. rewrite Ha.
  change (notes (set_approved pk_ b db)) with (map (approve_note pk_ b) (notes db)).
  now rewrite annotate_set_approved, order_by_approve.
Qed.

Lemma filter_pk_approve (pk_ k : pk) (b : bool) (l : list AnnotatedNote) :
  filter (fun r => Pos.eqb (note_id (row_note r)) k) (map (approve_row pk_ b) l)
  = map (approve_row pk_ b) (filter (fun r => Pos.eqb (note_id (row_note r)) k) l).
Proof.
  induction l as [|x xs IH]; simpl; [reflexivity|].
  rewrite approve_note_id. destruct (Pos.eqb _ _); simpl; now rewrite IH.
Qed.

Lemma check_object_permissions_approve (action : Action) (request : Request)
    (pk_ : pk) (b : bool) (n : Note) :
  check_object_permissions action request (approve_note pk_ b n)
  = check_object_permissions action request n.
Proof.
  unfold check_object_permissions.
  replace (forallb (fun p => has_object_permission p request (approve_note pk_ b n))
                   (get_permissions action))
    with (forallb (fun p => has_object_permission p request n) (get_permissions action));
    [reflexivity|].
  induction (get_permissions action) as [|p ps IH]; simpl; [reflexivity|].
  rewrite IH. f_equal. destruct p; simpl; try reflexivity.
  unfold user_eq_uploader. now rewrite approve_note_uploader.
Qed.

Lemma get_object_set_approved (action : Action) (request : Request) (pk_ k : pk)
    (b : bool) (db : DB) :
  is_list_or_retrieve action = false ->
  get_object action request (set_approved pk_ b db) k
  = match get_object action request db k with
    | inl obj => inl (approve_row pk_ b obj)
    | inr e => inr e
    end.
Proof.
  intros Ha. unfold get_object.
  rewrite get_queryset_set_approved by exact Ha. rewrite filter_pk_approve.
  destruct (filter _ (get_queryset action (req_user request) db)) as [|r [|r' rs]];
    simpl; try reflexivity.
  rewrite check_object_permissions_approve.
  destruct (check_object_permissions action request (row_note r)); reflexivity.
Qed.

Lemma Like_create_set_approved (user : User) (pk_ : pk) (b : bool) (n : Note) (db : DB) :
  Like_create user (approve_note pk_ b n) (set_approved pk_ b db)
  = set_approved pk_ b (Like_create user n db).
Proof. unfold Like_create. now rewrite approve_note_id. Qed.

Lemma Bookmark_create_set_approved (user : User) (pk_ : pk) (b : bool) (n : Note)
    (db : DB) :
  Bookmark_create user (approve_note pk_ b n) (set_approved pk_ b db)
  = set_approved pk_ b (Bookmark_create user n db).
Proof. unfold Bookmark_create. now rewrite approve_note_id. Qed.

Lemma toggle_like_set_approved (user : User) (host : string) (pk_ k : pk) (b : bool)
    (db : DB) :
  toggle_like user host k (set_approved pk_ b db)
  = (fst (toggle_like user host k db),
     set_approved pk_ b (snd (toggle_like user host k db))).
Proof.
  unfold toggle_like. rewrite get_object_set_approved by reflexivity.
  destruct (get_object toggle_like_action (request_of user POST host) db k) as [obj|e].
  - simpl row_note.
    replace (Like_filter (set_approved pk_ b db) user (approve_note pk_ b (row_note obj)))
      with (Like_filter db user (row_note obj))
      by (unfold Like_filter; now rewrite approve_note_id).
    replace (prefetch_related_likes (set_approved pk_ b db)
               (approve_note pk_ b (row_note obj)))
      with (prefetch_related_likes db (row_note obj))
      by (unfold prefetch_related_likes; now rewrite approve_note_id).
    rewrite Like_create_set_approved.
    destruct (first (Like_filter db user (row_note obj))); reflexivity.
  - destruct (isinstance_DoesNotExist e); reflexivity.
Qed.

Lemma toggle_bookmark_set_approved (user : User) (host : string) (pk_ k : pk) (b : bool)
    (db : DB) :
  toggle_bookmark user host k (set_approved pk_ b db)
  = (fst (toggle_bookmark user host k db),
     set_approved pk_ b (snd (toggle_bookmark user host k db))).
Proof.
  unfold toggle_bookmark. rewrite get_object_set_approved by reflexivity.
  destruct (get_object toggle_bookmark_action (request_of user POST host) db k) as [obj|e].
  - simpl row_note.
    replace (Bookmark_filter (set_approved pk_ b db) user
               (approve_note pk_ b (row_note obj)))
      with (Bookmark_filter db user (row_note obj))
      by (unfold Bookmark_filter; now rewrite approve_note_id).
    replace (prefetch_related_bookmarks (set_approved pk_ b db)
               (approve_note pk_ b (row_note obj)))
      with (prefetch_related_bookmarks db (row_note obj))
      by (unfold prefetch_related_bookmarks; now rewrite approve_note_id).
    rewrite Bookmark_create_set_approved.
    destruct (first (Bookmark_filter db user (row_note obj))); reflexivity.
  - destruct (isinstance_DoesNotExist e); reflexivity.
Qed.

Lemma save_download_count_set_approved (pk_ : pk) (b : bool) (note : Note) (db : DB) :
  save_download_count_F_plus_1 (approve_note pk_ b note) (set_approved pk_ b db)
  = set_approved pk_ b (save_download_count_F_plus_1 note db).
Proof.
  unfold save_download_count_F_plus_1, set_approved, set_notes. simpl. f_equal.
  rewrite !map_map. apply map_ext. intros n.
  rewrite !approve_note_id. unfold approve_note.
  destruct (Pos.eqb (note_id n) pk_) eqn:E1, (Pos.eqb (note_id n) (note_id note)) eqn:E2;
    simpl; rewrite ?E1, ?E2; reflexivity.
Qed.

Lemma refresh_from_db_set_approved (pk_ : pk) (b : bool) (note : Note) (db : DB) :
  refresh_from_db (approve_note pk_ b note) (set_approved pk_ b db)
  = option_map (approve_note pk_ b) (refresh_from_db note db).
Proof.
  unfold refresh_from_db. rewrite approve_note_id. simpl.
  induction (notes db) as [|n ns IH]; simpl; [reflexivity|].
  rewrite approve_note_id. destruct (Pos.eqb (note_id n) (note_id note)); auto.
Qed.

Lemma download_set_approved (user : User) (host : string) (pk_ k : pk) (b : bool)
    (db : DB) :
  download user host k (set_approved pk_ b db)
  = (fst (download user host k db),
     set_approved pk_ b (snd (download user host k db))).
Proof.
  unfold download. rewrite get_object_set_approved by reflexivity.
  destruct (get_object download_action (request_of user GET host) db k) as [obj|e];
    [|reflexivity].
  simpl row_note.
  rewrite save_download_count_set_approved, refresh_from_db_set_approved.
  destruct (refresh_from_db (row_note obj)
              (save_download_count_F_plus_1 (row_note obj) db)) as [n|]; simpl;
    [|reflexivity].
  now rewrite approve_note_file, approve_note_download_count.
Qed.

(** C10 (code bug): [note2] is not approved and alice is not staff.  Bob
    and then alice like the note, and both calls go through: the approval
    filter is not applied to [toggle_like].  From then on the note is liked
    by alice and by another user, and alice's [download], [toggle_like] and
    [toggle_bookmark] on it all fail: no counter is incremented and no row
    is flipped. *)
Theorem unapproved_note_actions_fail_with_second_liker :
  is_staff alice = false
  /\ is_approved note2 = false
  /\ toggle_like bob testserver 2%positive db0
     = (Response (LikeBody "Note liked successfully." true 0) HTTP_200_OK,
        set_likes db0 [like_of 1 2 2] 2%positive)
  /\ toggle_like alice testserver 2%positive (set_likes db0 [like_of 1 2 2] 2%positive)
     = (Response (LikeBody "Note liked successfully." true 1) HTTP_200_OK,
        db_note2_liked_by_both)
  /\ download alice testserver 2%positive db_note2_liked_by_both
     = (Raised MultipleObjectsReturned, db_note2_liked_by_both)
  /\ http_status (fst (download alice testserver 2%positive db_note2_liked_by_both))
     = 500
  /\ toggle_like alice testserver 2%positive db_note2_liked_by_both
     = (Raised (UnboundLocalError "user"), db_note2_liked_by_both)
  /\ toggle_bookmark alice testserver 2%positive db_note2_liked_by_both
     = (Raised (UnboundLocalError "user"), db_note2_liked_by_both).
Proof. repeat split; reflexivity. Qed.

(** ** Who may call which action ([get_permissions]) *)

(** Every action is open to a logged-in user as far as the framework's
    classes go; only [list] and [retrieve] are open to an anonymous
    request, every other action refuses it with [NotAuthenticated] before
    the handler runs, whatever [IsOwnerOrReadOnly] would say. *)
Theorem anonymous_requests_only_read (IsOwnerOrReadOnly_has_permission : Request -> bool)
    (action : Action) (request : Request) :
  (is_list_or_retrieve action = true ->
   check_permissions IsOwnerOrReadOnly_has_permission action request = None)
  /\ (is_list_or_retrieve action = false -> req_user request = AnonymousUser ->
      check_permissions IsOwnerOrReadOnly_has_permission action request
      = Some NotAuthenticated)
  /\ (In action [create; download_action; toggle_like_action; toggle_bookmark_action;
                 my_uploaded_notes] ->
      is_authenticated (req_user request) = true ->
      check_permissions IsOwnerOrReadOnly_has_permission action request = None)
  /\ (In action [update; partial_update; destroy] ->
      is_authenticated (req_user request) = true ->
      check_permissions IsOwnerOrReadOnly_has_permission action request
      = if IsOwnerOrReadOnly_has_permission request
        then None
        else Some (PermissionDenied "You do not have permission to perform this action.")).
Proof.
  unfold check_permissions, permission_denied. repeat split.
  - destruct action; simpl; intros H; try discriminate; reflexivity.
  - intros Ha Hu. rewrite Hu. destruct action; simpl in *; try discriminate;
      rewrite ?Hu; reflexivity.
  - intros Ha Hu. simpl in Ha.
    destruct Ha as [<-|[<-|[<-|[<-|[<-|[]]]]]]; simpl; rewrite Hu; reflexivity.
  - intros Ha Hu. simpl in Ha.
    destruct Ha as [<-|[<-|[<-|[]]]]; simpl; rewrite Hu; simpl;
      destruct (IsOwnerOrReadOnly_has_permission request); reflexivity.
Qed.

Lemma anonymous_requests_only_read_witness :
  check_permissions (fun _ => true) toggle_like_action
    {| req_user := AnonymousUser; req_method := POST; req_host := testserver |}
  = Some NotAuthenticated.
Proof.
  apply (anonymous_requests_only_read (fun _ => true) toggle_like_action
           {| req_user := AnonymousUser; req_method := POST; req_host := testserver |});
    reflexivity.
Defined.

(** ** Filtering a sorted queryset *)

Lemma insert_desc_front (r : AnnotatedNote) (l : list AnnotatedNote) :
  Forall (newer_or_equal r) l -> insert_desc r l = r :: l.
Proof.
  intros H. destruct l as [|x xs]; [reflexivity|]. simpl.
  inversion H as [|? ? Hx _]; subst. unfold newer_or_equal in Hx.
  apply Z.leb_le in Hx. now rewrite Hx.
Qed.

Lemma filter_insert_desc (P : AnnotatedNote -> bool) (r : AnnotatedNote)
    (l : list AnnotatedNote) :
  StronglySorted newer_or_equal l ->
  filter P (insert_desc r l)
  = if P r then insert_desc r (filter P l) else filter P l.
Proof.
  induction 1 as [|x xs Hs IH Hall]; simpl.
  - destruct (P r); reflexivity.
  - destruct (created_at (row_note x) <=? created_at (row_note r)) eqn:E.
    + simpl. destruct (P r) eqn:Pr; [|reflexivity].
      symmetry. apply insert_desc_front.
      apply Z.leb_le in E.
      assert (Hle : Forall (newer_or_equal r) (x :: xs)).
      { constructor; [exact E|]. eapply Forall_impl; [|exact Hall].
        unfold newer_or_equal. intros; lia. }
      change (if P x then x :: filter P xs else filter P xs) with (filter P (x :: xs)).
      apply Forall_forall. intros y Hy. apply filter_In in Hy.
      rewrite Forall_forall in Hle. apply Hle. tauto.
    + simpl. rewrite IH. destruct (P x) eqn:Px, (P r) eqn:Pr; try reflexivity.
      simpl. now rewrite E.
Qed.

(** A WHERE clause on the rows commutes with ORDER BY. *)
Lemma filter_order_by (P : AnnotatedNote -> bool) (l : list AnnotatedNote) :
  filter P (order_by_created_at_desc l) = order_by_created_at_desc (filter P l).
Proof.
  induction l as [|x xs IH]; simpl; [reflexivity|].
  rewrite filter_insert_desc by apply order_by_sorted.
  rewrite IH. destruct (P x); reflexivity.
Qed.

(** A WHERE clause on note columns may be applied before the joins. *)
Lemma filter_annotate (p : Note -> bool) (user : RequestUser) (db : DB)
    (queryset : list Note) :
  filter (fun r => p (row_note r)) (annotate user db queryset)
  = annotate user db (filter p queryset).
Proof.
  unfold annotate. induction queryset as [|n ns IH]; simpl; [reflexivity|].
  rewrite filter_app, IH. destruct (p n) eqn:E; simpl.
  - f_equal. apply filter_In_all. intros r Hr.
    apply annotate_note_row_note in Hr. now rewrite Hr.
  - rewrite filter_In_none; [reflexivity|]. intros r Hr.
    apply annotate_note_row_note in Hr. now rewrite Hr.
Qed.

(** ** The uploader's own notes *)

(** [my_uploaded_notes] builds its queryset by hand; it is the queryset of
    [get_queryset] for that action restricted to the user's uploads.  Its
    rows come newest first, each belongs to a note the user uploaded, and
    every note the user uploaded is there, approved or not. *)
Theorem my_uploaded_notes_rows (user : User) (db : DB) :
  my_uploaded_notes_queryset user db
  = filter (fun r => Pos.eqb (uploader (row_note r)) (user_id user))
           (get_queryset my_uploaded_notes (Authenticated user) db)
  /\ StronglySorted newer_or_equal (my_uploaded_notes_queryset user db)
  /\ (forall r, In r (my_uploaded_notes_queryset user db) ->
      uploader (row_note r) = user_id user /\ In (row_note r) (notes db))
  /\ (forall n, In n (notes db) -> uploader n = user_id user ->
      exists r, In r (my_uploaded_notes_queryset user db) /\ row_note r = n).
Proof.
  unfold my_uploaded_notes_queryset, get_queryset. simpl is_list_or_retrieve. cbv iota.
  repeat split.
  - rewrite filter_order_by.
    now rewrite (filter_annotate (fun n => Pos.eqb (uploader n) (user_id user))).
  - apply order_by_sorted.
  - apply order_by_In, annotate_In, filter_In in H. apply Pos.eqb_eq. tauto.
  - apply order_by_In, annotate_In, filter_In in H. tauto.
  - intros n Hn Hu.
    destruct (annotate_covers (Authenticated user) db
                (filter (fun m => Pos.eqb (uploader m) (user_id user)) (notes db)) n)
      as (r & Hr & Hrn).
    + apply filter_In. split; [exact Hn|]. now apply Pos.eqb_eq.
    + exists r. split; [now apply order_by_In | exact Hrn].
Qed.

Lemma my_uploaded_notes_rows_witness :
  exists r, In r (my_uploaded_notes_queryset bob db0) /\ row_note r = note2.
Proof.
  apply (my_uploaded_notes_rows bob db0); [simpl; tauto | reflexivity].
Defined.

(** ** Retrieving one note *)

Lemma get_object_over (action : Action) (request : Request) (db : DB)
    (queryset : list Note) (n : Note) :
  get_queryset action (req_user request) db
  = order_by_created_at_desc (annotate (req_user request) db queryset) ->
  NoDup (map note_id queryset) ->
  In n queryset ->
  one_group (req_user request) db (note_id n) ->
  check_object_permissions action request n = None ->
  exists obj, get_object action request db (note_id n) = inl obj
              /\ annotate_note (req_user request) db n = [obj].
Proof.
  intros Hq Hnd Hin Hone Hperm.
  destruct (annotate_note_one_group (req_user request) db n Hone) as (r & Hr & Hrn).
  exists r. split; [|exact Hr].
  unfold get_object. rewrite Hq.
  assert (Hp : Permutation [r]
                 (filter (fun r0 => Pos.eqb (note_id (row_note r0)) (note_id n))
                    (order_by_created_at_desc
                       (annotate (req_user request) db queryset)))).
  { rewrite <- Hr, <- (filter_pk_annotate (req_user request) db queryset n Hnd Hin).
    apply filter_Permutation. symmetry. apply order_by_perm. }
  apply Permutation_length_1_inv in Hp. rewrite Hp, Hrn, Hperm. reflexivity.
Qed.

Lemma one_group_anonymous (db : DB) (n : pk) : one_group AnonymousUser db n.
Proof. split; reflexivity. Qed.

Lemma listing_of_non_staff (action : Action) (user : RequestUser) (db : DB) :
  is_list_or_retrieve action = true ->
  is_authenticated user && user_is_staff user = false ->
  get_queryset action user db
  = order_by_created_at_desc (annotate user db (filter is_approved (notes db))).
Proof.
  intros Ha Hns. unfold get_queryset. rewrite Ha.
  assert (Hf : negb (is_authenticated user) || negb (user_is_staff user) = true).
  { destruct (is_authenticated user), (user_is_staff user); simpl in *; congruence. }
  rewrite Hf. now rewrite (filter_annotate is_approved).
Qed.

(** [retrieve] on an existing note: an unapproved note answers a viewer
    who is not staff with the same [Http404] a missing note gives; an
    approved note resolves for an anonymous viewer to its one row, with
    both per-viewer flags false; a staff viewer gets an unapproved note
    whenever its likes and bookmarks form one group. *)
Theorem retrieve_visibility (request : Request) (db : DB) (n : Note) :
  NoDup (map note_id (notes db)) ->
  In n (notes db) ->
  (is_approved n = false ->
   is_authenticated (req_user request) && user_is_staff (req_user request) = false ->
   get_object retrieve request db (note_id n) = inr Http404)
  /\ (is_approved n = true -> req_user request = AnonymousUser ->
      exists obj, get_object retrieve request db (note_id n) = inl obj
                  /\ row_note obj = n
                  /\ is_liked_by_current_user_annotated obj = false
                  /\ is_bookmarked_by_current_user_annotated obj = false)
  /\ (user_is_staff (req_user request) = true ->
      is_authenticated (req_user request) = true ->
      one_group (req_user request) db (note_id n) ->
      exists obj, get_object retrieve request db (note_id n) = inl obj
                  /\ row_note obj = n).
Proof.
  intros Hnd Hin. repeat split.
  - intros Hun Hns. unfold get_object.
    destruct (filter _ (get_queryset retrieve (req_user request) db)) as [|r rs] eqn:E;
      [reflexivity|].
    exfalso.
    assert (Hr : In r (filter (fun r0 => Pos.eqb (note_id (row_note r0)) (note_id n))
                         (get_queryset retrieve (req_user request) db)))
      by (rewrite E; left; reflexivity).
    apply filter_In in Hr. destruct Hr as [Hr Hid]. apply Pos.eqb_eq in Hid.
    pose proof (listing_approved_only retrieve _ db r eq_refl Hns Hr) as Happ.
    apply get_queryset_In_notes in Hr.
    assert (row_note r = n) by (apply (NoDup_map_In_inj note_id (notes db)); auto).
    congruence.
  - intros Happ Hanon.
    destruct (get_object_over retrieve request db (filter is_approved (notes db)) n)
      as (obj & Hobj & Hrow).
    + apply listing_of_non_staff; [reflexivity | now rewrite Hanon].
    + now apply NoDup_map_filter.
    + apply filter_In. auto.
    + rewrite Hanon. apply one_group_anonymous.
    + reflexivity.
    + exists obj. split; [exact Hobj|].
      rewrite Hanon, annotate_note_anonymous in Hrow. injection Hrow as <-.
      repeat split.
  - intros Hstaff Hauth Hone.
    destruct (get_object_over retrieve request db (notes db) n) as (obj & Hobj & Hrow);
      auto.
    + unfold get_queryset. simpl. now rewrite Hauth, Hstaff.
    + exists obj. split; [exact Hobj|].
      apply (annotate_note_row_note (req_user request) db n).
      rewrite Hrow. left. reflexivity.
Qed.

Lemma retrieve_visibility_witness :
  NoDup (map note_id (notes db0))
  /\ In note2 (notes db0)
  /\ get_object retrieve
       {| req_user := Authenticated alice; req_method := GET; req_host := testserver |}
       db0 (note_id note2)
     = inr Http404.
Proof.
  assert (H1 : NoDup (map note_id (notes db0))) by distinct_keys.
  assert (H2 : In note2 (notes db0)) by (simpl; tauto).
  split; [exact H1|]. split; [exact H2|].
  apply (retrieve_visibility
           {| req_user := Authenticated alice; req_method := GET; req_host := testserver |}
           db0 note2 H1 H2); reflexivity.
Defined.

(** ** What the per-viewer flags and the counts can be trusted for *)

Lemma has_like_of_row (db : DB) (u : User) (n : pk) (l : Like) :
  In l (note_likes db n) -> like_user l = user_id u -> has_like db u n = true.
Proof.
  intros Hin Hu. unfold note_likes in Hin. apply filter_In in Hin.
  destruct Hin as [Hin Hn]. unfold has_like. apply existsb_exists.
  exists l. split; [exact Hin|]. rewrite Hu, Pos.eqb_refl. exact Hn.
Qed.

Lemma has_bookmark_of_row (db : DB) (u : User) (n : pk) (b : Bookmark) :
  In b (note_bookmarks db n) -> bookmark_user b = user_id u -> has_bookmark db u n = true.
Proof.
  intros Hin Hu. unfold note_bookmarks in Hin. apply filter_In in Hin.
  destruct Hin as [Hin Hn]. unfold has_bookmark. apply existsb_exists.
  exists b. split; [exact Hin|]. rewrite Hu, Pos.eqb_refl. exact Hn.
Qed.

(** The rows of a note come from its groups: each has a joined row of the
    note that carries the group's key. *)
Lemma annotate_note_row_origin (user : RequestUser) (db : DB) (n : Note)
    (r : AnnotatedNote) :
  In r (annotate_note user db n) ->
  exists (g : list JoinRow) (row : JoinRow),
    In row g
    /\ (forall x, In x g -> In x (joined_rows db n))
    /\ Case_When_likes__user user row = is_liked_by_current_user_annotated r
    /\ Case_When_bookmarks__user user row = is_bookmarked_by_current_user_annotated r
    /\ calculated_likes_count r = Count_distinct (group_like_ids g)
    /\ calculated_bookmarks_count r = Count_distinct (group_bookmark_ids g).
Proof.
  unfold annotate_note. rewrite in_flat_map. intros (key & _ & Hr).
  unfold group_row in Hr.
  destruct (filter (in_group user key) (joined_rows db n)) as [|row rows] eqn:G;
    [destruct Hr|].
  destruct Hr as [<-|[]].
  assert (Hrow : In row (filter (in_group user key) (joined_rows db n)))
    by (rewrite G; left; reflexivity).
  apply filter_In in Hrow. destruct Hrow as [_ Hk].
  unfold in_group in Hk. apply andb_true_iff in Hk. destruct Hk as [Hl Hb].
  apply eqb_prop in Hl. apply eqb_prop in Hb.
  exists (row :: rows), row. simpl. repeat split; auto.
  intros x Hx.
  assert (Hx' : In x (filter (in_group user key) (joined_rows db n)))
    by (rewrite G; exact Hx).
  apply filter_In in Hx'. tauto.
Qed.

(** A row says "liked by me" (or "bookmarked by me") only to a logged-in
    viewer who has such a row on that note. *)
Theorem per_viewer_flags_sound (action : Action) (user : RequestUser) (db : DB) :
  Forall (fun r =>
            (is_liked_by_current_user_annotated r = true ->
             exists u, user = Authenticated u
                       /\ has_like db u (note_id (row_note r)) = true)
            /\ (is_bookmarked_by_current_user_annotated r = true ->
                exists u, user = Authenticated u
                          /\ has_bookmark db u (note_id (row_note r)) = true))
         (get_queryset action user db).
Proof.
  apply Forall_forall. intros r Hr.
  apply get_queryset_In_annotate_note in Hr.
  destruct (annotate_note_row_origin _ _ _ _ Hr)
    as (g & [sr [ol ob]] & Hin & Hsub & Hl & Hb & _ & _).
  specialize (Hsub _ Hin). unfold joined_rows in Hsub.
  apply in_prod_iff in Hsub. destruct Hsub as [_ Hlb].
  apply in_prod_iff in Hlb. destruct Hlb as [Hol Hob].
  split; intros Hflag.
  - rewrite Hflag in Hl. destruct user as [|u]; [discriminate|].
    simpl in Hl. destruct ol as [l|]; [|discriminate].
    apply Pos.eqb_eq in Hl. exists u. split; [reflexivity|].
    apply (has_like_of_row db u _ l); [|exact Hl].
    now apply In_left_join_Some.
  - rewrite Hflag in Hb. destruct user as [|u]; [discriminate|].
    simpl in Hb. destruct ob as [b|]; [|discriminate].
    apply Pos.eqb_eq in Hb. exists u. split; [reflexivity|].
    apply (has_bookmark_of_row db u _ b); [|exact Hb].
    now apply In_left_join_Some.
Qed.

Lemma per_viewer_flags_sound_witness :
  In {| row_note := note1; calculated_average_rating := 0%Q;
        calculated_likes_count := 1; calculated_bookmarks_count := 0;
        is_liked_by_current_user_annotated := true;
        is_bookmarked_by_current_user_annotated := false |}
     (get_queryset list_action (Authenticated alice) db_liked_by_alice)
  /\ exists u, Authenticated alice = Authenticated u
               /\ has_like db_liked_by_alice u (note_id note1) = true.
Proof.
  assert (H : In {| row_note := note1; calculated_average_rating := 0%Q;
                    calculated_likes_count := 1; calculated_bookmarks_count := 0;
                    is_liked_by_current_user_annotated := true;
                    is_bookmarked_by_current_user_annotated := false |}
                 (get_queryset list_action (Authenticated alice) db_liked_by_alice))
    by (left; reflexivity).
  split; [exact H|].
  apply (proj1 (Forall_forall _ _)
           (per_viewer_flags_sound list_action (Authenticated alice) db_liked_by_alice)
           _ H).
  reflexivity.
Defined.

Lemma Count_distinct_le (ids l : list pk) :
  incl ids l -> (Count_distinct ids <= length l)%nat.
Proof.
  intros Hincl. unfold Count_distinct.
  apply NoDup_incl_length; [apply NoDup_nodup|].
  intros x Hx. apply nodup_In in Hx. auto.
Qed.

(** No row counts more likes or bookmarks than its note has, whoever the
    viewer is. *)
Theorem listing_counts_bounded (action : Action) (user : RequestUser) (db : DB) :
  Forall (fun r =>
            (calculated_likes_count r <= likes_count_of db (note_id (row_note r)))%nat
            /\ (calculated_bookmarks_count r
                <= bookmarks_count_of db (note_id (row_note r)))%nat)
         (get_queryset action user db).
Proof.
  apply Forall_forall. intros r Hr.
  apply get_queryset_In_annotate_note in Hr.
  destruct (annotate_note_row_origin _ _ _ _ Hr)
    as (g & row & _ & Hsub & _ & _ & Hcl & Hcb).
  rewrite Hcl, Hcb. unfold likes_count_of, bookmarks_count_of.
  rewrite <- (length_map like_id), <- (length_map bookmark_id).
  split; apply Count_distinct_le; intros x Hx.
  - apply joined_like_ids. unfold group_like_ids in *.
    apply in_flat_map in Hx. destruct Hx as (y & Hy & Hx).
    apply in_flat_map. exists y. split; auto.
  - apply joined_bookmark_ids. unfold group_bookmark_ids in *.
    apply in_flat_map in Hx. destruct Hx as (y & Hy & Hx).
    apply in_flat_map. exists y. split; auto.
Qed.

(** ** A toggle touches one (user, note) pair only *)

Lemma existsb_filter_keep {A : Type} (p q : A -> bool) (l : list A) :
  (forall x, In x l -> q x = false -> p x = false) ->
  existsb p (filter q l) = existsb p l.
Proof.
  induction l as [|a l IH]; simpl; intros H; [reflexivity|].
  destruct (q a) eqn:E; simpl.
  - rewrite IH; auto.
  - rewrite (H a (or_introl eq_refl) E). simpl. apply IH. auto.
Qed.

Lemma first_In {A : Type} (l : list A) (x : A) : first l = Some x -> In x l.
Proof. destruct l; simpl; intros H; [discriminate | injection H as ->; auto]. Qed.

Lemma pair_mismatch (a b c d : positive) :
  a <> c \/ b <> d -> Pos.eqb c a && Pos.eqb d b = false.
Proof.
  intros [H|H]; apply andb_false_iff; [left | right]; apply Pos.eqb_neq; congruence.
Qed.

Lemma toggle_like_other_pairs (user other : User) (host : string) (pk_ n : pk) (db : DB) :
  NoDup (map like_id (likes db)) ->
  user_id other <> user_id user \/ n <> pk_ ->
  has_like (snd (toggle_like user host pk_ db)) other n = has_like db other n.
Proof.
  intros Hnd Hother. unfold toggle_like.
  destruct (get_object _ _ db pk_) as [obj|e] eqn:Hobj.
  - destruct (get_object_inl _ _ _ _ _ Hobj) as (_ & Hid & _ & _).
    destruct (first (Like_filter db user (row_note obj))) as [li|] eqn:F; simpl.
    + apply first_In in F. unfold Like_filter in F. apply filter_In in F.
      destruct F as [Hli Hp]. apply andb_true_iff in Hp. destruct Hp as [Hu Hn].
      apply Pos.eqb_eq in Hu. apply Pos.eqb_eq in Hn. rewrite Hid in Hn.
      unfold has_like. simpl. apply existsb_filter_keep.
      intros x Hx Hq. apply negb_false_iff, Pos.eqb_eq in Hq.
      assert (x = li) by (apply (NoDup_map_In_inj like_id (likes db)); auto).
      subst x. rewrite Hu, Hn. apply pair_mismatch. tauto.
    + unfold has_like. simpl. rewrite existsb_app. simpl.
      rewrite Hid, (pair_mismatch (user_id other) n (user_id user) pk_ Hother).
      now rewrite !orb_false_r.
  - destruct (isinstance_DoesNotExist e); reflexivity.
Qed.

Lemma toggle_bookmark_other_pairs (user other : User) (host : string) (pk_ n : pk)
    (db : DB) :
  NoDup (map bookmark_id (bookmarks db)) ->
  user_id other <> user_id user \/ n <> pk_ ->
  has_bookmark (snd (toggle_bookmark user host pk_ db)) other n
  = has_bookmark db other n.
Proof.
  intros Hnd Hother. unfold toggle_bookmark.
  destruct (get_object _ _ db pk_) as [obj|e] eqn:Hobj.
  - destruct (get_object_inl _ _ _ _ _ Hobj) as (_ & Hid & _ & _).
    destruct (first (Bookmark_filter db user (row_note obj))) as [bi|] eqn:F; simpl.
    + apply first_In in F. unfold Bookmark_filter in F. apply filter_In in F.
      destruct F as [Hbi Hp]. apply andb_true_iff in Hp. destruct Hp as [Hu Hn].
      apply Pos.eqb_eq in Hu. apply Pos.eqb_eq in Hn. rewrite Hid in Hn.
      unfold has_bookmark. simpl. apply existsb_filter_keep.
      intros x Hx Hq. apply negb_false_iff, Pos.eqb_eq in Hq.
      assert (x = bi) by (apply (NoDup_map_In_inj bookmark_id (bookmarks db)); auto).
      subst x. rewrite Hu, Hn. apply pair_mismatch. tauto.
    + unfold has_bookmark. simpl. rewrite existsb_app. simpl.
      rewrite Hid, (pair_mismatch (user_id other) n (user_id user) pk_ Hother).
      now rewrite !orb_false_r.
  - destruct (isinstance_DoesNotExist e); reflexivity.
Qed.

(** Whatever a toggle does, it does to the pair (user, note) of the
    request: the likes and bookmarks of every other user, and those of the
    same user on every other note, are what they were; [toggle_like] never
    writes the bookmark table nor [toggle_bookmark] the like table, and
    neither writes notes, ratings or comments. *)
Theorem toggles_touch_one_pair (user other : User) (host : string) (pk_ n : pk)
    (db : DB) :
  primary_keys_unique db ->
  user_id other <> user_id user \/ n <> pk_ ->
  has_like (snd (toggle_like user host pk_ db)) other n = has_like db other n
  /\ has_bookmark (snd (toggle_bookmark user host pk_ db)) other n
     = has_bookmark db other n
  /\ bookmarks (snd (toggle_like user host pk_ db)) = bookmarks db
  /\ likes (snd (toggle_bookmark user host pk_ db)) = likes db
  /\ (forall toggle, toggle = toggle_like \/ toggle = toggle_bookmark ->
      notes (snd (toggle user host pk_ db)) = notes db
      /\ star_ratings (snd (toggle user host pk_ db)) = star_ratings db
      /\ comments (snd (toggle user host pk_ db)) = comments db).
Proof.
  intros (_ & Hl & Hb) Hother. repeat split.
  - now apply toggle_like_other_pairs.
  - now apply toggle_bookmark_other_pairs.
  - unfold toggle_like. destruct (get_object _ _ db pk_) as [obj|e].
    + destruct (first _); reflexivity.
    + destruct (isinstance_DoesNotExist e); reflexivity.
  - unfold toggle_bookmark. destruct (get_object _ _ db pk_) as [obj|e].
    + destruct (first _); reflexivity.
    + destruct (isinstance_DoesNotExist e); reflexivity.
  - destruct H as [-> | ->]; [unfold toggle_like | unfold toggle_bookmark];
      (destruct (get_object _ _ db pk_) as [obj|e];
       [destruct (first _); reflexivity
       | destruct (isinstance_DoesNotExist e); reflexivity]).
  - destruct H as [-> | ->]; [unfold toggle_like | unfold toggle_bookmark];
      (destruct (get_object _ _ db pk_) as [obj|e];
       [destruct (first _); reflexivity
       | destruct (isinstance_DoesNotExist e); reflexivity]).
  - destruct H as [-> | ->]; [unfold toggle_like | unfold toggle_bookmark];
      (destruct (get_object _ _ db pk_) as [obj|e];
       [destruct (first _); reflexivity
       | destruct (isinstance_DoesNotExist e); reflexivity]).
Qed.

Lemma toggles_touch_one_pair_witness :
  primary_keys_unique db_liked_by_bob
  /\ has_like (snd (toggle_like alice testserver 1%positive db_liked_by_bob))
       bob 1%positive
     = has_like db_liked_by_bob bob 1%positive.
Proof.
  assert (H : primary_keys_unique db_liked_by_bob) by (repeat split; distinct_keys).
  split; [exact H|].
  apply (toggles_touch_one_pair alice bob testserver 1%positive 1%positive
           db_liked_by_bob H).
  left. discriminate.
Defined.

(** ** More on rating and comment creation *)

Lemma StarRating_filter_has_rating (db : DB) (note : Note) (user : User) :
  StarRating_filter db note user = [] <-> has_rating db user (note_id note) = false.
Proof. unfold StarRating_filter, has_rating. symmetry. apply existsb_false_filter. Qed.

Lemma Comment_filter_has_comment (db : DB) (note : Note) (user : User) :
  Comment_filter db note user = [] <-> has_comment db user (note_id note) = false.
Proof. unfold Comment_filter, has_comment. symmetry. apply existsb_false_filter. Qed.

Lemma serializer_save_rating_unique (user : User) (note : Note) (stars_ : Z) (db : DB) :
  StarRating_filter db note user = [] ->
  unique_ratings db -> unique_ratings (serializer_save_rating user note stars_ db).
Proof.
  intros Hnone Hu. unfold unique_ratings, serializer_save_rating. simpl.
  apply NoDup_map_snoc; [exact Hu|].
  intros y Hy Heq. simpl in Heq. injection Heq as Hyu Hyn.
  pose proof (filter_nil_forall _ _ Hnone y Hy) as Hp. simpl in Hp.
  rewrite Hyu, Hyn, !Pos.eqb_refl in Hp. discriminate.
Qed.

Lemma serializer_save_comment_unique (user : User) (note : Note) (text_ : string)
    (db : DB) :
  Comment_filter db note user = [] ->
  unique_comments db -> unique_comments (serializer_save_comment user note text_ db).
Proof.
  intros Hnone Hu. unfold unique_comments, serializer_save_comment. simpl.
  apply NoDup_map_snoc; [exact Hu|].
  intros y Hy Heq. simpl in Heq. injection Heq as Hyu Hyn.
  pose proof (filter_nil_forall _ _ Hnone y Hy) as Hp. simpl in Hp.
  rewrite Hyu, Hyn, !Pos.eqb_refl in Hp. discriminate.
Qed.

(** Creation through the two viewsets keeps "at most one rating and at most
    one comment per (user, note)": a row is inserted only after the lookup
    for that pair came back empty, whatever the note reference was. *)
Theorem creation_keeps_one_per_pair (user : User) (note_id_from_request : option Z)
    (stars_ : Z) (text_ : string) (db : DB) :
  unique_ratings db -> unique_comments db ->
  unique_ratings (snd (StarRating_perform_create user note_id_from_request stars_ db))
  /\ unique_comments (snd (StarRating_perform_create user note_id_from_request stars_ db))
  /\ unique_ratings (snd (Comment_perform_create user note_id_from_request text_ db))
  /\ unique_comments (snd (Comment_perform_create user note_id_from_request text_ db)).
Proof.
  intros Hr Hc. unfold StarRating_perform_create, Comment_perform_create.
  destruct (falsy note_id_from_request); simpl; [tauto|].
  destruct (get_object_or_404 db note_id_from_request) as [n|e]; simpl; [|tauto].
  destruct (first (StarRating_filter db n user)) eqn:FR;
    destruct (first (Comment_filter db n user)) eqn:FC; simpl; repeat split; auto;
    try (apply serializer_save_rating_unique; [now apply first_None | exact Hr]);
    try (apply serializer_save_comment_unique; [now apply first_None | exact Hc]).
Qed.

Lemma creation_keeps_one_per_pair_witness :
  unique_ratings db_rated
  /\ unique_comments db_rated
  /\ unique_ratings (snd (StarRating_perform_create admin (Some 1) 3 db_rated)).
Proof.
  assert (H1 : unique_ratings db_rated) by (unfold unique_ratings; distinct_keys).
  assert (H2 : unique_comments db_rated) by (unfold unique_comments; distinct_keys).
  split; [exact H1|]. split; [exact H2|].
  apply (creation_keeps_one_per_pair admin (Some 1) 3 "thanks" db_rated H1 H2).
Defined.

Lemma StarRating_create_found (user : User) (n : Note) (stars_ : Z) (db : DB) :
  get_object_or_404 db (Some (Z.pos (note_id n))) = inl n ->
  StarRating_perform_create user (Some (Z.pos (note_id n))) stars_ db
  = match first (StarRating_filter db n user) with
    | Some _ => (Some already_rated, db)
    | None => (None, serializer_save_rating user n stars_ db)
    end.
Proof.
  intros H. unfold StarRating_perform_create. simpl falsy. cbv iota. now rewrite H.
Qed.

Lemma Comment_create_found (user : User) (n : Note) (text_ : string) (db : DB) :
  get_object_or_404 db (Some (Z.pos (note_id n))) = inl n ->
  Comment_perform_create user (Some (Z.pos (note_id n))) text_ db
  = match first (Comment_filter db n user) with
    | Some _ => (Some already_commented, db)
    | None => (None, serializer_save_comment user n text_ db)
    end.
Proof.
  intros H. unfold Comment_perform_create. simpl falsy. cbv iota. now rewrite H.
Qed.

Lemma first_snoc_Some {A : Type} (l : list A) (x : A) : exists y, first (l ++ [x]) = Some y.
Proof. destruct l; simpl; eauto. Qed.

(** After one attempt to rate (comment on) an existing note, every further
    attempt of the same user on that note is turned away with the update
    hint, whatever the stars (the text), and writes nothing. *)
Theorem second_creation_rejected (user : User) (n : Note) (db : DB)
    (stars1 stars2 : Z) (text1 text2 : string) :
  NoDup (map note_id (notes db)) ->
  In n (notes db) ->
  (let db1 := snd (StarRating_perform_create user (Some (Z.pos (note_id n))) stars1 db) in
   StarRating_perform_create user (Some (Z.pos (note_id n))) stars2 db1
   = (Some already_rated, db1))
  /\ (let db1 := snd (Comment_perform_create user (Some (Z.pos (note_id n))) text1 db) in
      Comment_perform_create user (Some (Z.pos (note_id n))) text2 db1
      = (Some already_commented, db1)).
Proof.
  intros Hnd Hin. pose proof (get_object_or_404_found db n Hnd Hin) as Hget.
  split; cbv zeta.
  - rewrite (StarRating_create_found user n stars1 db Hget).
    destruct (first (StarRating_filter db n user)) as [r|] eqn:F; simpl snd.
    + rewrite (StarRating_create_found user n stars2 db Hget). now rewrite F.
    + rewrite (StarRating_create_found user n stars2
                 (serializer_save_rating user n stars1 db) Hget).
      unfold StarRating_filter, serializer_save_rating. simpl star_ratings.
      rewrite filter_app. simpl filter at 2. rewrite !Pos.eqb_refl. simpl andb. cbv iota.
      destruct (first_snoc_Some
                  (filter (fun r => Pos.eqb (rating_note r) (note_id n)
                                    && Pos.eqb (rating_user r) (user_id user))
                          (star_ratings db))
                  {| rating_id := rating_seq db; rating_note := note_id n;
                     rating_user := user_id user; stars := stars1 |}) as [y Hy].
      now rewrite Hy.
  - rewrite (Comment_create_found user n text1 db Hget).
    destruct (first (Comment_filter db n user)) as [c|] eqn:F; simpl snd.
    + rewrite (Comment_create_found user n text2 db Hget). now rewrite F.
    + rewrite (Comment_create_found user n text2
                 (serializer_save_comment user n text1 db) Hget).
      unfold Comment_filter, serializer_save_comment. simpl comments.
      rewrite filter_app. simpl filter at 2. rewrite !Pos.eqb_refl. simpl andb. cbv iota.
      destruct (first_snoc_Some
                  (filter (fun c => Pos.eqb (comment_note c) (note_id n)
                                    && Pos.eqb (comment_user c) (user_id user))
                          (comments db))
                  {| comment_id := comment_seq db; comment_note := note_id n;
                     comment_user := user_id user; text := text1 |}) as [y Hy].
      now rewrite Hy.
Qed.

Lemma second_creation_rejected_witness :
  NoDup (map note_id (notes db0))
  /\ In note1 (notes db0)
  /\ StarRating_perform_create alice (Some (Z.pos (note_id note1))) 2
       (snd (StarRating_perform_create alice (Some (Z.pos (note_id note1))) 5 db0))
     = (Some already_rated,
        snd (StarRating_perform_create alice (Some (Z.pos (note_id note1))) 5 db0)).
Proof.
  assert (H1 : NoDup (map note_id (notes db0))) by distinct_keys.
  assert (H2 : In note1 (notes db0)) by (simpl; tauto).
  split; [exact H1|]. split; [exact H2|].
  apply (second_creation_rejected alice note1 db0 5 2 "thanks" "again" H1 H2).
Defined.

(** A reference that names no note: the lookup answers [Http404] and
    nothing is written, also for a negative number; the number 0 never
    reaches the lookup, it is taken for a missing reference. *)
Theorem creation_reference_edges (user : User) (z : Z) (stars_ : Z) (text_ : string)
    (db : DB) :
  (z = 0 ->
   StarRating_perform_create user (Some z) stars_ db = (Some rating_required, db)
   /\ Comment_perform_create user (Some z) text_ db = (Some comment_required, db))
  /\ (z <> 0 -> (forall n, In n (notes db) -> Z.pos (note_id n) <> z) ->
      StarRating_perform_create user (Some z) stars_ db = (Some Http404, db)
      /\ Comment_perform_create user (Some z) text_ db = (Some Http404, db)).
Proof.
  split.
  - intros ->. split; reflexivity.
  - intros Hz Hmiss.
    assert (Hget : get_object_or_404 db (Some z) = inr Http404).
    { unfold get_object_or_404. rewrite filter_In_none; [reflexivity|].
      intros n Hn. apply Z.eqb_neq. auto. }
    unfold StarRating_perform_create, Comment_perform_create. simpl falsy.
    apply Z.eqb_neq in Hz. rewrite Hz, Hget. split; reflexivity.
Qed.

Lemma creation_reference_edges_witness :
  StarRating_perform_create alice (Some (-5)) 3 db0 = (Some Http404, db0)
  /\ Comment_perform_create alice (Some (-5)) "thanks" db0 = (Some Http404, db0).
Proof.
  apply (creation_reference_edges alice (-5) 3 "thanks" db0); [lia|].
  intros n _. lia.
Defined.

(** ** A new rating and the listing *)

Lemma note_star_ratings_after_save (user : User) (n : Note) (stars_ : Z) (db : DB) :
  note_star_ratings (serializer_save_rating user n stars_ db) (note_id n)
  = note_star_ratings db (note_id n)
    ++ [ {| rating_id := rating_seq db; rating_note := note_id n;
            rating_user := user_id user; stars := stars_ |} ].
Proof.
  unfold note_star_ratings, serializer_save_rating. simpl star_ratings.
  rewrite filter_app. simpl. now rewrite Pos.eqb_refl.
Qed.

(** A rating a user creates on a note they had not rated shows in every
    queryset computed afterwards: each row of that note, for every action
    and viewer, carries the old sum of stars plus the new stars, divided by
    the old number of ratings plus one. *)
Theorem new_rating_moves_the_average (user : User) (n : Note) (stars_ : Z) (db : DB)
    (action : Action) (viewer : RequestUser) :
  NoDup (map note_id (notes db)) ->
  In n (notes db) ->
  has_rating db user (note_id n) = false ->
  let db1 := snd (StarRating_perform_create user (Some (Z.pos (note_id n))) stars_ db) in
  fst (StarRating_perform_create user (Some (Z.pos (note_id n))) stars_ db) = None
  /\ Forall (fun r =>
               note_id (row_note r) = note_id n ->
               (calculated_average_rating r
                == inject_Z (sum_Z (map stars (note_star_ratings db (note_id n))) + stars_)
                   / inject_Z (Z.of_nat (S (length (note_star_ratings db (note_id n))))))%Q)
            (get_queryset action viewer db1).
Proof.
  intros Hnd Hin Hno. cbv zeta.
  pose proof (get_object_or_404_found db n Hnd Hin) as Hget.
  rewrite (StarRating_create_found user n stars_ db Hget).
  apply StarRating_filter_has_rating in Hno. rewrite Hno. simpl.
  split; [reflexivity|].
  apply Forall_forall. intros r Hr Hid.
  apply get_queryset_In_annotate_note in Hr.
  rewrite (annotated_average_is_mean _ _ _ _ Hr), Hid.
  unfold mean_stars. rewrite note_star_ratings_after_save, map_app. simpl map.
  destruct (map stars (note_star_ratings db (note_id n)) ++ [stars_]) as [|x xs] eqn:E.
  { destruct (map stars (note_star_ratings db (note_id n))); discriminate. }
  rewrite <- E. unfold Avg, Coalesce. rewrite E, <- E.
  rewrite sum_Z_app, length_app, length_map. simpl sum_Z. simpl length.
  rewrite Z.add_0_r, Nat.add_1_r. reflexivity.
Qed.

Lemma new_rating_moves_the_average_witness :
  NoDup (map note_id (notes db_rated))
  /\ In note1 (notes db_rated)
  /\ has_rating db_rated admin (note_id note1) = false
  /\ fst (StarRating_perform_create admin (Some (Z.pos (note_id note1))) 3 db_rated)
     = None.
Proof.
  assert (H1 : NoDup (map note_id (notes db_rated))) by distinct_keys.
  assert (H2 : In note1 (notes db_rated)) by (simpl; tauto).
  assert (H3 : has_rating db_rated admin (note_id note1) = false) by reflexivity.
  split; [exact H1|]. split; [exact H2|]. split; [exact H3|].
  apply (new_rating_moves_the_average admin note1 3 db_rated list_action AnonymousUser
           H1 H2 H3).
Defined.

(** ** The count a toggle reports and the listing *)

Lemma anonymous_row_likes_count (action : Action) (db : DB) (r : AnnotatedNote) :
  NoDup (map like_id (likes db)) ->
  In r (get_queryset action AnonymousUser db) ->
  calculated_likes_count r = likes_count_of db (note_id (row_note r)).
Proof.
  intros Hnd Hr. apply get_queryset_In_annotate_note in Hr.
  rewrite annotate_note_anonymous in Hr. destruct Hr as [<-|[]].
  cbn [calculated_likes_count row_note].
  unfold likes_count_of. rewrite <- (length_map like_id).
  apply Count_distinct_same_elements; [|apply joined_like_ids].
  unfold note_likes. now apply NoDup_map_filter.
Qed.

Lemma toggle_like_keeps_like_ids (user : User) (host : string) (pk_ : pk) (db : DB) :
  NoDup (map like_id (likes db)) ->
  fresh_sequences db ->
  NoDup (map like_id (likes (snd (toggle_like user host pk_ db)))).
Proof.
  intros Hnd Hfresh. unfold toggle_like.
  destruct (get_object _ _ db pk_) as [obj|e].
  - destruct (first (Like_filter db user (row_note obj))); simpl.
    + now apply NoDup_map_filter.
    + apply NoDup_map_snoc; [exact Hnd|]. simpl. intros y Hy Heq.
      apply (fresh_like_seq_not_used db Hfresh). rewrite <- Heq. now apply in_map.
  - destruct (isinstance_DoesNotExist e); exact Hnd.
Qed.

(** The [likes_count] a resolved [toggle_like] answers with is the count
    the anonymous listing showed for that note before the toggle, not the
    one it shows afterwards: after a like the listing counts one more than
    the response said, after an unlike one less. *)
Theorem toggle_count_lags_the_listing (user : User) (host : string) (pk_ : pk) (db : DB)
    (obj : AnnotatedNote) (action : Action) :
  primary_keys_unique db ->
  fresh_sequences db ->
  get_object toggle_like_action (request_of user POST host) db pk_ = inl obj ->
  exists message liked likes_count,
    fst (toggle_like user host pk_ db)
    = Response (LikeBody message liked likes_count) HTTP_200_OK
    /\ liked = negb (has_like db user pk_)
    /\ Forall (fun r => note_id (row_note r) = pk_ ->
                        calculated_likes_count r = likes_count)
              (get_queryset action AnonymousUser db)
    /\ Forall (fun r => note_id (row_note r) = pk_ ->
                        calculated_likes_count r
                        = if liked then S likes_count else Nat.pred likes_count)
              (get_queryset action AnonymousUser (snd (toggle_like user host pk_ db))).
Proof.
  intros Hpk Hfresh Hobj. pose proof Hpk as (_ & Hids & _).
  pose proof (toggle_like_keeps_like_ids user host pk_ db Hids Hfresh) as Hids'.
  assert (Hbefore : forall r,
             In r (get_queryset action AnonymousUser db) ->
             note_id (row_note r) = pk_ ->
             calculated_likes_count r = likes_count_of db pk_).
  { intros r Hr Hrid. rewrite (anonymous_row_likes_count action _ r Hids Hr).
    now rewrite Hrid. }
  assert (Hafter : forall r,
             In r (get_queryset action AnonymousUser (snd (toggle_like user host pk_ db))) ->
             note_id (row_note r) = pk_ ->
             calculated_likes_count r
             = likes_count_of (snd (toggle_like user host pk_ db)) pk_).
  { intros r Hr Hrid. rewrite (anonymous_row_likes_count action _ r Hids' Hr).
    now rewrite Hrid. }
  destruct (has_like db user pk_) eqn:Hhas.
  - destruct (toggle_like_off user host pk_ db obj Hobj Hhas)
      as (li & _ & _ & _ & Heq & _ & _ & Hcount).
    specialize (Hcount Hpk). rewrite Heq in Hafter. rewrite Heq. simpl fst.
    simpl snd in Hafter.
    exists "Note unliked successfully.", false, (likes_count_of db pk_).
    split; [reflexivity|]. split; [reflexivity|]. split.
    + apply Forall_forall. exact Hbefore.
    + apply Forall_forall. intros r Hr Hrid. rewrite (Hafter r Hr Hrid). lia.
  - destruct (toggle_like_on user host pk_ db obj Hobj Hhas) as (Heq & _ & _ & Hcount).
    rewrite Heq in Hafter. rewrite Heq. simpl fst. simpl snd in Hafter.
    exists "Note liked successfully.", true, (likes_count_of db pk_).
    split; [reflexivity|]. split; [reflexivity|]. split.
    + apply Forall_forall. exact Hbefore.
    + apply Forall_forall. intros r Hr Hrid. rewrite (Hafter r Hr Hrid). exact Hcount.
Qed.

Lemma toggle_count_lags_the_listing_witness :
  primary_keys_unique db_liked_by_bob
  /\ fresh_sequences db_liked_by_bob
  /\ exists message liked likes_count,
       fst (toggle_like alice testserver 1%positive db_liked_by_bob)
       = Response (LikeBody message liked likes_count) HTTP_200_OK
       /\ liked = negb (has_like db_liked_by_bob alice 1%positive)
       /\ Forall (fun r => note_id (row_note r) = 1%positive ->
                           calculated_likes_count r = likes_count)
                 (get_queryset list_action AnonymousUser db_liked_by_bob)
       /\ Forall (fun r => note_id (row_note r) = 1%positive ->
                           calculated_likes_count r
                           = if liked then S likes_count else Nat.pred likes_count)
                 (get_queryset list_action AnonymousUser
                    (snd (toggle_like alice testserver 1%positive db_liked_by_bob))).
Proof.
  assert (H1 : primary_keys_unique db_liked_by_bob) by (repeat split; distinct_keys).
  assert (H2 : fresh_sequences db_liked_by_bob).
  { split; simpl.
    - intros l [<-|[]]. reflexivity.
    - intros b []. }
  split; [exact H1|]. split; [exact H2|].
  apply (toggle_count_lags_the_listing alice testserver 1%positive db_liked_by_bob
           {| row_note := note1; calculated_average_rating := 0%Q;
              calculated_likes_count := 1; calculated_bookmarks_count := 0;
              is_liked_by_current_user_annotated := false;
              is_bookmarked_by_current_user_annotated := false |}
           list_action H1 H2).
  reflexivity.
Defined.

(** ** Rewriting note columns the queryset does not read *)

Section NoteColumnUpdate.

Variable f : Note -> Note.
Hypothesis f_note_id : forall n, note_id (f n) = note_id n.
Hypothesis f_created_at : forall n, created_at (f n) = created_at n.
Hypothesis f_uploader : forall n, uploader (f n) = uploader n.
Hypothesis f_is_approved : forall n, is_approved (f n) = is_approved n.

Lemma annotate_map_notes (user : RequestUser) (db : DB) (queryset : list Note) :
  annotate user (map_notes f db) (map f queryset)
  = map (map_row f) (annotate user db queryset).
Proof.
  unfold annotate. induction queryset as [|n ns IH]; simpl; [reflexivity|].
  rewrite map_app, IH. f_equal.
  unfold annotate_note, joined_rows. rewrite f_note_id.
  change (note_star_ratings (map_notes f db)) with (note_star_ratings db).
  change (note_likes (map_notes f db)) with (note_likes db).
  change (note_bookmarks (map_notes f db)) with (note_bookmarks db).
  induction group_keys as [|k ks IHk]; simpl; [reflexivity|].
  rewrite map_app, IHk. f_equal.
  unfold group_row. destruct (filter _ _); reflexivity.
Qed.

Lemma insert_desc_map_row (r : AnnotatedNote) (l : list AnnotatedNote) :
  insert_desc (map_row f r) (map (map_row f) l) = map (map_row f) (insert_desc r l).
Proof.
  induction l as [|x xs IH]; simpl; [reflexivity|].
  rewrite !f_created_at.
  destruct (created_at (row_note x) <=? created_at (row_note r)); simpl;
    [reflexivity | now rewrite IH].
Qed.

Lemma order_by_map_row (l : list AnnotatedNote) :
  order_by_created_at_desc (map (map_row f) l)
  = map (map_row f) (order_by_created_at_desc l).
Proof.
  induction l as [|x xs IH]; simpl; [reflexivity|].
  now rewrite IH, insert_desc_map_row.
Qed.

Lemma filter_map_row (p : Note -> bool) (l : list AnnotatedNote) :
  (forall n, p (f n) = p n) ->
  filter (fun r => p (row_note r)) (map (map_row f) l)
  = map (map_row f) (filter (fun r => p (row_note r)) l).
Proof.
  intros Hp. induction l as [|x xs IH]; simpl; [reflexivity|].
  rewrite Hp. destruct (p (row_note x)); simpl; now rewrite IH.
Qed.

(** Every queryset of the rewritten store is the old one with the same
    rewrite applied to its rows. *)
Lemma get_queryset_map_notes (action : Action) (user : RequestUser) (db : DB) :
  get_queryset action user (map_notes f db)
  = map (map_row f) (get_queryset action user db).
Proof.
  unfold get_queryset.
  change (notes (map_notes f db)) with (map f (notes db)).
  rewrite annotate_map_notes.
  destruct (is_list_or_retrieve action);
    [destruct (negb (is_authenticated user) || negb (user_is_staff user))|];
    rewrite ?(filter_map_row is_approved) by exact f_is_approved;
    apply order_by_map_row.
Qed.

Lemma get_object_map_notes (action : Action) (request : Request) (db : DB) (pk_ : pk) :
  get_object action request (map_notes f db) pk_
  = match get_object action request db pk_ with
    | inl obj => inl (map_row f obj)
    | inr e => inr e
    end.
Proof.
  unfold get_object. rewrite get_queryset_map_notes.
  rewrite (filter_map_row (fun n => Pos.eqb (note_id n) pk_))
    by (intros n; now rewrite f_note_id).
  destruct (filter _ (get_queryset action (req_user request) db)) as [|r [|r' rs]];
    simpl; try reflexivity.
  replace (check_object_permissions action request (f (row_note r)))
    with (check_object_permissions action request (row_note r)).
  - destruct (check_object_permissions action request (row_note r)); reflexivity.
  - unfold check_object_permissions.
    replace (forallb (fun p => has_object_permission p request (f (row_note r)))
                     (get_permissions action))
      with (forallb (fun p => has_object_permission p request (row_note r))
                    (get_permissions action)); [reflexivity|].
    induction (get_permissions action) as [|p ps IH]; simpl; [reflexivity|].
    rewrite IH. f_equal. destruct p; simpl; try reflexivity.
    unfold user_eq_uploader. now rewrite f_uploader.
Qed.

End NoteColumnUpdate.

(** ** Downloads, one after the other *)

Lemma count_download_note_id (pk_ : pk) (n : Note) :
  note_id (count_download pk_ n) = note_id n.
Proof. unfold count_download. destruct (Pos.eqb _ _); reflexivity. Qed.

Lemma count_download_created_at (pk_ : pk) (n : Note) :
  created_at (count_download pk_ n) = created_at n.
Proof. unfold count_download. destruct (Pos.eqb _ _); reflexivity. Qed.

Lemma count_download_uploader (pk_ : pk) (n : Note) :
  uploader (count_download pk_ n) = uploader n.
Proof. unfold count_download. destruct (Pos.eqb _ _); reflexivity. Qed.

Lemma count_download_is_approved (pk_ : pk) (n : Note) :
  is_approved (count_download pk_ n) = is_approved n.
Proof. unfold count_download. destruct (Pos.eqb _ _); reflexivity. Qed.

(** The store a resolved download leaves. *)
Lemma download_store (user : User) (host : string) (pk_ : pk) (db : DB)
    (obj : AnnotatedNote) :
  NoDup (map note_id (notes db)) ->
  get_object download_action (request_of user GET host) db pk_ = inl obj ->
  snd (download user host pk_ db) = map_notes (count_download pk_) db.
Proof.
  intros Hnd Hobj. destruct (get_object_inl _ _ _ _ _ Hobj) as (_ & Hid & Hin & _).
  unfold download. rewrite Hobj. cbv zeta.
  unfold refresh_from_db, save_download_count_F_plus_1. simpl notes.
  rewrite (find_after_increment (row_note obj) (notes db) Hnd Hin).
  rewrite Hid. reflexivity.
Qed.

Lemma count_of_resolved_note (action : Action) (request : Request) (db : DB) (pk_ : pk)
    (obj : AnnotatedNote) :
  NoDup (map note_id (notes db)) ->
  get_object action request db pk_ = inl obj ->
  count_of_note db pk_ = Some (download_count (row_note obj)).
Proof.
  intros Hnd Hobj. destruct (get_object_inl _ _ _ _ _ Hobj) as (_ & Hid & Hin & _).
  unfold count_of_note.
  destruct (find (fun n => Pos.eqb (note_id n) pk_) (notes db)) as [m|] eqn:F.
  - apply find_some in F. destruct F as [Hm Hmid]. apply Pos.eqb_eq in Hmid.
    assert (m = row_note obj)
      by (apply (NoDup_map_In_inj note_id (notes db)); auto; congruence).
    now subst m.
  - exfalso. pose proof (find_none _ _ F _ Hin) as H. simpl in H.
    rewrite Hid, Pos.eqb_refl in H. discriminate.
Qed.

Lemma downloads_S (k : nat) (user : User) (host : string) (pk_ : pk) (db : DB) :
  downloads (S k) user host pk_ db
  = snd (download user host pk_ (downloads k user host pk_ db)).
Proof. reflexivity. Qed.

Lemma downloads_invariant (k : nat) (user : User) (host : string) (pk_ : pk) (db : DB)
    (obj : AnnotatedNote) :
  NoDup (map note_id (notes db)) ->
  get_object download_action (request_of user GET host) db pk_ = inl obj ->
  NoDup (map note_id (notes (downloads k user host pk_ db)))
  /\ exists obj_k,
       get_object download_action (request_of user GET host)
         (downloads k user host pk_ db) pk_ = inl obj_k
       /\ download_count (row_note obj_k) = download_count (row_note obj) + Z.of_nat k
       /\ likes (downloads k user host pk_ db) = likes db
       /\ bookmarks (downloads k user host pk_ db) = bookmarks db
       /\ star_ratings (downloads k user host pk_ db) = star_ratings db.
Proof.
  intros Hnd Hobj. induction k as [|k (Hndk & obj_k & Hobjk & Hck & Hl & Hb & Hr)].
  - split; [exact Hnd|]. exists obj. simpl. repeat split; auto. lia.
  - rewrite downloads_S.
    set (db_k := downloads k user host pk_ db) in *.
    rewrite (download_store user host pk_ db_k obj_k Hndk Hobjk).
    split.
    + unfold map_notes. simpl notes. rewrite map_map.
      erewrite map_ext; [exact Hndk|]. intros n. apply count_download_note_id.
    + exists (map_row (count_download pk_) obj_k).
      rewrite (get_object_map_notes (count_download pk_)
                 (count_download_note_id pk_) (count_download_created_at pk_)
                 (count_download_uploader pk_) (count_download_is_approved pk_)).
      rewrite Hobjk. repeat split; auto.
      destruct (get_object_inl _ _ _ _ _ Hobjk) as (_ & Hid & _ & _).
      simpl row_note. unfold count_download. rewrite Hid, Pos.eqb_refl. simpl.
      rewrite Hck. lia.
Qed.

(** [k] downloads of a note that resolves for the user add exactly [k] to
    its counter: the counter is not read by the query, so the note keeps
    resolving, and the likes, bookmarks and ratings stay as they were. *)
Theorem downloads_add_up (k : nat) (user : User) (host : string) (pk_ : pk) (db : DB)
    (obj : AnnotatedNote) :
  NoDup (map note_id (notes db)) ->
  get_object download_action (request_of user GET host) db pk_ = inl obj ->
  count_of_note (downloads k user host pk_ db) pk_
  = Some (download_count (row_note obj) + Z.of_nat k)
  /\ likes (downloads k user host pk_ db) = likes db
  /\ bookmarks (downloads k user host pk_ db) = bookmarks db
  /\ star_ratings (downloads k user host pk_ db) = star_ratings db.
Proof.
  intros Hnd Hobj.
  destruct (downloads_invariant k user host pk_ db obj Hnd Hobj)
    as (Hndk & obj_k & Hobjk & Hck & Hl & Hb & Hr).
  rewrite (count_of_resolved_note _ _ _ _ _ Hndk Hobjk), Hck. auto.
Qed.

Lemma downloads_add_up_witness :
  NoDup (map note_id (notes db0))
  /\ count_of_note (downloads 3 bob testserver 1%positive db0) 1%positive
     = Some (download_count (row_note (plain_row note1)) + Z.of_nat 3).
Proof.
  assert (H1 : NoDup (map note_id (notes db0))) by distinct_keys.
  split; [exact H1|].
  apply (downloads_add_up 3 bob testserver 1%positive db0 (plain_row note1) H1).
  reflexivity.
Defined.

(** A resolved download changes nothing any queryset computes but the
    counter of the one note: for every action and viewer the rows come in
    the same order, with the same annotations, and only the row of the
    downloaded note has its [download_count] raised by one. *)
Theorem download_leaves_querysets (user : User) (host : string) (pk_ : pk) (db : DB)
    (obj : AnnotatedNote) (action : Action) (viewer : RequestUser) :
  NoDup (map note_id (notes db)) ->
  get_object download_action (request_of user GET host) db pk_ = inl obj ->
  get_queryset action viewer (snd (download user host pk_ db))
  = map (map_row (count_download pk_)) (get_queryset action viewer db).
Proof.
  intros Hnd Hobj. rewrite (download_store user host pk_ db obj Hnd Hobj).
  apply get_queryset_map_notes.
  - apply count_download_note_id.
  - apply count_download_created_at.
  - apply count_download_is_approved.
Qed.

Lemma download_leaves_querysets_witness :
  NoDup (map note_id (notes db0))
  /\ get_queryset list_action (Authenticated alice)
       (snd (download bob testserver 1%positive db0))
     = map (map_row (count_download 1%positive))
           (get_queryset list_action (Authenticated alice) db0).
Proof.
  assert (H1 : NoDup (map note_id (notes db0))) by distinct_keys.
  split; [exact H1|].
  apply (download_leaves_querysets bob testserver 1%positive db0 (plain_row note1)
           list_action (Authenticated alice) H1).
  reflexivity.
Defined.

(** ** When an update is saved *)

(** An update is saved exactly when the user is staff and the note resolves
    to one row for them; in every other case the store is left as it was.
    The uploader's own update passes the object permission and is then
    refused by [perform_update]; anyone else's stops at the permission. *)
Theorem update_saved_iff_staff (user : User) (partial : bool) (host : string)
    (pk_ : pk) (data : NoteData) (db : DB) :
  (fst (perform_update user partial host pk_ data db) = None
   <-> is_staff user = true
       /\ exists obj,
            get_object (if partial then partial_update else update)
              (request_of user (if partial then PATCH else PUT) host) db pk_
            = inl obj)
  /\ (fst (perform_update user partial host pk_ data db) <> None ->
      snd (perform_update user partial host pk_ data db) = db).
Proof.
  unfold perform_update.
  destruct (get_object (if partial then partial_update else update)
              (request_of user (if partial then PATCH else PUT) host) db pk_)
    as [obj|e] eqn:G.
  - cbv zeta. destruct (is_staff user) eqn:Hs.
    + rewrite andb_false_r. simpl. split; [|intros H; now elim H].
      split; [intros _; split; eauto | reflexivity].
    + destruct (get_object_inl _ _ _ _ _ G) as (_ & _ & _ & P).
      rewrite (update_object_permission user partial host _ Hs) in P.
      simpl user_eq_uploader.
      destruct (Pos.eqb (user_id user) (uploader (row_note obj))); [|discriminate].
      simpl. split; [|reflexivity].
      split; [discriminate | intros [H _]; discriminate].
  - simpl. split; [|reflexivity].
    split; [discriminate | intros (_ & obj & H); discriminate].
Qed.

Lemma update_saved_iff_staff_witness :
  fst (perform_update admin true testserver 1%positive new_title_only db0) = None
  /\ fst (perform_update alice true testserver 1%positive new_title_only db0) <> None.
Proof.
  split.
  - apply (proj1 (update_saved_iff_staff admin true testserver 1%positive
                    new_title_only db0)).
    split; [reflexivity|]. exists (plain_row note1). reflexivity.
  - discriminate.
Defined.

(** ** Unapproved notes outside the listing *)

(** The approval filter belongs to [list] and [retrieve] only.  A note
    that is not approved is absent from the listing of a user who is not
    staff; yet, when its likes and bookmarks form one group for that user,
    the user's [download] answers 200 and reports and stores the counter
    raised by one, and the user's [toggle_like] and [toggle_bookmark]
    answer 200 and flip the like and the bookmark of (user, note).  Each of
    the three actions answers on the store where the note is unapproved
    what it answers where the note is approved, and writes the same
    rows. *)
Theorem unapproved_note_actions (user : User) (host : string) (n : Note) (db : DB) :
  is_staff user = false ->
  primary_keys_unique db ->
  engagement_invariant db ->
  In n (notes db) ->
  is_approved n = false ->
  one_group (Authenticated user) db (note_id n) ->
  (forall r, In r (get_queryset list_action (Authenticated user) db) -> row_note r <> n)
  /\ (exists file_url,
        fst (download user host (note_id n) db)
        = Response
            (DownloadBody
               "Download initiated (count incremented). Please use the file_url to download."
               file_url (download_count n + 1))
            HTTP_200_OK)
  /\ count_of_note (snd (download user host (note_id n) db)) (note_id n)
     = Some (download_count n + 1)
  /\ http_status (fst (toggle_like user host (note_id n) db)) = HTTP_200_OK
  /\ has_like (snd (toggle_like user host (note_id n) db)) user (note_id n)
     = negb (has_like db user (note_id n))
  /\ http_status (fst (toggle_bookmark user host (note_id n) db)) = HTTP_200_OK
  /\ has_bookmark (snd (toggle_bookmark user host (note_id n) db)) user (note_id n)
     = negb (has_bookmark db user (note_id n))
  /\ (let approved := set_approved (note_id n) true db in
      download user host (note_id n) approved
      = (fst (download user host (note_id n) db),
         set_approved (note_id n) true (snd (download user host (note_id n) db)))
      /\ toggle_like user host (note_id n) approved
         = (fst (toggle_like user host (note_id n) db),
            set_approved (note_id n) true (snd (toggle_like user host (note_id n) db)))
      /\ toggle_bookmark user host (note_id n) approved
         = (fst (toggle_bookmark user host (note_id n) db),
            set_approved (note_id n) true
              (snd (toggle_bookmark user host (note_id n) db)))).
Proof.
  intros Hstaff Hpk [Hul Hub] Hn Hun Hone. pose proof Hpk as (Hnd & _ & _).
  destruct (get_object_resolves download_action (request_of user GET host) db n
              eq_refl Hnd Hn Hone eq_refl) as (objd & Hobjd & Hrowd).
  destruct (get_object_resolves toggle_like_action (request_of user POST host) db n
              eq_refl Hnd Hn Hone eq_refl) as (objl & Hobjl & _).
  destruct (get_object_resolves toggle_bookmark_action (request_of user POST host) db n
              eq_refl Hnd Hn Hone eq_refl) as (objb & Hobjb & _).
  split; [|split; [|split; [|split; [|split; [|split; [|split]]]]]].
  - intros r Hr Heq. rewrite <- Heq in Hun.
    assert (Happ : is_approved (row_note r) = true).
    { apply (listing_approved_only list_action (Authenticated user) db r eq_refl);
        [simpl; exact Hstaff | exact Hr]. }
    congruence.
  - destruct (get_object_inl _ _ _ _ _ Hobjd) as (_ & Hid & Hin & _).
    unfold download. rewrite Hobjd. cbv zeta.
    unfold refresh_from_db, save_download_count_F_plus_1. simpl notes.
    rewrite (find_after_increment (row_note objd) (notes db) Hnd Hin).
    rewrite Hrowd. simpl. eexists. reflexivity.
  - destruct (downloads_invariant 1 user host (note_id n) db objd Hnd Hobjd)
      as (Hnd1 & obj1 & Hobj1 & Hc1 & _).
    change (downloads 1 user host (note_id n) db)
      with (snd (download user host (note_id n) db)) in Hnd1, Hobj1.
    rewrite (count_of_resolved_note _ _ _ _ _ Hnd1 Hobj1), Hc1, Hrowd. reflexivity.
  - eapply toggle_like_status_resolved; eauto.
  - destruct (has_like db user (note_id n)) eqn:Hhas.
    + destruct (toggle_like_off user host (note_id n) db objl Hobjl Hhas)
        as (li & _ & _ & _ & Heq & _ & Hgone & _).
      rewrite Heq. simpl. now apply Hgone.
    + destruct (toggle_like_on user host (note_id n) db objl Hobjl Hhas)
        as (Heq & _ & Hon & _).
      rewrite Heq. simpl. exact Hon.
  - eapply toggle_bookmark_status_resolved; eauto.
  - destruct (has_bookmark db user (note_id n)) eqn:Hhas.
    + destruct (toggle_bookmark_off user host (note_id n) db objb Hobjb Hhas)
        as (bi & _ & _ & _ & Heq & _ & Hgone & _).
      rewrite Heq. simpl. now apply Hgone.
    + destruct (toggle_bookmark_on user host (note_id n) db objb Hobjb Hhas)
        as (Heq & _ & Hon & _).
      rewrite Heq. simpl. exact Hon.
  - cbv zeta. split; [apply download_set_approved|].
    split; [apply toggle_like_set_approved | apply toggle_bookmark_set_approved].
Qed.

Lemma unapproved_note_actions_witness :
  is_staff alice = false
  /\ primary_keys_unique db0
  /\ engagement_invariant db0
  /\ In note2 (notes db0)
  /\ is_approved note2 = false
  /\ one_group (Authenticated alice) db0 (note_id note2)
  /\ count_of_note (snd (download alice testserver (note_id note2) db0)) (note_id note2)
     = Some (download_count note2 + 1)
  /\ has_like (snd (toggle_like alice testserver (note_id note2) db0)) alice
       (note_id note2)
     = negb (has_like db0 alice (note_id note2)).
Proof.
  assert (H1 : is_staff alice = false) by reflexivity.
  assert (H2 : primary_keys_unique db0) by (repeat split; distinct_keys).
  assert (H3 : engagement_invariant db0) by (split; constructor).
  assert (H4 : In note2 (notes db0)) by (simpl; tauto).
  assert (H5 : is_approved note2 = false) by reflexivity.
  assert (H6 : one_group (Authenticated alice) db0 (note_id note2))
    by (split; intros x y []).
  pose proof (unapproved_note_actions alice testserver note2 db0 H1 H2 H3 H4 H5 H6) as H.
  cbv zeta in H. tauto.
Defined.

(** ** The comment column of the admin change list *)

Lemma length_append (s t : string) :
  String.length (String.append s t) = (String.length s + String.length t)%nat.
Proof. induction s as [|c s IH]; simpl; [reflexivity | now rewrite IH]. Qed.

Lemma length_substring_0 (n : nat) (s : string) :
  String.length (String.substring 0 n s) = Nat.min n (String.length s).
Proof.
  revert s. induction n as [|n IH]; intros [|c s]; simpl; try reflexivity.
  now rewrite IH.
Qed.

Lemma substring_0_append (n : nat) (s t : string) :
  (n <= String.length s)%nat ->
  String.substring 0 n (String.append s t) = String.substring 0 n s.
Proof.
  revert s. induction n as [|n IH]; intros [|c s] Hn; simpl in *;
    try reflexivity; try lia.
  - now destruct t.
  - rewrite IH; [reflexivity | lia].
Qed.

Lemma substring_0_twice (n : nat) (s : string) :
  String.substring 0 n (String.substring 0 n s) = String.substring 0 n s.
Proof.
  revert s. induction n as [|n IH]; intros [|c s]; simpl; try reflexivity.
  now rewrite IH.
Qed.

Lemma length_0_empty (s : string) : String.length s = 0%nat -> s = EmptyString.
Proof. destruct s; [reflexivity | discriminate]. Qed.

(** The summary of a comment with a text shows the first 50 characters of
    the text unchanged and is at most 53 characters long; a text of up to
    50 characters is shown whole, and the summary is 53 characters long
    exactly when the text was cut. *)
Theorem comment_summary_shows_text (obj : Comment) :
  text obj <> EmptyString ->
  String.substring 0 50 (comment_summary obj) = String.substring 0 50 (text obj)
  /\ (String.length (comment_summary obj) <= 53)%nat
  /\ ((String.length (text obj) <= 50)%nat -> comment_summary obj = text obj)
  /\ (String.length (comment_summary obj) = 53%nat
      <-> (50 < String.length (text obj))%nat).
Proof.
  intros Htext. unfold comment_summary.
  destruct (Nat.eqb_spec (String.length (text obj)) 0) as [H0|_].
  { now apply length_0_empty in H0. }
  destruct (Nat.ltb_spec 50 (String.length (text obj))) as [Hlong|Hshort].
  - assert (Hlen : String.length
              (String.append (String.substring 0 50 (text obj)) "...") = 53%nat).
    { rewrite length_append, length_substring_0.
      rewrite Nat.min_l by lia. reflexivity. }
    repeat split.
    + rewrite substring_0_append.
      * apply substring_0_twice.
      * rewrite length_substring_0. rewrite Nat.min_l by lia. lia.
    + rewrite Hlen. lia.
    + intros Hle. lia.
    + intros _. exact Hlong.
    + intros _. exact Hlen.
  - repeat split; try lia; auto.
Qed.

Lemma comment_summary_shows_text_witness :
  text long_comment <> EmptyString
  /\ String.length (comment_summary long_comment) = 53%nat.
Proof.
  assert (H1 : text long_comment <> EmptyString) by discriminate.
  split; [exact H1|].
  apply (comment_summary_shows_text long_comment H1). vm_compute. lia.
Defined.

(** An empty text is shown as a dash. *)
Example comment_summary_empty :
  comment_summary {| comment_id := 1%positive; comment_note := 1%positive;
                     comment_user := 2%positive; text := EmptyString |}
  = "-"%string.
Proof. reflexivity. Qed.
